(** * MultiSelectChannels: the forwarding pipeline

    A shallow embedding of the core of the repository
    (src/core/message_processor.py, src/core/deduplication.py,
    src/core/queue_manager.py, src/core/forwarding_engine.py and the tables
    of src/database/models.py) together with the properties of its
    specification.

    Python values are modelled by the type [value]; a dict is an
    insertion-ordered association list, as in CPython.  The Redis store, the
    relational tables and the clock are explicit state that every operation
    receives and returns. *)

From Stdlib Require Import ZArith List String Ascii Bool Lia.
From Stdlib Require Decimal DecimalString DecimalZ DecimalFacts.
Import ListNotations.

#[local] Set Warnings "-register-all".

#[local] Open Scope string_scope.
#[local] Open Scope Z_scope.

(* ================================================================= *)
(** ** Python values *)

Module Py.

(** The JSON-serialisable fragment of Python values.  A [str] is a sequence
    of code points below 256, one [ascii] each. *)
Inductive value : Type :=
| VNone
| VBool (b : bool)
| VInt (z : Z)
| VStr (s : string)
| VList (l : list value)
| VDict (d : list (string * value)).

Definition dict : Type := list (string * value).

(** [d.get(k)] as an option; [d.get(k, default)] is [dict_get_default]. *)
Fixpoint dict_get (d : dict) (k : string) : option value :=
  match d with
  | [] => None
  | (k', v) :: d' => if String.eqb k' k then Some v else dict_get d' k
  end.

Definition dict_get_default (d : dict) (k : string) (default : value) : value :=
  match dict_get d k with
  | Some v => v
  | None => default
  end.

(** [d[k] = v]: an existing key keeps its position, a new key goes last. *)
Fixpoint dict_set (d : dict) (k : string) (v : value) : dict :=
  match d with
  | [] => [(k, v)]
  | (k', v') :: d' =>
      if String.eqb k' k then (k', v) :: d' else (k', v') :: dict_set d' k v
  end.

Definition keys (d : dict) : list string := map fst d.

(** Truthiness, as used by [if not x] and [all([...])]. *)
Definition truthy (v : value) : bool :=
  match v with
  | VNone => false
  | VBool b => b
  | VInt z => negb (z =? 0)
  | VStr s => negb (String.eqb s "")
  | VList l => match l with [] => false | _ => true end
  | VDict d => match d with [] => false | _ => true end
  end.

(** [str(int)]. *)
Definition str_of_Z (z : Z) : string := DecimalString.NilZero.string_of_int (Z.to_int z).

(* ----------------------------------------------------------------- *)
(** *** str and repr *)

(** The double-quote character, code point 34. *)
Definition dquote : ascii := ascii_of_N 34.

Definition hex_digit (n : N) : ascii :=
  if (n <? 10)%N then ascii_of_N (48 + n) else ascii_of_N (87 + n).

Fixpoint contains_char (code : N) (s : string) : bool :=
  match s with
  | "" => false
  | String c s' => (N_of_ascii c =? code)%N || contains_char code s'
  end.

(** [Py_UNICODE_ISPRINTABLE] on the code points below 256. *)
Definition printable (n : N) : bool :=
  ((32 <=? n) && (n <=? 126) || (161 <=? n) && negb (n =? 173))%N.

(** One character of [repr(str)] for the chosen quote character. *)
Definition repr_char (q : N) (c : ascii) : string :=
  let n := N_of_ascii c in
  if ((n =? q) || (n =? 92))%N then String "\" (String c "")
  else if (n =? 9)%N then "\t"
  else if (n =? 10)%N then "\n"
  else if (n =? 13)%N then "\r"
  else if printable n then String c ""
  else String "\" (String "x"
         (String (hex_digit (n / 16)) (String (hex_digit (n mod 16)) ""))).

Fixpoint repr_chars (q : N) (s : string) : string :=
  match s with
  | "" => ""
  | String c s' => repr_char q c ++ repr_chars q s'
  end.

(** [repr(str)]: single quotes unless the text has a single quote and no
    double quote. *)
Definition repr_str (s : string) : string :=
  let q := if contains_char 39 s && negb (contains_char 34 s)
           then 34%N else 39%N in
  String (ascii_of_N q) (repr_chars q s ++ String (ascii_of_N q) "").

(** [', '.join(parts)]. *)
Fixpoint join_comma (parts : list string) : string :=
  match parts with
  | [] => ""
  | [p] => p
  | p :: ps => p ++ ", " ++ join_comma ps
  end.

Fixpoint py_repr (v : value) : string :=
  match v with
  | VNone => "None"
  | VBool true => "True"
  | VBool false => "False"
  | VInt z => str_of_Z z
  | VStr s => repr_str s
  | VList l => "[" ++ join_comma (map py_repr l) ++ "]"
  | VDict d =>
      "{" ++ join_comma
               ((fix members (d : dict) : list string :=
                   match d with
                   | [] => []
                   | (k, x) :: d' => (repr_str k ++ ": " ++ py_repr x) :: members d'
                   end) d) ++ "}"
  end.

(** [str(v)]. *)
Definition py_str (v : value) : string :=
  match v with
  | VStr s => s
  | _ => py_repr v
  end.

(** [s.encode('utf-8')] on code points below 256. *)
Fixpoint utf8_encode (s : string) : list Z :=
  match s with
  | "" => []
  | String c s' =>
      let n := Z.of_N (N_of_ascii c) in
      if n <? 128 then n :: utf8_encode s'
      else Z.lor 192 (Z.shiftr n 6) :: Z.lor 128 (Z.land n 63) :: utf8_encode s'
  end.

(* ----------------------------------------------------------------- *)
(** *** datetime

    A naive [datetime] is the number of microseconds since
    1970-01-01T00:00:00; [timedelta(seconds=n)] is [n * 1000000]. *)

Definition datetime : Type := Z.

Definition timedelta_seconds (n : Z) : Z := n * 1000000.
Definition timedelta_hours (n : Z) : Z := n * 3600 * 1000000.

(** The bounds of the two types: [timedelta(seconds=n)] exists when its
    days are within 999999999 in magnitude, and a [datetime] lies between
    0001-01-01T00:00:00 and 9999-12-31T23:59:59.999999.  Beyond them the
    constructor and the sum raise [OverflowError]; the sums of a date and a
    delay written below are the sums within these bounds. *)
Definition timedelta_fits (seconds : Z) : bool :=
  (-86399999913600 <=? seconds) && (seconds <=? 86399999999999).
Definition datetime_fits (dt : datetime) : bool :=
  (-62135596800000000 <=? dt) && (dt <=? 253402300799999999).

(** A [datetime] object as a comparison sees it: the instant, and whether
    the object carries a [tzinfo].  [datetime.utcnow()] is naive; a value
    loaded from a [DateTime(timezone=True)] column is aware. *)
Record stamp : Type := mk_stamp { instant : datetime; aware : bool }.

(** [a < b]: [None] is the [TypeError] of a naive against an aware
    datetime. *)
Definition stamp_lt (a b : stamp) : option bool :=
  if Bool.eqb (aware a) (aware b) then Some (instant a <? instant b) else None.

Fixpoint zero_pad (width : nat) (s : string) : string :=
  match width with
  | O => s
  | S w => if (String.length s <=? w)%nat then zero_pad w (String "0" s) else s
  end.

Definition fmt (width : nat) (z : Z) : string := zero_pad width (str_of_Z z).

(** The proleptic Gregorian date of a day number counted from 1970-01-01. *)
Definition civil_from_days (z : Z) : Z * Z * Z :=
  let z := z + 719468 in
  let era := z / 146097 in
  let doe := z - era * 146097 in
  let yoe := (doe - doe / 1460 + doe / 36524 - doe / 146096) / 365 in
  let y := yoe + era * 400 in
  let doy := doe - (365 * yoe + yoe / 4 - yoe / 100) in
  let mp := (5 * doy + 2) / 153 in
  let d := doy - (153 * mp + 2) / 5 + 1 in
  let m := if mp <? 10 then mp + 3 else mp - 9 in
  (if m <=? 2 then y + 1 else y, m, d).

(** [dt.isoformat()]: the fraction is printed only when it is not zero. *)
Definition isoformat (dt : datetime) : string :=
  let day := dt / 86400000000 in
  let us_of_day := dt mod 86400000000 in
  let '(y, m, d) := civil_from_days day in
  let secs := us_of_day / 1000000 in
  let us := us_of_day mod 1000000 in
  fmt 4 y ++ "-" ++ fmt 2 m ++ "-" ++ fmt 2 d ++ "T"
    ++ fmt 2 (secs / 3600) ++ ":" ++ fmt 2 (secs / 60 mod 60) ++ ":"
    ++ fmt 2 (secs mod 60)
    ++ (if us =? 0 then "" else "." ++ fmt 6 us).

(** [dt.timestamp()], in microseconds: the local zone is taken to be UTC
    and the rounding of the float result is left out. *)
Definition timestamp (dt : datetime) : Z := dt.

(* ----------------------------------------------------------------- *)
(** *** json.dumps *)

(** One character of [py_encode_basestring_ascii]: the short escapes, the
    printable ASCII range [' '..'~'] verbatim, everything else as a
    four-digit lower-case [\u] escape. *)
Definition escape_char (c : ascii) : string :=
  let n := N_of_ascii c in
  if (n =? 34)%N then String "\" (String dquote "")
  else if (n =? 92)%N then "\\"
  else if (n =? 10)%N then "\n"
  else if (n =? 13)%N then "\r"
  else if (n =? 9)%N then "\t"
  else if (n =? 8)%N then "\b"
  else if (n =? 12)%N then "\f"
  else if ((32 <=? n) && (n <=? 126))%N then String c ""
  else String "\" (String "u" (String "0" (String "0"
         (String (hex_digit (n / 16)) (String (hex_digit (n mod 16)) ""))))).

Fixpoint escape (s : string) : string :=
  match s with
  | "" => ""
  | String c s' => escape_char c ++ escape s'
  end.

Definition quote (s : string) : string :=
  String dquote (escape s ++ String dquote "").

(** [json.dumps(v)] with the default separators and [ensure_ascii]. *)
Fixpoint json_dumps (v : value) : string :=
  match v with
  | VNone => "null"
  | VBool true => "true"
  | VBool false => "false"
  | VInt z => str_of_Z z
  | VStr s => quote s
  | VList l => "[" ++ join_comma (map json_dumps l) ++ "]"
  | VDict d =>
      "{" ++ join_comma
               ((fix members (d : dict) : list string :=
                   match d with
                   | [] => []
                   | (k, x) :: d' => (quote k ++ ": " ++ json_dumps x) :: members d'
                   end) d) ++ "}"
  end.

(* ----------------------------------------------------------------- *)
(** *** json.loads

    A scanner for the JSON texts over the fragment above.  Numbers with a
    fraction or an exponent and [\u] escapes of code points from 256 on
    denote values outside [value] and are rejected. *)

Definition is_ws (c : ascii) : bool :=
  let n := N_of_ascii c in
  ((n =? 32) || (n =? 9) || (n =? 10) || (n =? 13))%N.

Fixpoint skip_ws (s : string) : string :=
  match s with
  | "" => ""
  | String c s' => if is_ws c then skip_ws s' else s
  end.

Definition hex_val (c : ascii) : option N :=
  let n := N_of_ascii c in
  if ((48 <=? n) && (n <=? 57))%N then Some (n - 48)%N
  else if ((97 <=? n) && (n <=? 102))%N then Some (n - 87)%N
  else if ((65 <=? n) && (n <=? 70))%N then Some (n - 55)%N
  else None.

(** The character a backslash escape other than [\u] stands for. *)
Definition unescape (c : ascii) : option ascii :=
  let n := N_of_ascii c in
  if (n =? 34)%N then Some dquote
  else if (n =? 92)%N then Some "\"%char
  else if (n =? 47)%N then Some "/"%char
  else if (n =? 98)%N then Some (ascii_of_N 8)
  else if (n =? 102)%N then Some (ascii_of_N 12)
  else if (n =? 110)%N then Some (ascii_of_N 10)
  else if (n =? 114)%N then Some (ascii_of_N 13)
  else if (n =? 116)%N then Some (ascii_of_N 9)
  else None.

Definition prepend (c : ascii) (r : option (string * string))
  : option (string * string) :=
  match r with
  | Some (s, rest) => Some (String c s, rest)
  | None => None
  end.

(** [scanstring], entered after the opening quote (strict mode: a raw
    control character ends the scan with an error). *)
Fixpoint scan_string (s : string) : option (string * string) :=
  match s with
  | "" => None
  | String c s1 =>
      let n := N_of_ascii c in
      if (n =? 34)%N then Some ("", s1)
      else if (n =? 92)%N then
        match s1 with
        | "" => None
        | String e s2 =>
            if (N_of_ascii e =? 117)%N then
              match s2 with
              | String h1 (String h2 (String h3 (String h4 s3))) =>
                  match hex_val h1, hex_val h2, hex_val h3, hex_val h4 with
                  | Some a, Some b, Some c', Some d =>
                      let code := (((a * 16 + b) * 16 + c') * 16 + d)%N in
                      if (code <? 256)%N
                      then prepend (ascii_of_N code) (scan_string s3)
                      else None
                  | _, _, _, _ => None
                  end
              | _ => None
              end
            else
              match unescape e with
              | Some ch => prepend ch (scan_string s2)
              | None => None
              end
        end
      else if (n <? 32)%N then None
      else prepend c (scan_string s1)
  end.

Definition is_digit (c : ascii) : bool :=
  let n := N_of_ascii c in ((48 <=? n) && (n <=? 57))%N.

Fixpoint span_digits (s : string) : string * string :=
  match s with
  | "" => ("", "")
  | String c s' =>
      if is_digit c
      then let (ds, r) := span_digits s' in (String c ds, r)
      else ("", s)
  end.

Definition starts_float_tail (s : string) : bool :=
  match s with
  | "" => false
  | String c _ =>
      let n := N_of_ascii c in ((n =? 46) || (n =? 101) || (n =? 69))%N
  end.

Definition leading_zero (ds : string) : bool :=
  match ds with
  | String c (String _ _) => (N_of_ascii c =? 48)%N
  | _ => false
  end.

(** The digits of a number and their value; no superfluous leading zero,
    no fraction and no exponent. *)
Definition scan_digits (neg : bool) (s : string) : option (Z * string) :=
  let (ds, rest) := span_digits s in
  match DecimalString.NilZero.uint_of_string ds with
  | Some u =>
      if leading_zero ds || starts_float_tail rest then None
      else Some (if neg then - Z.of_uint u else Z.of_uint u, rest)
  | None => None
  end.

(** The integer part of [NUMBER_RE]: an optional minus, then the digits. *)
Definition scan_number (s : string) : option (Z * string) :=
  match s with
  | String c s' =>
      if (N_of_ascii c =? 45)%N then scan_digits true s' else scan_digits false s
  | "" => scan_digits false s
  end.

Fixpoint strip_prefix (p s : string) : option string :=
  match p, s with
  | "", _ => Some s
  | String a p', String b s' => if Ascii.eqb a b then strip_prefix p' s' else None
  | _, "" => None
  end.

Section Containers.
(** The scanner of one value, at the nesting depth below. *)
Variable scan_once : string -> option (value * string).

(** The elements of an array after its first one, up to the bracket. *)
Fixpoint parse_items (n : nat) (s : string) : option (list value * string) :=
  match n with
  | O => None
  | S n' =>
      match skip_ws s with
      | "" => None
      | String c s' =>
          if (N_of_ascii c =? 93)%N then Some ([], s')
          else if (N_of_ascii c =? 44)%N then
            match scan_once (skip_ws s') with
            | Some (v, r) =>
                match parse_items n' r with
                | Some (vs, r') => Some (v :: vs, r')
                | None => None
                end
            | None => None
            end
          else None
      end
  end.

(** One [key: value] member; [s] starts at the key's opening quote. *)
Definition parse_pair (s : string) : option ((string * value) * string) :=
  match s with
  | "" => None
  | String c s' =>
      if (N_of_ascii c =? 34)%N then
        match scan_string s' with
        | Some (k, r) =>
            match skip_ws r with
            | "" => None
            | String c' r' =>
                if (N_of_ascii c' =? 58)%N then
                  match scan_once (skip_ws r') with
                  | Some (v, r2) => Some ((k, v), r2)
                  | None => None
                  end
                else None
            end
        | None => None
        end
      else None
  end.

(** The members of an object after its first one, up to the brace. *)
Fixpoint parse_members (n : nat) (s : string)
  : option (list (string * value) * string) :=
  match n with
  | O => None
  | S n' =>
      match skip_ws s with
      | "" => None
      | String c s' =>
          if (N_of_ascii c =? 125)%N then Some ([], s')
          else if (N_of_ascii c =? 44)%N then
            match parse_pair (skip_ws s') with
            | Some (kv, r) =>
                match parse_members n' r with
                | Some (kvs, r') => Some (kv :: kvs, r')
                | None => None
                end
            | None => None
            end
          else None
      end
  end.
End Containers.

(** [dict(pairs)]: a repeated key keeps its first position and takes the
    last value. *)
Definition dict_of_pairs (pairs : list (string * value)) : dict :=
  fold_left (fun d kv => dict_set d (fst kv) (snd kv)) pairs [].

Definition first_is (code : N) (s : string) : option string :=
  match s with
  | "" => None
  | String c s' => if (N_of_ascii c =? code)%N then Some s' else None
  end.

(** [scan_once]: [fuel] bounds the nesting depth. *)
Fixpoint parse_value (fuel : nat) (s : string) : option (value * string) :=
  match fuel with
  | O => None
  | S fuel' =>
      match s with
      | "" => None
      | String c s' =>
          let n := N_of_ascii c in
          if (n =? 34)%N then
            match scan_string s' with
            | Some (str, r) => Some (VStr str, r)
            | None => None
            end
          else if (n =? 123)%N then
            match first_is 125 (skip_ws s') with
            | Some r => Some (VDict [], r)
            | None =>
                match parse_pair (parse_value fuel') (skip_ws s') with
                | Some (kv, r) =>
                    match parse_members (parse_value fuel') (S (String.length r)) r with
                    | Some (kvs, r') => Some (VDict (dict_of_pairs (kv :: kvs)), r')
                    | None => None
                    end
                | None => None
                end
            end
          else if (n =? 91)%N then
            match first_is 93 (skip_ws s') with
            | Some r => Some (VList [], r)
            | None =>
                match parse_value fuel' (skip_ws s') with
                | Some (v, r) =>
                    match parse_items (parse_value fuel') (S (String.length r)) r with
                    | Some (vs, r') => Some (VList (v :: vs), r')
                    | None => None
                    end
                | None => None
                end
            end
          else if (n =? 110)%N then
            option_map (fun r => (VNone, r)) (strip_prefix "null" s)
          else if (n =? 116)%N then
            option_map (fun r => (VBool true, r)) (strip_prefix "true" s)
          else if (n =? 102)%N then
            option_map (fun r => (VBool false, r)) (strip_prefix "false" s)
          else if ((n =? 45) || is_digit c)%N then
            option_map (fun zr => (VInt (fst zr), snd zr)) (scan_number s)
          else None
      end
  end.

(** The text of a sequence after its first part: each further part with
    the separator before it, then what follows the sequence. *)
Definition items_tail (parts : list string) (rest : string) : string :=
  fold_right (fun p acc => ", " ++ p ++ acc) rest parts.

(** The text of one member of an object. *)
Definition member_text (kv : string * value) : string :=
  quote (fst kv) ++ ": " ++ json_dumps (snd kv).

(** What may follow a value inside a JSON text: nothing, a comma, or a
    closing bracket or brace. *)
Definition delim (s : string) : bool :=
  match s with
  | "" => true
  | String c _ =>
      let n := N_of_ascii c in ((n =? 44) || (n =? 93) || (n =? 125))%N
  end.

(** The nesting depth of a value. *)
Fixpoint depth (v : value) : nat :=
  match v with
  | VList l => S (fold_right (fun x m => Nat.max (depth x) m) O l)
  | VDict d =>
      S ((fix deepest (d : dict) : nat :=
            match d with
            | [] => O
            | (_, x) :: d' => Nat.max (depth x) (deepest d')
            end) d)
  | _ => 1%nat
  end.

(** The invariant of Python dicts that the association lists must state:
    the keys of a dict are distinct, at every level of a value. *)
Fixpoint distinct (ks : list string) : bool :=
  match ks with
  | [] => true
  | k :: ks' => negb (existsb (String.eqb k) ks') && distinct ks'
  end.

Fixpoint wf (v : value) : bool :=
  match v with
  | VList l => forallb wf l
  | VDict d =>
      distinct (keys d)
      && (fix all (d : dict) : bool :=
            match d with
            | [] => true
            | (_, x) :: d' => wf x && all d'
            end) d
  | _ => true
  end.

(** A text that [json.loads] refuses whatever follows: after the leading
    whitespace it is empty, or it begins with a character that starts no
    JSON value (not the quote, [{], [[], [-], a digit, or the first letter
    of [null], [true], [false], [NaN] and [Infinity]). *)
Definition not_json (s : string) : bool :=
  match skip_ws s with
  | "" => true
  | String c _ =>
      let n := N_of_ascii c in
      negb ((n =? 34) || (n =? 123) || (n =? 91) || (n =? 110) || (n =? 116)
            || (n =? 102) || (n =? 45) || is_digit c || (n =? 78) || (n =? 73))%N
  end.

(** [json.loads(s)] on the fragment; [None] stands for [JSONDecodeError]
    there.  A JSON text outside the fragment (a number with a fraction or
    an exponent, [NaN], [Infinity], a [\u] escape from U+0100 on) is
    decoded by Python to a value that [value] does not have; what is
    proved below of a text that does not decode is stated for the texts
    of [not_json], which Python refuses as well. *)
Definition json_loads (s : string) : option value :=
  match parse_value (S (String.length s)) (skip_ws s) with
  | Some (v, r) => match skip_ws r with "" => Some v | _ => None end
  | None => None
  end.

End Py.

(* ================================================================= *)
(** ** hashlib.sha256 *)

Module Sha256.

Definition word (x : Z) : Z := x mod 4294967296.
Definition add32 (a b : Z) : Z := word (a + b).
Definition rotr (n x : Z) : Z :=
  word (Z.lor (Z.shiftr x n) (Z.shiftl x (32 - n))).
Definition shr (n x : Z) : Z := Z.shiftr x n.
Definition xor3 (a b c : Z) : Z := Z.lxor (Z.lxor a b) c.

Definition Ch (x y z : Z) : Z :=
  Z.lxor (Z.land x y) (Z.land (Z.lxor x 4294967295) z).
Definition Maj (x y z : Z) : Z := xor3 (Z.land x y) (Z.land x z) (Z.land y z).
Definition Sigma0 (x : Z) : Z := xor3 (rotr 2 x) (rotr 13 x) (rotr 22 x).
Definition Sigma1 (x : Z) : Z := xor3 (rotr 6 x) (rotr 11 x) (rotr 25 x).
Definition sigma0 (x : Z) : Z := xor3 (rotr 7 x) (rotr 18 x) (shr 3 x).
Definition sigma1 (x : Z) : Z := xor3 (rotr 17 x) (rotr 19 x) (shr 10 x).

Definition K : list Z :=
    [
     1116352408; 1899447441; 3049323471; 3921009573; 961987163; 1508970993;
     2453635748; 2870763221; 3624381080; 310598401; 607225278; 1426881987;
     1925078388; 2162078206; 2614888103; 3248222580; 3835390401; 4022224774;
     264347078; 604807628; 770255983; 1249150122; 1555081692; 1996064986;
     2554220882; 2821834349; 2952996808; 3210313671; 3336571891; 3584528711;
     113926993; 338241895; 666307205; 773529912; 1294757372; 1396182291;
     1695183700; 1986661051; 2177026350; 2456956037; 2730485921; 2820302411;
     3259730800; 3345764771; 3516065817; 3600352804; 4094571909; 275423344;
     430227734; 506948616; 659060556; 883997877; 958139571; 1322822218;
     1537002063; 1747873779; 1955562222; 2024104815; 2227730452; 2361852424;
     2428436474; 2756734187; 3204031479; 3329325298 ].

(** The eight working words. *)
Record state : Type := mk_state
  { sa : Z; sb : Z; sc : Z; sd : Z; se : Z; sf : Z; sg : Z; sh : Z }.

Definition H0 : state :=
  mk_state 1779033703 3144134277 1013904242 2773480762
           1359893119 2600822924 528734635 1541459225.

(** Padding: the bit 1, zeros up to 56 modulo 64, the bit length on eight
    bytes, big-endian. *)
Definition be_bytes (n : nat) (x : Z) : list Z :=
  map (fun i => Z.land (Z.shiftr x (8 * Z.of_nat i)) 255) (rev (seq 0 n)).

Definition pad (msg : list Z) : list Z :=
  let len := Z.of_nat (List.length msg) in
  let zeros := Z.to_nat ((55 - len) mod 64) in
  (msg ++ [128] ++ repeat 0 zeros ++ be_bytes 8 (8 * len))%list.

Fixpoint words_of_bytes (n : nat) (bs : list Z) : list Z :=
  match n with
  | O => []
  | S n' =>
      match bs with
      | b0 :: b1 :: b2 :: b3 :: bs' =>
          (((b0 * 256 + b1) * 256 + b2) * 256 + b3) :: words_of_bytes n' bs'
      | _ => []
      end
  end.

(** The message schedule, latest word first. *)
Fixpoint schedule (n : nat) (w : list Z) : list Z :=
  match n with
  | O => w
  | S n' =>
      let x := add32 (add32 (sigma1 (nth 1 w 0)) (nth 6 w 0))
                     (add32 (sigma0 (nth 14 w 0)) (nth 15 w 0)) in
      schedule n' (x :: w)
  end.

Definition round (s : state) (kw : Z * Z) : state :=
  let (k, w) := kw in
  let t1 := add32 (add32 (add32 (sh s) (Sigma1 (se s))) (Ch (se s) (sf s) (sg s)))
                  (add32 k w) in
  let t2 := add32 (Sigma0 (sa s)) (Maj (sa s) (sb s) (sc s)) in
  mk_state (add32 t1 t2) (sa s) (sb s) (sc s) (add32 (sd s) t1) (se s) (sf s) (sg s).

Definition compress (h : state) (block : list Z) : state :=
  let w := rev (schedule 48 (rev (words_of_bytes 16 block))) in
  let s := fold_left round (combine K w) h in
  mk_state (add32 (sa h) (sa s)) (add32 (sb h) (sb s)) (add32 (sc h) (sc s))
           (add32 (sd h) (sd s)) (add32 (se h) (se s)) (add32 (sf h) (sf s))
           (add32 (sg h) (sg s)) (add32 (sh h) (sh s)).

Fixpoint blocks (n : nat) (h : state) (bs : list Z) : state :=
  match n with
  | O => h
  | S n' => blocks n' (compress h (firstn 64 bs)) (skipn 64 bs)
  end.

Definition digest (msg : list Z) : state :=
  let p := pad msg in blocks (List.length p / 64) H0 p.

Definition nibble (x i : Z) : ascii :=
  Py.hex_digit (Z.to_N (Z.land (Z.shiftr x (4 * i)) 15)).

Definition hex8 (x : Z) (tail : string) : string :=
  String (nibble x 7) (String (nibble x 6) (String (nibble x 5)
    (String (nibble x 4) (String (nibble x 3) (String (nibble x 2)
      (String (nibble x 1) (String (nibble x 0) tail))))))).

(** [hashlib.sha256(msg).hexdigest()]. *)
Definition hexdigest (msg : list Z) : string :=
  let s := digest msg in
  hex8 (sa s) (hex8 (sb s) (hex8 (sc s) (hex8 (sd s)
    (hex8 (se s) (hex8 (sf s) (hex8 (sg s) (hex8 (sh s) ""))))))).

End Sha256.

(* ================================================================= *)
(** ** The Redis store *)

Module Redis.

(** A sorted set: members with their scores, ascending by score and, for
    equal scores, by the bytes of the member. *)
Definition zset : Type := list (string * Z).

Record store : Type := mk_store
  { lists : string -> list string;
    zsets : string -> zset }.

Definition empty : store := mk_store (fun _ => []) (fun _ => []).

Definition upd {A : Type} (f : string -> A) (key : string) (x : A)
  : string -> A :=
  fun k => if String.eqb k key then x else f k.

Definition entry_le (a b : string * Z) : bool :=
  (snd a <? snd b) || ((snd a =? snd b) && (fst a <=? fst b)%string).

Fixpoint zinsert (e : string * Z) (z : zset) : zset :=
  match z with
  | [] => [e]
  | x :: z' => if entry_le e x then e :: z else x :: zinsert e z'
  end.

Definition zremove (member : string) (z : zset) : zset :=
  filter (fun e => negb (String.eqb (fst e) member)) z.

(** [LPUSH key x]. *)
Definition lpush (r : store) (key x : string) : store :=
  mk_store (upd (lists r) key (x :: lists r key)) (zsets r).

(** [BRPOP key timeout] with no other client pushing during the wait: the
    last element, or nothing once the timeout has passed. *)
Definition brpop (r : store) (key : string) : option (string * string) * store :=
  match rev (lists r key) with
  | [] => (None, r)
  | x :: front => (Some (key, x), mk_store (upd (lists r) key (rev front)) (zsets r))
  end.

(** [ZADD key {member: score}]: a member already present takes the new
    score. *)
Definition zadd (r : store) (key member : string) (score : Z) : store :=
  mk_store (lists r)
           (upd (zsets r) key (zinsert (member, score) (zremove member (zsets r key)))).

(** [ZPOPMAX key]: the member with the highest score, the greatest member
    among those of that score; the empty list on an empty set. *)
Definition zpopmax (r : store) (key : string) : list (string * Z) * store :=
  match rev (zsets r key) with
  | [] => ([], r)
  | e :: front => ([e], mk_store (lists r) (upd (zsets r) key (rev front)))
  end.

(** [ZRANGEBYSCORE key lo hi WITHSCORES]. *)
Definition zrangebyscore (r : store) (key : string) (lo hi : Z)
  : list (string * Z) :=
  filter (fun e => (lo <=? snd e) && (snd e <=? hi)) (zsets r key).

(** [ZREM key member]. *)
Definition zrem (r : store) (key member : string) : store :=
  mk_store (lists r) (upd (zsets r) key (zremove member (zsets r key))).

Definition llen (r : store) (key : string) : nat := List.length (lists r key).
Definition zcard (r : store) (key : string) : nat := List.length (zsets r key).

(** [DEL key]: the key goes, whatever it holds; the reply is the number of
    keys removed, and a key exists as long as its list or set is not
    empty. *)
Definition del (r : store) (key : string) : Z * store :=
  ((match lists r key, zsets r key with
    | [], [] => 0
    | _, _ => 1
    end),
   mk_store (upd (lists r) key []) (upd (zsets r) key [])).

End Redis.

(* ================================================================= *)
(** ** Exceptions *)

Module Exc.

Inductive exn : Type :=
| RuntimeError (msg : string)
| KeyError (key : string)
| TypeError
| ValueError
| AttributeError
| JSONDecodeError
| DataError
| IntegrityError (constraint : string)
| NoResultFound
| MultipleResultsFound.

End Exc.

(* ================================================================= *)
(** ** The relational tables (src/database/models.py) *)

Module Db.

Inductive AccessType : Type := BOT | USER.
Inductive ForwardingMode : Type := FORWARD | COPY.
Inductive MessageStatus : Type := PENDING | PROCESSING | SUCCESS | FAILED | RETRYING.

Definition AccessType_value (a : AccessType) : string :=
  match a with BOT => "bot" | USER => "user" end.
Definition ForwardingMode_value (m : ForwardingMode) : string :=
  match m with FORWARD => "forward" | COPY => "copy" end.

(** [AccessType(s)] and [ForwardingMode(s)]: [None] is [ValueError]. *)
Definition AccessType_of (s : string) : option AccessType :=
  if String.eqb s "bot" then Some BOT
  else if String.eqb s "user" then Some USER else None.
Definition ForwardingMode_of (s : string) : option ForwardingMode :=
  if String.eqb s "forward" then Some FORWARD
  else if String.eqb s "copy" then Some COPY else None.

(** The columns the forwarding pipeline reads or writes; titles, owners
    and the server-side timestamps are left out. *)
Record Channel : Type := mk_Channel
  { ch_id : Z;
    ch_telegram_id : Z;
    ch_access_type : AccessType;
    ch_is_active : bool }.

Record ForwardingMapping : Type := mk_ForwardingMapping
  { fm_id : Z;
    fm_source_channel_id : Z;
    fm_dest_channel_id : Z;
    fm_mode : ForwardingMode;
    fm_enabled : bool }.

(** The value of a [Text] column: a string of the program, or [str(e)] of
    an exception, whose wording is the raising library's and which is kept
    as the exception it is the text of. *)
Inductive text : Type :=
| Literal (s : string)
| StrOf (e : Exc.exn).

Record MessageLog : Type := mk_MessageLog
  { ml_id : Z;
    ml_source_channel_id : Z;
    ml_source_message_id : Z;
    ml_dest_channel_ids : list Z;
    ml_status : MessageStatus;
    ml_attempts : Z;
    ml_last_error : option text;
    ml_forwarded_message_ids : option Py.dict;
    ml_processing_started_at : option Py.datetime;
    ml_processing_completed_at : option Py.datetime }.

Record DeduplicationCache : Type := mk_DeduplicationCache
  { dc_id : Z;
    dc_content_hash : string;
    dc_source_channel_id : Z;
    dc_source_message_id : Z;
    dc_created_at : Py.datetime }.

(** [created_at] as it is loaded: the column is [DateTime(timezone=True)]. *)
Definition created_at (r : DeduplicationCache) : Py.stamp :=
  Py.mk_stamp (dc_created_at r) true.

(** What a [BigInteger] column holds. *)
Definition bigint_fits (z : Z) : bool :=
  (-9223372036854775808 <=? z) && (z <=? 9223372036854775807).

Record FloodWaitLog : Type := mk_FloodWaitLog
  { fw_id : Z;
    fw_client_type : string;
    fw_wait_duration : Z;
    fw_operation_type : string;
    fw_channel_id : option Z }.

(** The database: whether its server can be reached, the rows of each
    table and the next value of each table's id sequence. *)
Record t : Type := mk_db
  { reachable : bool;
    channels : list Channel;
    mappings : list ForwardingMapping;
    messages_log : list MessageLog;
    deduplication_cache : list DeduplicationCache;
    flood_wait_log : list FloodWaitLog;
    messages_log_seq : Z;
    deduplication_cache_seq : Z;
    flood_wait_log_seq : Z }.

Definition with_messages_log (d : t) (rows : list MessageLog) (seq : Z) : t :=
  mk_db (reachable d) (channels d) (mappings d) rows (deduplication_cache d)
        (flood_wait_log d) seq (deduplication_cache_seq d) (flood_wait_log_seq d).

Definition with_deduplication_cache (d : t) (rows : list DeduplicationCache)
  (seq : Z) : t :=
  mk_db (reachable d) (channels d) (mappings d) (messages_log d) rows
        (flood_wait_log d) (messages_log_seq d) seq (flood_wait_log_seq d).

Definition with_flood_wait_log (d : t) (rows : list FloodWaitLog) (seq : Z) : t :=
  mk_db (reachable d) (channels d) (mappings d) (messages_log d)
        (deduplication_cache d) rows (messages_log_seq d)
        (deduplication_cache_seq d) seq.

(** [UniqueConstraint('source_channel_id', 'source_message_id',
    name='unique_source_message')] on [messages_log]. *)
Definition unique_source_message_taken (rows : list MessageLog)
  (source_channel_id source_message_id : Z) : bool :=
  existsb (fun r => (ml_source_channel_id r =? source_channel_id)
                    && (ml_source_message_id r =? source_message_id)) rows.

(** The pair the constraint is about, and the table satisfying it. *)
Definition source_message (r : MessageLog) : Z * Z :=
  (ml_source_channel_id r, ml_source_message_id r).

Definition unique_source_message (d : t) : Prop :=
  NoDup (map source_message (messages_log d)).

(** [content_hash] is declared [unique=True] on [deduplication_cache]. *)
Definition content_hash_taken (rows : list DeduplicationCache) (h : string)
  : bool :=
  existsb (fun r => String.eqb (dc_content_hash r) h) rows.

(** The table satisfying that constraint. *)
Definition unique_content_hash (d : t) : Prop :=
  NoDup (map dc_content_hash (deduplication_cache d)).

End Db.

(* ================================================================= *)
(** ** The runtime: exceptions and the state the coroutines share *)

Module Run.
Export Exc.

Inductive result (A : Type) : Type :=
| Ok (a : A)
| Raise (e : exn).
Arguments Ok {A} a.
Arguments Raise {A} e.

Inductive ClientType : Type := BOT | USER | AUTO.
Inductive api_call : Type := api_forward | api_copy.

(** What a call of the Telegram API comes back with. *)
Inductive api_result : Type :=
| Sent (message_id chat_id : Z) (date : Py.datetime)
| FloodWaitError (seconds : Z)
| ApiError (text : string).

(** The state shared by the engine's coroutines: the Redis connection of
    the queue manager ([None] until [start]), the database, the successive
    readings of [datetime.utcnow()], and the two Telegram clients with the
    outcome of each of their calls. *)
Record world : Type := mk_world
  { redis : option Redis.store;
    db : Db.t;
    clock : nat -> Py.datetime;
    reads : nat;
    bot_initialized : bool;
    user_running : bool;
    api : ClientType -> api_call -> Z -> Z -> Z -> api_result }.

Definition M (A : Type) : Type := world -> result A * world.

Definition ret {A : Type} (a : A) : M A := fun w => (Ok a, w).
Definition raise {A : Type} (e : exn) : M A := fun w => (Raise e, w).
Definition bind {A B : Type} (m : M A) (k : A -> M B) : M B :=
  fun w => match m w with
           | (Ok a, w') => k a w'
           | (Raise e, w') => (Raise e, w')
           end.

(** [try: m except Exception as e: handler e]. *)
Definition try_except {A : Type} (m : M A) (handler : exn -> M A) : M A :=
  fun w => match m w with
           | (Ok a, w') => (Ok a, w')
           | (Raise e, w') => handler e w'
           end.

Definition set_redis (r : option Redis.store) (w : world) : world :=
  mk_world r (db w) (clock w) (reads w) (bot_initialized w) (user_running w) (api w).
Definition set_db (d : Db.t) (w : world) : world :=
  mk_world (redis w) d (clock w) (reads w) (bot_initialized w) (user_running w) (api w).

Definition get {A : Type} (f : world -> A) : M A := fun w => (Ok (f w), w).
Definition modify (f : world -> world) : M unit := fun w => (Ok tt, f w).

(** [datetime.utcnow()]: the next reading of the clock. *)
Definition utcnow : M Py.datetime :=
  fun w => (Ok (clock w (reads w)),
            mk_world (redis w) (db w) (clock w) (S (reads w))
                     (bot_initialized w) (user_running w) (api w)).

(** [for x in xs: body x]. *)
Fixpoint for_each {A : Type} (xs : list A) (body : A -> M unit) : M unit :=
  match xs with
  | [] => ret tt
  | x :: xs' => bind (body x) (fun _ => for_each xs' body)
  end.

(** A loop that carries an accumulator through its iterations. *)
Fixpoint fold_m {A S : Type} (xs : list A) (acc : S) (body : S -> A -> M S) : M S :=
  match xs with
  | [] => ret acc
  | x :: xs' => bind (body acc x) (fun acc' => fold_m xs' acc' body)
  end.

(** [v[key]] on a value. *)
Definition subscript (v : Py.value) (key : string) : M Py.value :=
  match v with
  | Py.VDict d =>
      match Py.dict_get d key with
      | Some x => ret x
      | None => raise (KeyError key)
      end
  | _ => raise TypeError
  end.

(** The items a [for] loop draws from a value. *)
Definition iterate (v : Py.value) : M (list Py.value) :=
  match v with
  | Py.VList l => ret l
  | Py.VDict d => ret (map Py.VStr (Py.keys d))
  | Py.VStr s => ret (map (fun c => Py.VStr (String c "")) (list_ascii_of_string s))
  | _ => raise TypeError
  end.

(** An operation keeps a property of the database when the property holds
    after every run that starts where it holds, whether the run returns or
    raises. *)
Definition keeps {A : Type} (P : Db.t -> Prop) (m : M A) : Prop :=
  forall w, P (db w) -> P (db (snd (m w))).

(** [async with get_db_session() as session]: [get_db_session]
    (src/database/connection.py) is an async generator function without
    [@asynccontextmanager], unlike [DatabaseManager.get_session], which it
    wraps.  The object a call returns has no [__aenter__], so the
    [async with] statement raises [TypeError] before the generator is
    started: no session is made and the body is not entered.  (Python
    before 3.11 raises [AttributeError] at the same place; every caller
    handles the two alike, under [except Exception].) *)
Definition get_db_session : M Db.t := raise TypeError.

End Run.

Declare Scope run_scope.
Delimit Scope run_scope with run.
Notation "x <- m ;; k" := (Run.bind m (fun x => k))
  (at level 61, m at next level, right associativity) : run_scope.
Notation "m ;;; k" := (Run.bind m (fun _ => k))
  (at level 61, right associativity) : run_scope.

(* ================================================================= *)
(** ** src/core/message_processor.py *)

Module MessageProcessor.
Import Py.
Import Run (M, ret, try_except).
#[local] Open Scope run_scope.

(** The three parts that are hashed, each with the default of its
    [message_data.get]. *)
Definition content_parts (message_data : dict) : list string :=
  [ py_str (dict_get_default message_data "text" (VStr ""));
    py_str (dict_get_default message_data "has_media" (VBool false));
    py_str (dict_get_default message_data "from_id" (VStr "")) ].

(** ['|'.join(parts)]. *)
Fixpoint join_bar (parts : list string) : string :=
  match parts with
  | [] => ""
  | [p] => p
  | p :: ps => p ++ "|" ++ join_bar ps
  end.

Definition content_string (message_data : dict) : string :=
  join_bar (content_parts message_data).

Definition _generate_content_hash (message_data : dict) : string :=
  Sha256.hexdigest (utf8_encode (content_string message_data)).

Definition _determine_message_type (message_data : dict) : string :=
  if truthy (dict_get_default message_data "has_media" VNone) then "media"
  else if truthy (dict_get_default message_data "text" VNone) then "text"
  else "other".

(** The dict [UserClientManager.get_messages] (src/clients/user_client.py)
    builds for a message: [text] is [msg.text or msg.raw_text or ''],
    [date] the message's date, [media] is [bool(msg.media)] and [from_id]
    the sender's user id, [None] without a sender. *)
Definition message_dict (id : Z) (text : string) (date : value) (media : bool)
  (from_id : option Z) : dict :=
  [ ("id", VInt id);
    ("text", VStr text);
    ("date", date);
    ("media", VBool media);
    ("from_id", match from_id with Some user_id => VInt user_id | None => VNone end) ].

(** [extract_message_data]; [messages] is the list the user client's
    [get_messages] answered with. *)
Definition extract_message_data (messages : list dict) (source_channel_id : Z)
  : M (option dict) :=
  try_except
    (match messages with
     | [] => ret None
     | message_data :: _ =>
         id <- Run.subscript (VDict message_data) "id" ;;
         let content_hash := _generate_content_hash message_data in
         let message_type := _determine_message_type message_data in
         extracted_at <- Run.utcnow ;;
         ret (Some [ ("message_id", id);
                     ("source_channel_id", VInt source_channel_id);
                     ("text", dict_get_default message_data "text" (VStr ""));
                     ("date", dict_get_default message_data "date" VNone);
                     ("has_media",
                      dict_get_default message_data "media" (VBool false));
                     ("from_id", dict_get_default message_data "from_id" VNone);
                     ("content_hash", VStr content_hash);
                     ("message_type", VStr message_type);
                     ("extracted_at", VStr (isoformat extracted_at)) ])
     end)
    (fun _ => ret None).

End MessageProcessor.

(* ================================================================= *)
(** ** src/core/deduplication.py *)

Module DeduplicationService.
Import Py Run.
#[local] Open Scope run_scope.

Section Service.
(** [self.cache_ttl_hours]. *)
Variable cache_ttl_hours : Z.

Definition _is_cache_valid (created_at : stamp) : M bool :=
  let expiry_time :=
    mk_stamp (instant created_at + timedelta_hours cache_ttl_hours)
             (aware created_at) in
  now <- utcnow ;;
  match stamp_lt (mk_stamp now false) expiry_time with
  | Some valid => ret valid
  | None => raise TypeError
  end.

(** [session.delete(existing); session.commit()]. *)
Definition delete_entry (existing : Db.DeduplicationCache) : M unit :=
  modify (fun w =>
    set_db (Db.with_deduplication_cache (db w)
              (filter (fun r => negb (Db.dc_id r =? Db.dc_id existing))
                      (Db.deduplication_cache (db w)))
              (Db.deduplication_cache_seq (db w))) w).

Definition is_duplicate (message_data : dict) : M bool :=
  let content_hash := dict_get_default message_data "content_hash" VNone in
  if negb (truthy content_hash) then ret false
  else
    try_except
      (session <- get_db_session ;;
       h <- match content_hash with
            | VStr h => ret h
            | _ => raise DataError
            end ;;
       existing <- match filter (fun r => String.eqb (Db.dc_content_hash r) h)
                                (Db.deduplication_cache session) with
                   | [] => ret None
                   | [r] => ret (Some r)
                   | _ => raise MultipleResultsFound
                   end ;;
       match existing with
       | Some e =>
           valid <- _is_cache_valid (Db.created_at e) ;;
           if valid then ret true
           else delete_entry e ;;; ret false
       | None => ret false
       end)
      (fun _ => ret false).

(** A value bound to a [BigInteger] column. *)
Definition as_bigint (v : value) : M Z :=
  match v with
  | VInt z => if Db.bigint_fits z then ret z else raise DataError
  | VBool b => ret (if b then 1 else 0)
  | _ => raise DataError
  end.

(** [mark_as_processed(message_data)], declared [-> None]: what the call
    hands back ([None], or the [0] its handler returns) is read by no
    one and is not kept here. *)
Definition mark_as_processed (message_data : dict) : M unit :=
  let content_hash := dict_get_default message_data "content_hash" VNone in
  let source_channel_id := dict_get_default message_data "source_channel_id" VNone in
  let source_message_id := dict_get_default message_data "message_id" VNone in
  if negb (truthy content_hash && truthy source_channel_id
           && truthy source_message_id)
  then ret tt
  else
    try_except
      (session <- get_db_session ;;
       created_at <- utcnow ;;
       h <- match content_hash with
            | VStr h => if (String.length h <=? 64)%nat then ret h else raise DataError
            | _ => raise DataError
            end ;;
       src <- as_bigint source_channel_id ;;
       mid <- as_bigint source_message_id ;;
       modify (fun w =>
         let d := db w in
         let seq := Db.deduplication_cache_seq d in
         if Db.content_hash_taken (Db.deduplication_cache d) h
         then set_db (Db.with_deduplication_cache d (Db.deduplication_cache d) (seq + 1)) w
         else set_db (Db.with_deduplication_cache d
                        (Db.deduplication_cache d
                           ++ [Db.mk_DeduplicationCache seq h src mid created_at])%list
                        (seq + 1)) w))
      (fun _ => ret tt).

Definition cleanup_expired_entries : M Z :=
  try_except
    (now <- utcnow ;;
     let cutoff_time := now - timedelta_hours cache_ttl_hours in
     session <- get_db_session ;;
     let kept := filter (fun r => negb (Db.dc_created_at r <? cutoff_time))
                        (Db.deduplication_cache session) in
     modify (fun w =>
       set_db (Db.with_deduplication_cache (db w) kept
                 (Db.deduplication_cache_seq (db w))) w) ;;;
     ret (Z.of_nat (List.length (Db.deduplication_cache session))
          - Z.of_nat (List.length kept)))
    (fun _ => ret 0).

Definition get_cache_statistics : M dict :=
try_except
  (session <- get_db_session ;;
   let total_entries := Z.of_nat (List.length (Db.deduplication_cache session)) in
   now <- utcnow ;;
   let cutoff_time := now - timedelta_hours cache_ttl_hours in
   let valid_entries :=
     Z.of_nat (List.length (filter (fun r => cutoff_time <=? Db.dc_created_at r)
                                   (Db.deduplication_cache session))) in
   let expired_entries := total_entries - valid_entries in
   ret [ ("total_entries", VInt total_entries);
         ("valid_entries", VInt valid_entries);
         ("expired_entries", VInt expired_entries);
         ("cache_ttl_hours", VInt cache_ttl_hours) ])
  (fun _ => ret [ ("total_entries", VInt 0); ("valid_entries", VInt 0);
                  ("expired_entries", VInt 0);
                  ("cache_ttl_hours", VInt cache_ttl_hours) ]).

Definition force_cleanup_all : M Z :=
try_except
  (session <- get_db_session ;;
   modify (fun w =>
     set_db (Db.with_deduplication_cache (db w) []
               (Db.deduplication_cache_seq (db w))) w) ;;;
   ret (Z.of_nat (List.length (Db.deduplication_cache session))))
  (fun _ => ret 0).
End Service.

End DeduplicationService.

(* ================================================================= *)
(** ** src/core/queue_manager.py *)

Module QueueManager.
Import Py Run.
#[local] Open Scope run_scope.

Definition main_queue : string := "forwarding:messages".
Definition retry_queue : string := "forwarding:retry".
Definition failed_queue : string := "forwarding:failed".
Definition flood_wait_queue : string := "forwarding:flood_wait".
Definition priority_queue : string := main_queue ++ ":priority".

(** [if not self.redis: raise RuntimeError(...)]. *)
Definition connection : M Redis.store :=
  r <- get redis ;;
  match r with
  | Some store => ret store
  | None => raise (RuntimeError "Queue manager not started")
  end.

Definition put_store (r : Redis.store) : M unit := modify (set_redis (Some r)).

(** [enqueue_message(message_data, priority)]; the dict of the caller is
    updated in place, so the updated dict is returned with the result. *)
Definition enqueue_message (message_data : dict) (priority : Z) : M dict :=
  r <- connection ;;
  now <- utcnow ;;
  let message_data := dict_set message_data "enqueued_at" (VStr (isoformat now)) in
  let message_data := dict_set message_data "priority" (VInt priority) in
  let message_data := dict_set message_data "attempts" (VInt 0) in
  let message_json := json_dumps (VDict message_data) in
  (if priority >? 0
   then put_store (Redis.zadd r priority_queue message_json priority)
   else put_store (Redis.lpush r main_queue message_json)) ;;;
  ret message_data.

(** [dequeue_message(timeout)]: every exception is logged and turned into
    [None]. *)
Definition dequeue_message : M (option value) :=
  r <- get redis ;;
  match r with
  | None => ret None
  | Some r =>
      try_except
        (let (priority_result, r1) := Redis.zpopmax r priority_queue in
         match priority_result with
         | (message_json, _) :: _ =>
             put_store r1 ;;;
             match json_loads message_json with
             | Some v => ret (Some v)
             | None => raise JSONDecodeError
             end
         | [] =>
             let (result, r2) := Redis.brpop r main_queue in
             match result with
             | Some (_, message_json) =>
                 put_store r2 ;;;
                 match json_loads message_json with
                 | Some v => ret (Some v)
                 | None => raise JSONDecodeError
                 end
             | None => ret None
             end
         end)
        (fun _ => ret None)
  end.

(** [x + 1] for the attempt counter. *)
Definition plus_one (v : value) : M value :=
  match v with
  | VInt z => ret (VInt (z + 1))
  | VBool b => ret (VInt ((if b then 1 else 0) + 1))
  | _ => raise TypeError
  end.

(** [enqueue_retry(message_data, delay_seconds)] for a delay that a
    [timedelta] holds and whose sum with the clock a [datetime] holds
    ([timedelta_fits], [datetime_fits]); beyond that Python raises
    [OverflowError] where the sum is formed. *)
Definition enqueue_retry (message_data : dict) (delay_seconds : Z) : M dict :=
  r <- connection ;;
  attempts <- plus_one (dict_get_default message_data "attempts" (VInt 0)) ;;
  let message_data := dict_set message_data "attempts" attempts in
  now1 <- utcnow ;;
  let message_data :=
    dict_set message_data "retry_after"
             (VStr (isoformat (now1 + timedelta_seconds delay_seconds))) in
  now2 <- utcnow ;;
  let retry_time := timestamp now2 + timedelta_seconds delay_seconds in
  let message_json := json_dumps (VDict message_data) in
  put_store (Redis.zadd r retry_queue message_json retry_time) ;;;
  ret message_data.

(** [enqueue_flood_wait(message_data, wait_seconds)], for a wait within
    the same bounds. *)
Definition enqueue_flood_wait (message_data : dict) (wait_seconds : Z) : M dict :=
  r <- connection ;;
  now1 <- utcnow ;;
  let message_data :=
    dict_set message_data "flood_wait_until"
             (VStr (isoformat (now1 + timedelta_seconds wait_seconds))) in
  let message_data := dict_set message_data "flood_wait_duration" (VInt wait_seconds) in
  now2 <- utcnow ;;
  let wait_until := timestamp now2 + timedelta_seconds wait_seconds in
  let message_json := json_dumps (VDict message_data) in
  put_store (Redis.zadd r flood_wait_queue message_json wait_until) ;;;
  ret message_data.

Definition enqueue_failed (message_data : dict) (error_message : string) : M dict :=
  r <- connection ;;
  now <- utcnow ;;
  let message_data := dict_set message_data "failed_at" (VStr (isoformat now)) in
  let message_data := dict_set message_data "final_error" (VStr error_message) in
  let message_data :=
    dict_set message_data "final_attempts"
             (dict_get_default message_data "attempts" (VInt 0)) in
  let message_json := json_dumps (VDict message_data) in
  put_store (Redis.lpush r failed_queue message_json) ;;;
  ret message_data.

(** [self.enqueue_message(json.loads(message_json))] in the two sweepers:
    the decoded value is used as the dict [enqueue_message] writes to. *)
Definition reenqueue (message_json : string) : M unit :=
  match json_loads message_json with
  | Some (VDict message_data) => enqueue_message message_data 0 ;;; ret tt
  | Some _ => raise TypeError
  | None => raise JSONDecodeError
  end.

(** [await self.redis.zrem(queue, message_json)], the first statement of
    the body of a sweeper's loop. *)
Definition remove_member (queue message_json : string) : M unit :=
  r <- get redis ;;
  match r with
  | Some r => put_store (Redis.zrem r queue message_json)
  | None => raise AttributeError
  end.

(** The body of a sweeper's loop: the member is removed from the sorted
    set, then decoded and enqueued on the main queue. *)
Definition move_to_main (queue : string) (entry : string * Z) : M unit :=
  let (message_json, score) := entry in
  remove_member queue message_json ;;;
  reenqueue message_json.

(** [self.redis.zrangebyscore(queue, 0, current_time, withscores=True)]. *)
Definition ready_members (queue : string) (current_time : Z)
  : M (list (string * Z)) :=
  r <- get redis ;;
  match r with
  | Some r => ret (Redis.zrangebyscore r queue 0 current_time)
  | None => raise AttributeError
  end.

(** One pass of the loop of a sweeper over the sorted set [queue]: the
    ready members are read, then each is moved; an exception ends the
    pass. *)
Definition sweep (queue : string) : M unit :=
  try_except
    (now <- utcnow ;;
     let current_time := timestamp now in
     results <- ready_members queue current_time ;;
     for_each results (move_to_main queue))
    (fun _ => ret tt).

Definition _process_retry_queue_pass : M unit := sweep retry_queue.
Definition _process_flood_wait_queue_pass : M unit := sweep flood_wait_queue.

(** [sum(sizes.values())]. *)
Fixpoint py_sum (vs : list value) : M Z :=
  match vs with
  | [] => ret 0
  | VInt z :: vs' => total <- py_sum vs' ;; ret (z + total)
  | VBool b :: vs' => total <- py_sum vs' ;; ret ((if b then 1 else 0) + total)
  | _ :: _ => raise TypeError
  end.

Definition get_queue_size : M dict :=
  r <- get redis ;;
  match r with
  | None => ret []
  | Some r =>
      try_except
        (let sizes := [] in
         let sizes := dict_set sizes "main" (VInt (Z.of_nat (Redis.llen r main_queue))) in
         let sizes :=
           dict_set sizes "priority" (VInt (Z.of_nat (Redis.zcard r priority_queue))) in
         let sizes := dict_set sizes "retry" (VInt (Z.of_nat (Redis.zcard r retry_queue))) in
         let sizes :=
           dict_set sizes "flood_wait"
                    (VInt (Z.of_nat (Redis.zcard r flood_wait_queue))) in
         let sizes := dict_set sizes "failed" (VInt (Z.of_nat (Redis.llen r failed_queue))) in
         total <- py_sum (map snd sizes) ;;
         ret (dict_set sizes "total" (VInt total)))
        (fun _ => ret [])
  end.

(** [clear_queue(queue_name)]: the number of Redis keys deleted. *)
Definition clear_queue (queue_name : string) : M Z :=
  r <- get redis ;;
  match r with
  | None => ret 0
  | Some r =>
      try_except
        (if String.eqb queue_name "main" then
           let (deleted, r1) := Redis.del r main_queue in
           let (more, r2) := Redis.del r1 priority_queue in
           put_store r2 ;;; ret (deleted + more)
         else if String.eqb queue_name "retry" then
           let (deleted, r1) := Redis.del r retry_queue in
           put_store r1 ;;; ret deleted
         else if String.eqb queue_name "flood_wait" then
           let (deleted, r1) := Redis.del r flood_wait_queue in
           put_store r1 ;;; ret deleted
         else if String.eqb queue_name "failed" then
           let (deleted, r1) := Redis.del r failed_queue in
           put_store r1 ;;; ret deleted
         else ret 0)
        (fun _ => ret 0)
  end.

End QueueManager.

(* ================================================================= *)
(** ** src/clients: the part of the two clients the engine calls *)

Module ClientFactory.
Import Py Run.
#[local] Open Scope run_scope.

(** The dict a client returns for a delivered message. *)
Record sent : Type := mk_sent
  { message_id : Z; chat_id : Z; date : datetime }.

Definition get_optimal_client (source_access dest_access : Db.AccessType)
  : ClientType :=
  match source_access, dest_access with
  | Db.BOT, Db.BOT => BOT
  | _, _ => USER
  end.

(** [UserClientManager._log_flood_wait]. *)
Definition _log_flood_wait (operation_type : string) (wait_duration : Z)
  (channel_id : Z) : M unit :=
  try_except
    (session <- get_db_session ;;
     modify (fun w =>
       let d := db w in
       let seq := Db.flood_wait_log_seq d in
       set_db (Db.with_flood_wait_log d
                 (Db.flood_wait_log d
                    ++ [Db.mk_FloodWaitLog seq "user" wait_duration operation_type
                                           (Some channel_id)])%list
                 (seq + 1)) w))
    (fun _ => ret tt).

Definition operation_name (op : api_call) : string :=
  match op with api_forward => "forward_message" | api_copy => "copy_message" end.

(** [BotClientManager.forward_message] and [copy_message]: any
    [TelegramError] gives [None]. *)
Definition bot_call (op : api_call) (to_chat from_chat msg : Z) : M (option sent) :=
  ready <- get bot_initialized ;;
  if negb ready then ret None
  else
    call <- get api ;;
    match call BOT op to_chat from_chat msg with
    | Sent m c d => ret (Some (mk_sent m c d))
    | FloodWaitError _ => ret None
    | ApiError _ => ret None
    end.

(** [UserClientManager.forward_message] and [copy_message]: a
    [FloodWaitError] is written to the flood-wait log and gives [None], as
    any other exception does. *)
Definition user_call (op : api_call) (to_chat from_chat msg : Z) : M (option sent) :=
  running <- get user_running ;;
  if negb running then ret None
  else
    call <- get api ;;
    match call USER op to_chat from_chat msg with
    | Sent m c d => ret (Some (mk_sent m c d))
    | FloodWaitError seconds =>
        _log_flood_wait (operation_name op) seconds to_chat ;;; ret None
    | ApiError _ => ret None
    end.

(** [ClientFactory.forward_message] and [copy_message]. *)
Definition dispatch (op : api_call) (to_chat from_chat msg : Z)
  (client_type : ClientType) : M (option sent) :=
  match client_type with
  | BOT => bot_call op to_chat from_chat msg
  | USER => user_call op to_chat from_chat msg
  | AUTO =>
      result <- bot_call op to_chat from_chat msg ;;
      running <- get user_running ;;
      match result with
      | None => if running then user_call op to_chat from_chat msg else ret None
      | Some _ => ret result
      end
  end.

Definition forward_message := dispatch api_forward.
Definition copy_message := dispatch api_copy.

End ClientFactory.

(* ================================================================= *)
(** ** src/core/forwarding_engine.py *)

Module ForwardingEngine.
Import Py Run.
#[local] Open Scope run_scope.

(** A [ForwardingMapping] with its two relationships loaded. *)
Record loaded_mapping : Type := mk_loaded
  { mapping : Db.ForwardingMapping;
    source_channel : option Db.Channel;
    dest_channel : option Db.Channel }.

Definition channel_by_id (d : Db.t) (id : Z) : option Db.Channel :=
  find (fun c => Db.ch_id c =? id) (Db.channels d).

(** The query of [_get_forwarding_mappings]: mappings joined with their
    source channel, filtered on the channel's Telegram id, the mapping's
    [enabled] and the source channel's [is_active]. *)
Definition _get_forwarding_mappings (source_channel_id : Z)
  : M (list loaded_mapping) :=
  session <- get_db_session ;;
  ret (flat_map
         (fun m =>
            map (fun _ =>
                   mk_loaded m
                     (channel_by_id session (Db.fm_source_channel_id m))
                     (channel_by_id session (Db.fm_dest_channel_id m)))
                (filter (fun c =>
                           (Db.fm_source_channel_id m =? Db.ch_id c)
                           && (Db.ch_telegram_id c =? source_channel_id)
                           && Db.fm_enabled m
                           && Db.ch_is_active c)
                        (Db.channels session)))
         (Db.mappings session)).

(** [result.scalar_one()]. *)
Definition scalar_one {A : Type} (rows : list A) : M A :=
  match rows with
  | [] => raise NoResultFound
  | [r] => ret r
  | _ => raise MultipleResultsFound
  end.

(** [session.add(message_log); session.commit()] under the unique
    constraint of the table; a message id that the [BigInteger] column
    cannot hold is refused before the statement is run. *)
Definition insert_message_log (row : Z -> Db.MessageLog) : M Db.MessageLog :=
  fun w =>
    let d := db w in
    let seq := Db.messages_log_seq d in
    let r := row seq in
    if negb (Db.bigint_fits (Db.ml_source_message_id r))
    then (Raise DataError, w)
    else if Db.unique_source_message_taken (Db.messages_log d)
         (Db.ml_source_channel_id r) (Db.ml_source_message_id r)
    then (Raise (IntegrityError "unique_source_message"),
          set_db (Db.with_messages_log d (Db.messages_log d) (seq + 1)) w)
    else (Ok r,
          set_db (Db.with_messages_log d (Db.messages_log d ++ [r])%list (seq + 1)) w).

Definition _create_message_log (source_channel_id message_id : Z)
  (dest_channel_ids : list Z) : M Db.MessageLog :=
  session <- get_db_session ;;
  source_channel <-
    scalar_one (filter (fun c => Db.ch_telegram_id c =? source_channel_id)
                       (Db.channels session)) ;;
  started <- utcnow ;;
  insert_message_log (fun id =>
    Db.mk_MessageLog id (Db.ch_id source_channel) message_id dest_channel_ids
                     Db.PENDING 0 None None (Some started) None).

(** [select(MessageLog).where(MessageLog.id == message_log_id)], one row
    required, then the assignment of its columns and the commit. *)
Definition update_message_log (message_log_id : value)
  (change : Db.MessageLog -> M Db.MessageLog) : M unit :=
  session <- get_db_session ;;
  row <- scalar_one (filter (fun r => match message_log_id with
                                      | VInt id => Db.ml_id r =? id
                                      | _ => false
                                      end)
                            (Db.messages_log session)) ;;
  row' <- change row ;;
  modify (fun w =>
    set_db (Db.with_messages_log (db w)
              (map (fun r => if Db.ml_id r =? Db.ml_id row then row' else r)
                   (Db.messages_log (db w)))
              (Db.messages_log_seq (db w))) w).

Definition _update_message_log_status (message_log_id : value)
  (status : Db.MessageStatus) : M unit :=
  update_message_log message_log_id (fun r =>
    ret (Db.mk_MessageLog (Db.ml_id r) (Db.ml_source_channel_id r)
           (Db.ml_source_message_id r) (Db.ml_dest_channel_ids r) status
           (Db.ml_attempts r) (Db.ml_last_error r) (Db.ml_forwarded_message_ids r)
           (Db.ml_processing_started_at r) (Db.ml_processing_completed_at r))).

Definition _update_message_log_success (message_log_id : value)
  (forwarded_message_ids : dict) : M unit :=
  update_message_log message_log_id (fun r =>
    now <- utcnow ;;
    ret (Db.mk_MessageLog (Db.ml_id r) (Db.ml_source_channel_id r)
           (Db.ml_source_message_id r) (Db.ml_dest_channel_ids r) Db.SUCCESS
           (Db.ml_attempts r) (Db.ml_last_error r) (Some forwarded_message_ids)
           (Db.ml_processing_started_at r) (Some now))).

Definition _update_message_log_partial_success (message_log_id : value)
  (forwarded_message_ids : dict) : M unit :=
  update_message_log message_log_id (fun r =>
    now <- utcnow ;;
    ret (Db.mk_MessageLog (Db.ml_id r) (Db.ml_source_channel_id r)
           (Db.ml_source_message_id r) (Db.ml_dest_channel_ids r) Db.FAILED
           (Db.ml_attempts r)
           (Some (Db.Literal "Partial success - some destinations failed"))
           (Some forwarded_message_ids)
           (Db.ml_processing_started_at r) (Some now))).

Definition _update_message_log_error (message_log_id : value)
  (error_message : Db.text) : M unit :=
  update_message_log message_log_id (fun r =>
    now <- utcnow ;;
    ret (Db.mk_MessageLog (Db.ml_id r) (Db.ml_source_channel_id r)
           (Db.ml_source_message_id r) (Db.ml_dest_channel_ids r) Db.FAILED
           (Db.ml_attempts r + 1) (Some error_message)
           (Db.ml_forwarded_message_ids r)
           (Db.ml_processing_started_at r) (Some now))).

(** [m.source_channel.access_type.value]. *)
Definition access_value (c : option Db.Channel) : M value :=
  match c with
  | Some c => ret (VStr (Db.AccessType_value (Db.ch_access_type c)))
  | None => raise AttributeError
  end.

Definition mapping_entry (m : loaded_mapping) : M value :=
  source_access <- access_value (source_channel m) ;;
  dest_access <- access_value (dest_channel m) ;;
  ret (VDict [ ("dest_channel_id", VInt (Db.fm_dest_channel_id (mapping m)));
               ("mode", VStr (Db.ForwardingMode_value (Db.fm_mode (mapping m))));
               ("source_access", source_access);
               ("dest_access", dest_access) ]).

(** The list comprehension over the mappings. *)
Fixpoint mapping_entries (ms : list loaded_mapping) : M (list value) :=
  match ms with
  | [] => ret []
  | m :: ms' =>
      e <- mapping_entry m ;;
      es <- mapping_entries ms' ;;
      ret (e :: es)
  end.

(** The service the engine builds in [__init__]: [DeduplicationService()]
    with the default of 24 hours. *)
Definition cache_ttl_hours : Z := 24.

Definition process_new_message (source_channel_id message_id : Z)
  (message_data : dict) : M unit :=
  try_except
    (duplicate <- DeduplicationService.is_duplicate cache_ttl_hours message_data ;;
     if duplicate then ret tt
     else
       mappings <- _get_forwarding_mappings source_channel_id ;;
       match mappings with
       | [] => ret tt
       | _ =>
           let dest_channel_ids :=
             map (fun m => Db.fm_dest_channel_id (mapping m)) mappings in
           message_log <-
             _create_message_log source_channel_id message_id dest_channel_ids ;;
           entries <- mapping_entries mappings ;;
           created_at <- utcnow ;;
           let queue_item :=
             [ ("message_log_id", VInt (Db.ml_id message_log));
               ("source_channel_id", VInt source_channel_id);
               ("message_id", VInt message_id);
               ("mappings", VList entries);
               ("message_data", VDict message_data);
               ("created_at", VStr (isoformat created_at)) ] in
           QueueManager.enqueue_message queue_item 0 ;;;
           ret tt
       end)
    (fun _ => ret tt).

Definition _forward_single_message (source_channel_id message_id dest_channel_id : value)
  (mode : Db.ForwardingMode) (client_type : ClientType)
  : M (option ClientFactory.sent) :=
  try_except
    (match dest_channel_id, source_channel_id, message_id with
     | VInt to_chat, VInt from_chat, VInt msg =>
         match mode with
         | Db.FORWARD => ClientFactory.forward_message to_chat from_chat msg client_type
         | Db.COPY => ClientFactory.copy_message to_chat from_chat msg client_type
         end
     | _, _, _ => raise TypeError
     end)
    (fun _ => ret None).

Definition enum_of {A : Type} (parse : string -> option A) (v : value) : M A :=
  match v with
  | VStr s => match parse s with Some a => ret a | None => raise ValueError end
  | _ => raise ValueError
  end.

(** The body of the loop over the mappings of a queue item; the state it
    carries is [forwarded_message_ids] and [all_successful]. *)
Definition forward_one (source_channel_id message_id : value)
  (acc : dict * bool) (m : value) : M (dict * bool) :=
  let (forwarded_message_ids, all_successful) := acc in
  dest_channel_id <- subscript m "dest_channel_id" ;;
  mode_v <- subscript m "mode" ;;
  mode <- enum_of Db.ForwardingMode_of mode_v ;;
  source_v <- subscript m "source_access" ;;
  source_access <- enum_of Db.AccessType_of source_v ;;
  dest_v <- subscript m "dest_access" ;;
  dest_access <- enum_of Db.AccessType_of dest_v ;;
  let client_type := ClientFactory.get_optimal_client source_access dest_access in
  result <- _forward_single_message source_channel_id message_id dest_channel_id
              mode client_type ;;
  match result with
  | Some r =>
      ret (dict_set forwarded_message_ids (py_str dest_channel_id)
                    (VInt (ClientFactory.message_id r)),
           all_successful)
  | None => ret (forwarded_message_ids, false)
  end.

Definition _process_queued_message (queue_item : value) : M unit :=
  message_log_id <- subscript queue_item "message_log_id" ;;
  source_channel_id <- subscript queue_item "source_channel_id" ;;
  message_id <- subscript queue_item "message_id" ;;
  mappings <- subscript queue_item "mappings" ;;
  try_except
    (_update_message_log_status message_log_id Db.PROCESSING ;;;
     ms <- iterate mappings ;;
     outcome <- fold_m ms ([], true) (forward_one source_channel_id message_id) ;;
     let (forwarded_message_ids, all_successful) := outcome : dict * bool in
     if all_successful
     then _update_message_log_success message_log_id forwarded_message_ids
     else _update_message_log_partial_success message_log_id forwarded_message_ids)
    (fun e => _update_message_log_error message_log_id (Db.StrOf e)).

(** One turn of the loop of [_process_queue_worker]. *)
Definition worker_turn : M unit :=
  try_except
    (queue_item <- QueueManager.dequeue_message ;;
     match queue_item with
     | Some item => if truthy item then _process_queued_message item else ret tt
     | None => ret tt
     end)
    (fun _ => ret tt).

End ForwardingEngine.

(* ================================================================= *)
(** ** Sample states *)

Module Sample.
Import Py Run.

(** Two channels: the source [100] and the destination [200], which has
    been deactivated; one enabled mapping from the first to the second. *)
Definition tables : Db.t :=
  Db.mk_db true
    [Db.mk_Channel 1 100 Db.USER true; Db.mk_Channel 2 200 Db.USER false]
    [Db.mk_ForwardingMapping 1 1 2 Db.FORWARD true]
    [] [] [] 1 1 1.

(** A clock read once a second from 2024-11-03T00:00:00. *)
Definition seconds (n : nat) : datetime :=
  1730592000000000 + Z.of_nat n * 1000000.

(** A started engine with empty queues whose every delivery is answered
    with a flood wait of [wait] seconds. *)
Definition flooded (wait : Z) : world :=
  mk_world (Some Redis.empty) tables seconds 0 true true
           (fun _ _ _ _ _ => FloodWaitError wait).

(** The same engine with deliveries that succeed. *)
Definition delivering : world :=
  mk_world (Some Redis.empty) tables seconds 0 true true
           (fun _ _ to_chat _ msg => Sent (msg + 1000) to_chat 0).

(** The engine when the database cannot be reached. *)
Definition unreachable : world :=
  mk_world (Some Redis.empty)
    (Db.mk_db false (Db.channels tables) (Db.mappings tables) [] [] [] 1 1 1)
    seconds 0 true true (fun _ _ _ _ _ => FloodWaitError 30).

Definition item (n : Z) : dict := [("message_log_id", VInt n)].

(** [n] calls of [dequeue_message] in a row, what they return dropped. *)
Fixpoint drain (n : nat) : M unit :=
  match n with
  | O => ret tt
  | S n' => bind QueueManager.dequeue_message (fun _ => drain n')
  end.

Definition message : dict :=
  [ ("content_hash", VStr "abc"); ("source_channel_id", VInt 100);
    ("message_id", VInt 7); ("text", VStr "hi") ].

(** The item [process_new_message] would enqueue for message [7] of
    channel [100] with the delivery record [1], and the delivery log with
    that record, [PENDING]. *)
Definition queued_item : dict :=
  [ ("message_log_id", VInt 1);
    ("source_channel_id", VInt 100);
    ("message_id", VInt 7);
    ("mappings",
     VList [VDict [ ("dest_channel_id", VInt 200); ("mode", VStr "forward");
                    ("source_access", VStr "user"); ("dest_access", VStr "user") ]]);
    ("message_data", VDict message);
    ("created_at", VStr "2024-11-03T00:00:00") ].

Definition logged : Db.t :=
  Db.with_messages_log tables
    [Db.mk_MessageLog 1 1 7 [2] Db.PENDING 0 None None (Some (seconds 0)) None] 2.

(** The delivering engine with the content hash of [message] in the cache
    since the first reading of the clock. *)
Definition cached : world :=
  mk_world (Some Redis.empty)
    (Db.with_deduplication_cache tables
       [Db.mk_DeduplicationCache 1 "abc" 100 7 (seconds 0)] 2)
    seconds 0 true true (fun _ _ to_chat _ msg => Sent (msg + 1000) to_chat 0).

(** The flooded engine with that record in the log and that item on the
    main queue. *)
Definition waiting (wait : Z) : world :=
  snd (QueueManager.enqueue_message queued_item 0
         (mk_world (Some Redis.empty) logged seconds 0 true true
                   (fun _ _ _ _ _ => FloodWaitError wait))).

End Sample.

(* ================================================================= *)
(** * Properties *)

(* ================================================================= *)
(** ** json.loads inverts json.dumps *)

Module JsonFacts.
Import Py.

Lemma append_assoc (a b c : string) : (a ++ b) ++ c = a ++ (b ++ c).
Proof. induction a as [|x a IH]; simpl; [reflexivity | now rewrite IH]. Qed.

Lemma length_append (a b : string) :
  String.length (a ++ b) = (String.length a + String.length b)%nat.
Proof. induction a as [|x a IH]; simpl; [reflexivity | now rewrite IH]. Qed.

Lemma delim_not_digit (rest : string) :
  delim rest = true -> span_digits rest = ("", rest) /\ starts_float_tail rest = false.
Proof.
  destruct rest as [|c rest]; simpl; [auto|].
  unfold is_digit. intros H.
  destruct (N.eqb_spec (N_of_ascii c) 44) as [->|];
    [simpl; auto|].
  destruct (N.eqb_spec (N_of_ascii c) 93) as [->|];
    [simpl; auto|].
  destruct (N.eqb_spec (N_of_ascii c) 125) as [->|];
    [simpl; auto|].
  discriminate.
Qed.

Lemma span_digits_uint (u : Decimal.uint) (rest : string) :
  span_digits rest = ("", rest) ->
  span_digits (DecimalString.NilEmpty.string_of_uint u ++ rest)
  = (DecimalString.NilEmpty.string_of_uint u, rest).
Proof.
  intros Hrest. induction u; simpl; try assumption;
    change (is_digit _) with true; cbv iota; now rewrite IHu.
Qed.

Lemma uint_head_digit (u : Decimal.uint) :
  u <> Decimal.Nil ->
  exists c s, DecimalString.NilEmpty.string_of_uint u = String c s
              /\ is_digit c = true.
Proof.
  destruct u; intros H; try congruence; simpl; eexists; eexists;
    (split; [reflexivity | reflexivity]).
Qed.

Lemma nilzero_string (u : Decimal.uint) :
  u <> Decimal.Nil ->
  DecimalString.NilZero.string_of_uint u = DecimalString.NilEmpty.string_of_uint u.
Proof. destruct u; intros H; try reflexivity; congruence. Qed.

Lemma to_uint_normal (p : positive) :
  Decimal.unorm (Pos.to_uint p) = Pos.to_uint p.
Proof.
  rewrite <- (DecimalPos.Unsigned.to_of (Pos.to_uint p)).
  rewrite DecimalPos.Unsigned.of_to. reflexivity.
Qed.

Lemma normal_no_leading_zero (u : Decimal.uint) :
  Decimal.unorm u = u ->
  leading_zero (DecimalString.NilEmpty.string_of_uint u) = false.
Proof.
  destruct u; simpl; try reflexivity;
    try (destruct (DecimalString.NilEmpty.string_of_uint u); reflexivity).
  intros H. destruct u as [| | | | | | | | | |] eqn:E; try reflexivity;
    exfalso; rewrite DecimalFacts.unorm_D0 in H;
    match type of H with
    | Decimal.unorm ?v = _ =>
        assert (L : (Decimal.nb_digits (Decimal.unorm v) <= Decimal.nb_digits v)%nat)
          by (apply DecimalFacts.nb_digits_unorm; discriminate);
        rewrite H in L; simpl in L; lia
    end.
Qed.

Lemma scan_digits_ok (neg : bool) (u : Decimal.uint) (rest : string) :
  u <> Decimal.Nil -> Decimal.unorm u = u -> delim rest = true ->
  scan_digits neg (DecimalString.NilEmpty.string_of_uint u ++ rest)
  = Some (if neg then - Z.of_uint u else Z.of_uint u, rest).
Proof.
  intros Hnil Hnorm Hd. destruct (delim_not_digit rest Hd) as [Hs Hf].
  unfold scan_digits. rewrite (span_digits_uint _ _ Hs).
  assert (Hu : DecimalString.NilZero.uint_of_string
                 (DecimalString.NilEmpty.string_of_uint u) = Some u).
  { rewrite <- (nilzero_string u Hnil). now apply DecimalString.NilZero.usu. }
  rewrite Hu, (normal_no_leading_zero _ Hnorm), Hf. reflexivity.
Qed.

Lemma scan_number_digits (c : ascii) (s : string) :
  is_digit c = true -> scan_number (String c s) = scan_digits false (String c s).
Proof.
  intros H. unfold scan_number.
  destruct (N.eqb_spec (N_of_ascii c) 45) as [E|_]; [|reflexivity].
  unfold is_digit in H. rewrite E in H. discriminate.
Qed.

Lemma scan_number_minus (s : string) :
  scan_number (String "-" s) = scan_digits true s.
Proof. reflexivity. Qed.

Lemma scan_number_ok (z : Z) (rest : string) :
  delim rest = true -> scan_number (str_of_Z z ++ rest) = Some (z, rest).
Proof.
  intros Hd. unfold str_of_Z. destruct z as [|p|p]; cbn [Z.to_int].
  - change (DecimalString.NilZero.string_of_int (Decimal.Pos Decimal.zero))
      with (DecimalString.NilEmpty.string_of_uint (Decimal.D0 Decimal.Nil)).
    cbn [DecimalString.NilEmpty.string_of_uint append].
    rewrite scan_number_digits by reflexivity.
    apply (scan_digits_ok false (Decimal.D0 Decimal.Nil) rest);
      [discriminate | reflexivity | assumption].
  - pose proof (DecimalPos.Unsigned.to_uint_nonnil p) as Hnil.
    assert (E : DecimalString.NilZero.string_of_int (Decimal.Pos (Pos.to_uint p))
                = DecimalString.NilEmpty.string_of_uint (Pos.to_uint p)).
    { cbn. now rewrite nilzero_string. }
    rewrite E.
    destruct (uint_head_digit _ Hnil) as (c & s & Hs & Hc).
    pose proof (scan_digits_ok false _ rest Hnil (to_uint_normal p) Hd) as H.
    rewrite Hs in *. cbn [append]. rewrite scan_number_digits by assumption.
    cbn [append] in H. rewrite H. unfold Z.of_uint.
    rewrite DecimalPos.Unsigned.of_to. reflexivity.
  - pose proof (DecimalPos.Unsigned.to_uint_nonnil p) as Hnil.
    assert (E : DecimalString.NilZero.string_of_int (Decimal.Neg (Pos.to_uint p))
                = String "-" (DecimalString.NilEmpty.string_of_uint (Pos.to_uint p))).
    { cbn. now rewrite nilzero_string. }
    rewrite E. cbn [append]. rewrite scan_number_minus.
    rewrite (scan_digits_ok true _ rest Hnil (to_uint_normal p) Hd).
    unfold Z.of_uint. rewrite DecimalPos.Unsigned.of_to. reflexivity.
Qed.

(** The first character of a printed integer. *)
Lemma str_of_Z_head (z : Z) :
  exists c s, str_of_Z z = String c s
              /\ ((N_of_ascii c =? 45)%N || is_digit c = true).
Proof.
  unfold str_of_Z. destruct z as [|p|p]; cbn [Z.to_int].
  - exists "0"%char, "". split; reflexivity.
  - pose proof (DecimalPos.Unsigned.to_uint_nonnil p) as Hnil.
    destruct (uint_head_digit _ Hnil) as (c & s & Hs & Hc).
    exists c, s. split.
    + cbn. rewrite <- Hs. now rewrite nilzero_string.
    + rewrite Hc. apply orb_true_r.
  - eexists; eexists; split; [reflexivity | reflexivity].
Qed.

Lemma parse_value_number (fuel : nat) (c : ascii) (s : string) :
  (N_of_ascii c =? 45)%N || is_digit c = true ->
  parse_value (S fuel) (String c s)
  = option_map (fun zr => (VInt (fst zr), snd zr)) (scan_number (String c s)).
Proof.
  intros H. cbn [parse_value].
  assert (R : (N_of_ascii c = 45 \/ 48 <= N_of_ascii c <= 57)%N).
  { apply orb_prop in H. destruct H as [H|H].
    - left. now apply N.eqb_eq.
    - right. unfold is_digit in H. apply andb_prop in H.
      destruct H as [H1 H2]. apply N.leb_le in H1, H2. lia. }
  destruct (N.eqb_spec (N_of_ascii c) 34); [lia|].
  destruct (N.eqb_spec (N_of_ascii c) 123); [lia|].
  destruct (N.eqb_spec (N_of_ascii c) 91); [lia|].
  destruct (N.eqb_spec (N_of_ascii c) 110); [lia|].
  destruct (N.eqb_spec (N_of_ascii c) 116); [lia|].
  destruct (N.eqb_spec (N_of_ascii c) 102); [lia|].
  rewrite H. reflexivity.
Qed.

Lemma parse_value_int (fuel : nat) (z : Z) (rest : string) :
  delim rest = true ->
  parse_value (S fuel) (str_of_Z z ++ rest) = Some (VInt z, rest).
Proof.
  intros Hd. destruct (str_of_Z_head z) as (c & s & Hs & Hc).
  pose proof (scan_number_ok z rest Hd) as H.
  rewrite Hs in *. cbn [append] in *.
  rewrite parse_value_number by assumption. rewrite H. reflexivity.
Qed.

Lemma scan_escape_char (c : ascii) (tail : string) :
  scan_string (escape_char c ++ tail) = prepend c (scan_string tail).
Proof.
  destruct c as [[|] [|] [|] [|] [|] [|] [|] [|]]; reflexivity.
Qed.

Lemma scan_string_ok (s rest : string) :
  scan_string (escape s ++ String dquote rest) = Some (s, rest).
Proof.
  induction s as [|c s IH]; [reflexivity|].
  cbn [escape]. rewrite append_assoc, scan_escape_char, IH. reflexivity.
Qed.

(** Induction on values that reaches the elements of lists and dicts. *)
Lemma value_rect' (P : value -> Prop)
  (HNone : P VNone) (HBool : forall b, P (VBool b)) (HInt : forall z, P (VInt z))
  (HStr : forall s, P (VStr s))
  (HList : forall l, Forall P l -> P (VList l))
  (HDict : forall d, Forall (fun kv => P (snd kv)) d -> P (VDict d)) :
  forall v, P v.
Proof.
  fix IH 1. intros [| b | z | s | l | d].
  - exact HNone.
  - apply HBool.
  - apply HInt.
  - apply HStr.
  - apply HList. induction l as [|x l IHl]; constructor; [apply IH | exact IHl].
  - apply HDict. induction d as [|[k x] d IHd]; constructor; [apply IH | exact IHd].
Qed.

Lemma dumps_list (l : list value) :
  json_dumps (VList l) = "[" ++ join_comma (map json_dumps l) ++ "]".
Proof. reflexivity. Qed.

Lemma dumps_dict (d : dict) :
  json_dumps (VDict d) = "{" ++ join_comma (map member_text d) ++ "}".
Proof.
  cbn [json_dumps]. do 3 f_equal.
  induction d as [|[k x] d IH]; [reflexivity|]. now rewrite IH.
Qed.

Lemma wf_dict (d : dict) :
  wf (VDict d) = distinct (keys d) && forallb (fun kv => wf (snd kv)) d.
Proof.
  cbn [wf]. f_equal.
  induction d as [|[k x] d IH]; [reflexivity|]. cbn. now rewrite IH.
Qed.

Lemma depth_dict (d : dict) :
  depth (VDict d)
  = S (fold_right (fun kv m => Nat.max (depth (snd kv)) m) O d).
Proof.
  cbn [depth]. f_equal.
  induction d as [|[k x] d IH]; [reflexivity|]. cbn. now rewrite IH.
Qed.

Lemma join_comma_tail (p : string) (ps : list string) (rest : string) :
  join_comma (p :: ps) ++ rest = p ++ items_tail ps rest.
Proof.
  revert p. induction ps as [|q ps IH]; intros p.
  - reflexivity.
  - change (join_comma (p :: q :: ps)) with (p ++ ", " ++ join_comma (q :: ps)).
    rewrite !append_assoc, IH. reflexivity.
Qed.

Lemma delim_items_tail (ps : list string) (rest : string) :
  delim rest = true -> delim (items_tail ps rest) = true.
Proof. destruct ps; intros H; [exact H | reflexivity]. Qed.

Lemma length_items_tail (ps : list string) (rest : string) :
  (List.length ps <= String.length (items_tail ps rest))%nat.
Proof.
  induction ps as [|p ps IH]; [cbn; lia|].
  change (items_tail (p :: ps) rest) with (", " ++ p ++ items_tail ps rest).
  rewrite !length_append. cbn [List.length String.length]. lia.
Qed.

(** The first character of the text of a value: not white space, and not
    a closing bracket or brace. *)
Lemma dumps_head (v : value) :
  exists c s, json_dumps v = String c s
              /\ is_ws c = false
              /\ (N_of_ascii c =? 93)%N = false
              /\ (N_of_ascii c =? 125)%N = false.
Proof.
  destruct v as [| [|] | z | s | l | d];
    try (eexists; eexists; split; [reflexivity | repeat split; reflexivity]).
  destruct (str_of_Z_head z) as (c & s & Hs & Hc).
  exists c, s. split; [exact Hs|].
  assert (R : (N_of_ascii c = 45 \/ 48 <= N_of_ascii c <= 57)%N).
  { apply orb_prop in Hc. destruct Hc as [H|H].
    - left. now apply N.eqb_eq.
    - right. unfold is_digit in H. apply andb_prop in H.
      destruct H as [H1 H2]. apply N.leb_le in H1, H2. lia. }
  unfold is_ws.
  repeat match goal with
         | |- context [(N_of_ascii c =? ?k)%N] =>
             destruct (N.eqb_spec (N_of_ascii c) k); [lia|]
         end.
  repeat split.
Qed.

Lemma skip_ws_dumps (v : value) (rest : string) :
  skip_ws (json_dumps v ++ rest) = json_dumps v ++ rest.
Proof.
  destruct (dumps_head v) as (c & s & Hs & Hw & _).
  rewrite Hs. cbn. now rewrite Hw.
Qed.

Lemma first_is_dumps (v : value) (rest : string) :
  first_is 93 (json_dumps v ++ rest) = None
  /\ first_is 125 (json_dumps v ++ rest) = None.
Proof.
  destruct (dumps_head v) as (c & s & Hs & _ & H1 & H2).
  rewrite Hs. cbn. now rewrite H1, H2.
Qed.

Lemma skip_ws_space (t : string) : skip_ws (String " " t) = skip_ws t.
Proof. reflexivity. Qed.

Lemma skip_ws_member (kv : string * value) (rest : string) :
  skip_ws (member_text kv ++ rest) = member_text kv ++ rest.
Proof. reflexivity. Qed.

Section Containers.
Variable pv : string -> option (value * string).

Lemma parse_items_comma (n : nat) (t : string) :
  parse_items pv (S n) (String "," t)
  = match pv (skip_ws t) with
    | Some (v, r) =>
        match parse_items pv n r with
        | Some (vs, r') => Some (v :: vs, r')
        | None => None
        end
    | None => None
    end.
Proof. reflexivity. Qed.

Lemma parse_members_comma (n : nat) (t : string) :
  parse_members pv (S n) (String "," t)
  = match parse_pair pv (skip_ws t) with
    | Some (kv, r) =>
        match parse_members pv n r with
        | Some (kvs, r') => Some (kv :: kvs, r')
        | None => None
        end
    | None => None
    end.
Proof. reflexivity. Qed.

Lemma parse_items_ok (l : list value) :
  Forall (fun v => forall rest, delim rest = true ->
                   pv (json_dumps v ++ rest) = Some (v, rest)) l ->
  forall n rest, (List.length l < n)%nat ->
    parse_items pv n (items_tail (map json_dumps l) (String "]" rest))
    = Some (l, rest).
Proof.
  induction 1 as [|x l Hx Hl IH]; intros n rest Hn;
    (destruct n as [|n]; [cbn in Hn; lia|]).
  - reflexivity.
  - change (items_tail (map json_dumps (x :: l)) (String "]" rest))
      with (String "," (String " " (json_dumps x
             ++ items_tail (map json_dumps l) (String "]" rest)))).
    rewrite parse_items_comma.
    rewrite skip_ws_space, skip_ws_dumps, Hx by (now apply delim_items_tail).
    rewrite IH by (cbn in Hn; lia). reflexivity.
Qed.

Lemma parse_pair_ok (k : string) (x : value) (rest : string) :
  (forall rest, delim rest = true -> pv (json_dumps x ++ rest) = Some (x, rest)) ->
  delim rest = true ->
  parse_pair pv (member_text (k, x) ++ rest) = Some ((k, x), rest).
Proof.
  intros Hx Hd. unfold member_text, quote. cbn [fst snd append].
  rewrite !append_assoc. cbn [append].
  unfold parse_pair. change (N_of_ascii dquote =? 34)%N with true. cbv iota.
  rewrite scan_string_ok.
  change (skip_ws (String ":" ?t)) with (String ":" t).
  cbn -[json_dumps skip_ws].
  rewrite skip_ws_space, skip_ws_dumps, Hx by assumption. reflexivity.
Qed.

Lemma parse_members_ok (d : dict) :
  Forall (fun kv => forall rest, delim rest = true ->
                    pv (json_dumps (snd kv) ++ rest) = Some (snd kv, rest)) d ->
  forall n rest, (List.length d < n)%nat ->
    parse_members pv n (items_tail (map member_text d) (String "}" rest))
    = Some (d, rest).
Proof.
  induction 1 as [|[k x] d Hx Hd IH]; intros n rest Hn;
    (destruct n as [|n]; [cbn in Hn; lia|]).
  - reflexivity.
  - change (items_tail (map member_text ((k, x) :: d)) (String "}" rest))
      with (String "," (String " " (member_text (k, x)
             ++ items_tail (map member_text d) (String "}" rest)))).
    rewrite parse_members_comma.
    rewrite skip_ws_space, skip_ws_member.
    rewrite parse_pair_ok by (try exact Hx; now apply delim_items_tail).
    rewrite IH by (cbn in Hn; lia). reflexivity.
Qed.
End Containers.

Lemma dict_set_fresh (d : dict) (k : string) (v : value) :
  existsb (String.eqb k) (keys d) = false -> dict_set d k v = (d ++ [(k, v)])%list.
Proof.
  induction d as [|[k' v'] d IH]; cbn; [reflexivity|].
  intros H. apply orb_false_elim in H. destruct H as [H1 H2].
  rewrite String.eqb_sym, H1. now rewrite IH.
Qed.

Lemma distinct_app_fresh (acc : list string) (k : string) (ks : list string) :
  distinct (acc ++ k :: ks)%list = true ->
  existsb (String.eqb k) acc = false /\ distinct ((acc ++ [k]) ++ ks)%list = true.
Proof.
  intros H. rewrite <- app_assoc. split; [|exact H].
  induction acc as [|a acc IH]; [reflexivity|].
  cbn in H. apply andb_prop in H. destruct H as [H1 H2].
  cbn. rewrite (IH H2), orb_false_r.
  apply negb_true_iff in H1. rewrite existsb_app in H1.
  apply orb_false_elim in H1. destruct H1 as [_ H1]. cbn in H1.
  apply orb_false_elim in H1. destruct H1 as [H1 _].
  now rewrite String.eqb_sym.
Qed.

Lemma fold_dict_set (l acc : dict) :
  distinct (keys (acc ++ l)%list) = true ->
  fold_left (fun d kv => dict_set d (fst kv) (snd kv)) l acc = (acc ++ l)%list.
Proof.
  revert acc. induction l as [|[k v] l IH]; intros acc H; cbn.
  - now rewrite app_nil_r.
  - unfold keys in H. rewrite map_app in H. cbn in H.
    apply distinct_app_fresh in H. destruct H as [Hf Hd].
    rewrite dict_set_fresh by exact Hf.
    rewrite IH.
    + now rewrite <- app_assoc.
    + unfold keys. rewrite !map_app. exact Hd.
Qed.

Lemma dict_of_pairs_distinct (d : dict) :
  distinct (keys d) = true -> dict_of_pairs d = d.
Proof. intros H. unfold dict_of_pairs. now rewrite fold_dict_set. Qed.

Lemma depth_fold_le (l : list value) (x : value) :
  In x l -> (depth x <= fold_right (fun x m => Nat.max (depth x) m) O l)%nat.
Proof.
  induction l as [|y l IH]; cbn; [tauto|].
  intros [->|H]; [lia | specialize (IH H); lia].
Qed.

Lemma depth_fold_dict_le (d : dict) (kv : string * value) :
  In kv d ->
  (depth (snd kv) <= fold_right (fun kv m => Nat.max (depth (snd kv)) m) O d)%nat.
Proof.
  induction d as [|y d IH]; cbn; [tauto|].
  intros [->|H]; [lia | specialize (IH H); lia].
Qed.

Lemma parse_value_open_list (fuel : nat) (t : string) :
  parse_value (S fuel) (String "[" t)
  = match first_is 93 (skip_ws t) with
    | Some r => Some (VList [], r)
    | None =>
        match parse_value fuel (skip_ws t) with
        | Some (v, r) =>
            match parse_items (parse_value fuel) (S (String.length r)) r with
            | Some (vs, r') => Some (VList (v :: vs), r')
            | None => None
            end
        | None => None
        end
    end.
Proof. reflexivity. Qed.

Lemma parse_value_open_dict (fuel : nat) (t : string) :
  parse_value (S fuel) (String "{" t)
  = match first_is 125 (skip_ws t) with
    | Some r => Some (VDict [], r)
    | None =>
        match parse_pair (parse_value fuel) (skip_ws t) with
        | Some (kv, r) =>
            match parse_members (parse_value fuel) (S (String.length r)) r with
            | Some (kvs, r') => Some (VDict (dict_of_pairs (kv :: kvs)), r')
            | None => None
            end
        | None => None
        end
    end.
Proof. reflexivity. Qed.

(** The scanner reads the text of a well-formed value back, whatever
    delimiter follows it. *)
Theorem parse_value_dumps (v : value) :
  wf v = true ->
  forall fuel rest, (depth v <= fuel)%nat -> delim rest = true ->
    parse_value fuel (json_dumps v ++ rest) = Some (v, rest).
Proof.
  induction v as [| b | z | s | l IH | d IH] using value_rect';
    intros Hwf fuel rest Hfuel Hd;
    (destruct fuel as [|fuel]; [cbn in Hfuel; lia|]).
  - reflexivity.
  - destruct b; reflexivity.
  - now apply parse_value_int.
  - cbn [json_dumps]. unfold quote. cbn [append]. rewrite append_assoc.
    cbn [parse_value append]. change (N_of_ascii dquote =? 34)%N with true.
    cbv iota. now rewrite scan_string_ok.
  - rewrite dumps_list. cbn [depth] in Hfuel. cbn [wf] in Hwf.
    rewrite forallb_forall in Hwf. rewrite Forall_forall in IH.
    assert (Hall : Forall (fun v => forall rest, delim rest = true ->
                   parse_value fuel (json_dumps v ++ rest) = Some (v, rest)) l).
    { apply Forall_forall. intros x Hx rest' Hd'.
      apply IH; auto. pose proof (depth_fold_le l x Hx). lia. }
    destruct l as [|x l].
    + reflexivity.
    + cbn [map]. rewrite !append_assoc, join_comma_tail. cbn [append].
      rewrite parse_value_open_list, skip_ws_dumps.
      rewrite (proj1 (first_is_dumps x _)).
      inversion Hall as [|? ? Hx Hl]; subst.
      rewrite Hx by (now apply delim_items_tail).
      rewrite parse_items_ok; [reflexivity | exact Hl |].
      pose proof (length_items_tail (map json_dumps l) (String "]" rest)) as L.
      rewrite length_map in L. lia.
  - rewrite dumps_dict. rewrite depth_dict in Hfuel. rewrite wf_dict in Hwf.
    apply andb_prop in Hwf. destruct Hwf as [Hdist Hwf].
    rewrite forallb_forall in Hwf. rewrite Forall_forall in IH.
    assert (Hall : Forall (fun kv => forall rest, delim rest = true ->
                   parse_value fuel (json_dumps (snd kv) ++ rest)
                   = Some (snd kv, rest)) d).
    { apply Forall_forall. intros x Hx rest' Hd'.
      apply IH; auto. pose proof (depth_fold_dict_le d x Hx). lia. }
    destruct d as [|[k x] d].
    + reflexivity.
    + cbn [map]. rewrite !append_assoc, join_comma_tail. cbn [append].
      rewrite parse_value_open_dict, skip_ws_member.
      replace (first_is 125 (member_text (k, x)
                 ++ items_tail (map member_text d) ("}" ++ rest))) with (@None string)
        by reflexivity.
      inversion Hall as [|? ? Hx Hl]; subst.
      rewrite parse_pair_ok by (try exact Hx; now apply delim_items_tail).
      rewrite parse_members_ok; [| exact Hl |].
      * now rewrite dict_of_pairs_distinct.
      * pose proof (length_items_tail (map member_text d) (String "}" rest)) as L.
        rewrite length_map in L. cbn [append]. lia.
Qed.

Lemma length_join_comma (ps : list string) (p : string) :
  In p ps -> (String.length p <= String.length (join_comma ps))%nat.
Proof.
  induction ps as [|q ps IH]; [cbn; tauto|].
  intros H. destruct ps as [|r ps].
  - destruct H as [->|[]]. cbn. lia.
  - change (join_comma (q :: r :: ps)) with (q ++ ", " ++ join_comma (r :: ps)).
    rewrite !length_append. destruct H as [->|H]; [lia|].
    specialize (IH H). lia.
Qed.

Lemma depth_le_length (v : value) :
  (depth v <= String.length (json_dumps v))%nat.
Proof.
  induction v as [| b | z | s | l IH | d IH] using value_rect'.
  - cbn. lia.
  - destruct b; cbn; lia.
  - destruct (str_of_Z_head z) as (c & s & Hs & _). cbn [json_dumps depth].
    rewrite Hs. cbn. lia.
  - cbn. lia.
  - rewrite dumps_list. cbn [depth]. rewrite !length_append.
    cbn [String.length]. 
    assert (H : (fold_right (fun x m => Nat.max (depth x) m) O l
                 <= String.length (join_comma (map json_dumps l)))%nat).
    { rewrite Forall_forall in IH.
      assert (G : forall l', incl l' l ->
                (fold_right (fun x m => Nat.max (depth x) m) O l'
                 <= String.length (join_comma (map json_dumps l)))%nat).
      { induction l' as [|x l' IHl']; intros Hin; cbn; [lia|].
        assert (Hx : In x l) by (apply Hin; now left).
        specialize (IHl' (fun y Hy => Hin y (or_intror Hy))).
        pose proof (IH x Hx).
        pose proof (length_join_comma (map json_dumps l) (json_dumps x)
                      (in_map json_dumps l x Hx)). lia. }
      apply G, incl_refl. }
    lia.
  - rewrite dumps_dict, depth_dict, !length_append.
    cbn [String.length].
    assert (H : (fold_right (fun kv m => Nat.max (depth (snd kv)) m) O d
                 <= String.length (join_comma (map member_text d)))%nat).
    { rewrite Forall_forall in IH.
      assert (G : forall l', incl l' d ->
                (fold_right (fun kv m => Nat.max (depth (snd kv)) m) O l'
                 <= String.length (join_comma (map member_text d)))%nat).
      { induction l' as [|x l' IHl']; intros Hin; cbn; [lia|].
        assert (Hx : In x d) by (apply Hin; now left).
        specialize (IHl' (fun y Hy => Hin y (or_intror Hy))).
        pose proof (IH x Hx).
        pose proof (length_join_comma (map member_text d) (member_text x)
                      (in_map member_text d x Hx)) as L.
        unfold member_text at 1 in L. rewrite !length_append in L. lia. }
      apply G, incl_refl. }
    lia.
Qed.

Lemma append_nil_r (s : string) : s ++ "" = s.
Proof. induction s as [|c s IH]; cbn; [reflexivity | now rewrite IH]. Qed.

(** [json.loads(json.dumps(v)) == v] for every value whose dicts have
    distinct keys. *)
Theorem json_loads_dumps (v : value) :
  wf v = true -> json_loads (json_dumps v) = Some v.
Proof.
  intros Hwf. unfold json_loads.
  pose proof (skip_ws_dumps v "") as Hs. rewrite append_nil_r in Hs.
  rewrite Hs.
  pose proof (parse_value_dumps v Hwf (S (String.length (json_dumps v))) ""
                ltac:(pose proof (depth_le_length v); lia) eq_refl) as H.
  rewrite append_nil_r in H. rewrite H. reflexivity.
Qed.

(** A text of [not_json] does not decode. *)
Lemma not_json_loads (s : string) : not_json s = true -> json_loads s = None.
Proof.
  unfold not_json, json_loads. destruct (skip_ws s) as [|c s']; [reflexivity|].
  cbv zeta. intros H. apply Bool.negb_true_iff in H.
  repeat (apply Bool.orb_false_iff in H; destruct H as [H ?]).
  cbn [parse_value]. cbv zeta.
  repeat match goal with
         | E : ?b = false |- context [if ?b then _ else _] => rewrite E
         end.
  match goal with
  | |- context [if (?x || ?y)%bool then _ else _] =>
      replace (x || y)%bool with false; [reflexivity|]
  end.
  symmetry. apply Bool.orb_false_iff. now split.
Qed.

End JsonFacts.

(* ================================================================= *)
(** ** Dicts *)

Module DictFacts.
Import Py.

Lemma dict_get_set_eq (d : dict) (k : string) (v : value) :
  dict_get (dict_set d k v) k = Some v.
Proof.
  induction d as [|[k' v'] d IH]; cbn.
  - now rewrite String.eqb_refl.
  - destruct (String.eqb k' k) eqn:E; cbn; rewrite E; [reflexivity | exact IH].
Qed.

Lemma dict_get_set_neq (d : dict) (k k' : string) (v : value) :
  k <> k' -> dict_get (dict_set d k v) k' = dict_get d k'.
Proof.
  intros Hne. induction d as [|[k0 v0] d IH]; cbn.
  - destruct (String.eqb_spec k k'); [contradiction | reflexivity].
  - destruct (String.eqb_spec k0 k) as [->|Hk]; cbn.
    + destruct (String.eqb_spec k k'); [contradiction | reflexivity].
    + now rewrite IH.
Qed.

Lemma keys_dict_set (d : dict) (k : string) (v : value) :
  keys (dict_set d k v)
  = if existsb (String.eqb k) (keys d) then keys d else (keys d ++ [k])%list.
Proof.
  induction d as [|[k' v'] d IH]; cbn; [reflexivity|].
  rewrite (String.eqb_sym k k').
  destruct (String.eqb k' k) eqn:E; cbn; [reflexivity|].
  unfold keys in IH. rewrite IH.
  now destruct (existsb (String.eqb k) (map fst d)).
Qed.

Lemma distinct_snoc (ks : list string) (k : string) :
  distinct ks = true -> existsb (String.eqb k) ks = false ->
  distinct (ks ++ [k])%list = true.
Proof.
  induction ks as [|a ks IH]; cbn; [reflexivity|].
  intros H Hk. apply andb_prop in H. destruct H as [H1 H2].
  apply orb_false_elim in Hk. destruct Hk as [Hk1 Hk2].
  rewrite (IH H2 Hk2), andb_true_r.
  rewrite existsb_app. cbn. rewrite orb_false_r.
  apply negb_true_iff in H1. rewrite H1. cbn.
  now rewrite String.eqb_sym, Hk1.
Qed.

Lemma forallb_dict_set (d : dict) (k : string) (v : value) :
  forallb (fun kv => wf (snd kv)) d = true -> wf v = true ->
  forallb (fun kv => wf (snd kv)) (dict_set d k v) = true.
Proof.
  intros H Hv. induction d as [|[k' v'] d IH]; cbn in *.
  - now rewrite Hv.
  - apply andb_prop in H. destruct H as [H1 H2].
    destruct (String.eqb k' k); cbn; [now rewrite Hv, H2 | now rewrite H1, IH].
Qed.

(** Assigning a well-formed value to a key keeps a dict well formed. *)
Lemma wf_dict_set (d : dict) (k : string) (v : value) :
  wf (VDict d) = true -> wf v = true -> wf (VDict (dict_set d k v)) = true.
Proof.
  rewrite !JsonFacts.wf_dict. intros H Hv.
  apply andb_prop in H. destruct H as [H1 H2].
  rewrite forallb_dict_set by assumption. rewrite andb_true_r.
  rewrite keys_dict_set.
  destruct (existsb (String.eqb k) (keys d)) eqn:E; [exact H1|].
  now apply distinct_snoc.
Qed.

(** Two well-formed values with the same JSON text are equal. *)
Lemma json_dumps_inj (a b : value) :
  wf a = true -> wf b = true -> json_dumps a = json_dumps b -> a = b.
Proof.
  intros Ha Hb E.
  pose proof (JsonFacts.json_loads_dumps a Ha) as Hla.
  pose proof (JsonFacts.json_loads_dumps b Hb) as Hlb.
  rewrite E in Hla. congruence.
Qed.

End DictFacts.

(* ================================================================= *)
(** ** The Redis store *)

Module RedisFacts.
Import Redis.

Lemma upd_same {A : Type} (f : string -> A) (k : string) (x : A) :
  upd f k x k = x.
Proof. unfold upd. now rewrite String.eqb_refl. Qed.

Lemma in_zremove (m : string) (e : string * Z) (z : zset) :
  In e (zremove m z) <-> In e z /\ fst e <> m.
Proof.
  unfold zremove. rewrite filter_In.
  destruct (String.eqb_spec (fst e) m); cbn; intuition congruence.
Qed.

Lemma in_zinsert (e x : string * Z) (z : zset) :
  In x (zinsert e z) <-> x = e \/ In x z.
Proof.
  induction z as [|y z IH]; cbn; [intuition congruence|].
  destruct (entry_le e y); cbn; [intuition congruence|].
  rewrite IH. intuition congruence.
Qed.

Lemma members_zremove (m : string) (z : zset) :
  map fst (zremove m z) = filter (fun k => negb (String.eqb k m)) (map fst z).
Proof.
  unfold zremove. induction z as [|[k s] z IH]; cbn; [reflexivity|].
  destruct (String.eqb k m); cbn; now rewrite IH.
Qed.

(** The members of a sorted set stay distinct under [ZREM] and [ZADD]. *)
Lemma NoDup_zremove (m : string) (z : zset) :
  NoDup (map fst z) -> NoDup (map fst (zremove m z)).
Proof. rewrite members_zremove. apply NoDup_filter. Qed.

Lemma NoDup_zinsert (m : string) (s : Z) (z : zset) :
  NoDup (map fst z) -> ~ In m (map fst z) -> NoDup (map fst (zinsert (m, s) z)).
Proof.
  induction z as [|[k s'] z IH]; cbn; intros Hnd Hin.
  - constructor; [tauto | constructor].
  - destruct (entry_le (m, s) (k, s')); cbn.
    + constructor; [cbn; tauto | exact Hnd].
    + inversion Hnd as [|? ? Hk Hz]; subst. constructor.
      * intros H. apply in_map_iff in H. destruct H as ([k' s''] & E & H).
        cbn in E. subst k'. apply in_zinsert in H. destruct H as [H|H].
        -- inversion H; subst. tauto.
        -- apply Hk. apply in_map_iff. now exists (k, s'').
      * apply IH; tauto.
Qed.

Lemma NoDup_zadd (r : store) (key member : string) (score : Z) :
  NoDup (map fst (zsets r key)) ->
  NoDup (map fst (zsets (zadd r key member score) key)).
Proof.
  intros H. cbn. rewrite upd_same. apply NoDup_zinsert.
  - now apply NoDup_zremove.
  - rewrite members_zremove, filter_In, String.eqb_refl. cbn. intuition congruence.
Qed.

End RedisFacts.

(* ================================================================= *)
(** ** The queue manager *)

Module QueueFacts.
Import Py Run QueueManager.
#[local] Open Scope run_scope.

(** What [enqueue_message] returns and leaves behind, spelled out. *)
Lemma enqueue_message_eq (w : world) (r : Redis.store) (d : dict) (p : Z) :
  redis w = Some r ->
  enqueue_message d p w
  = let d' := dict_set
                (dict_set (dict_set d "enqueued_at"
                             (VStr (isoformat (clock w (reads w)))))
                          "priority" (VInt p))
                "attempts" (VInt 0) in
    (Ok d',
     mk_world
       (Some (if p >? 0
              then Redis.zadd r priority_queue (json_dumps (VDict d')) p
              else Redis.lpush r main_queue (json_dumps (VDict d'))))
       (db w) (clock w) (S (reads w)) (bot_initialized w) (user_running w) (api w)).
Proof.
  intros H. unfold enqueue_message, connection, bind, get, utcnow, put_store,
    modify, set_redis, ret. rewrite H. cbn. destruct (p >? 0); reflexivity.
Qed.

Lemma dequeue_priority (w : world) (r : Redis.store) (m : string) (s : Z)
  (front : list (string * Z)) (v : value) :
  redis w = Some r ->
  rev (Redis.zsets r priority_queue) = (m, s) :: front ->
  json_loads m = Some v ->
  dequeue_message w
  = (Ok (Some v),
     set_redis (Some (Redis.mk_store (Redis.lists r)
                        (Redis.upd (Redis.zsets r) priority_queue (rev front)))) w).
Proof.
  intros H Hz Hl. unfold dequeue_message, bind, get, try_except, Redis.zpopmax.
  rewrite H, Hz. cbn. unfold put_store, modify, bind, ret. now rewrite Hl.
Qed.

Lemma dequeue_fifo (w : world) (r : Redis.store) (x : string)
  (front : list string) (v : value) :
  redis w = Some r ->
  Redis.zsets r priority_queue = [] ->
  rev (Redis.lists r main_queue) = x :: front ->
  json_loads x = Some v ->
  dequeue_message w
  = (Ok (Some v),
     set_redis (Some (Redis.mk_store (Redis.upd (Redis.lists r) main_queue (rev front))
                        (Redis.zsets r))) w).
Proof.
  intros H Hz Hl Hv. unfold dequeue_message, bind, get, try_except,
    Redis.zpopmax, Redis.brpop.
  rewrite H, Hz. cbn [rev]. rewrite Hl. cbn.
  unfold put_store, modify, bind, ret. now rewrite Hv.
Qed.

Lemma dequeue_nothing (w : world) (r : Redis.store) :
  redis w = Some r ->
  Redis.zsets r priority_queue = [] ->
  Redis.lists r main_queue = [] ->
  dequeue_message w = (Ok None, w).
Proof.
  intros H Hz Hl. unfold dequeue_message, bind, get, try_except,
    Redis.zpopmax, Redis.brpop.
  rewrite H, Hz, Hl. reflexivity.
Qed.

(** The dict [enqueue_message] serialises is well formed when the caller's
    dict is. *)
Lemma wf_stamped (d : dict) (t : string) (p : Z) :
  wf (VDict d) = true ->
  wf (VDict (dict_set (dict_set (dict_set d "enqueued_at" (VStr t))
                                "priority" (VInt p))
                      "attempts" (VInt 0))) = true.
Proof. intros H. now repeat apply DictFacts.wf_dict_set. Qed.

(** [enqueue_message] sets [attempts] to 0, [priority] to the supplied
    priority and [enqueued_at] to the reading of the clock;
    every other key of the item keeps its value; the serialised item goes
    to the priority set when the priority is positive and to the head of
    the list otherwise. *)
Lemma enqueue_message_fields (w : world) (r : Redis.store) (d : dict) (p : Z) :
  redis w = Some r ->
  exists d' w' r',
    enqueue_message d p w = (Ok d', w')
    /\ redis w' = Some r'
    /\ dict_get d' "attempts" = Some (VInt 0)
    /\ dict_get d' "priority" = Some (VInt p)
    /\ dict_get d' "enqueued_at" = Some (VStr (isoformat (clock w (reads w))))
    /\ (forall k, k <> "attempts" -> k <> "priority" -> k <> "enqueued_at" ->
                  dict_get d' k = dict_get d k)
    /\ (if p >? 0
        then In (json_dumps (VDict d'), p) (Redis.zsets r' priority_queue)
             /\ Redis.lists r' main_queue = Redis.lists r main_queue
        else Redis.lists r' main_queue
             = json_dumps (VDict d') :: Redis.lists r main_queue
             /\ Redis.zsets r' priority_queue = Redis.zsets r priority_queue)
    /\ db w' = db w.
Proof.
  intros H. rewrite (enqueue_message_eq w r d p H). cbv zeta.
  eexists; eexists; eexists. split; [reflexivity|].
  split; [reflexivity|].
  split; [apply DictFacts.dict_get_set_eq|].
  split.
  { rewrite DictFacts.dict_get_set_neq by discriminate.
    apply DictFacts.dict_get_set_eq. }
  split.
  { rewrite !DictFacts.dict_get_set_neq by discriminate.
    apply DictFacts.dict_get_set_eq. }
  split.
  { intros k H1 H2 H3. rewrite !DictFacts.dict_get_set_neq by congruence.
    reflexivity. }
  split; [|reflexivity].
  destruct (p >? 0); unfold Redis.zadd, Redis.lpush;
    cbn [Redis.zsets Redis.lists].
  - split; [|reflexivity]. rewrite RedisFacts.upd_same.
    apply RedisFacts.in_zinsert. now left.
  - split; [|reflexivity]. now rewrite RedisFacts.upd_same.
Qed.

Lemma bind_eq {A B : Type} (m : M A) (k : A -> M B) (w w' : world) (a : A) :
  m w = (Ok a, w') -> bind m k w = k a w'.
Proof. intros H. unfold bind. now rewrite H. Qed.

(** The serialised forms of two stamped items with different priorities
    differ. *)
Lemma stamped_differ (a b : dict) (ta tb : string) (p q : Z) :
  wf (VDict a) = true -> wf (VDict b) = true -> p <> q ->
  String.eqb
    (json_dumps (VDict (dict_set (dict_set (dict_set a "enqueued_at" (VStr ta))
                                           "priority" (VInt p))
                                 "attempts" (VInt 0))))
    (json_dumps (VDict (dict_set (dict_set (dict_set b "enqueued_at" (VStr tb))
                                           "priority" (VInt q))
                                 "attempts" (VInt 0))))
  = false.
Proof.
  intros Ha Hb Hpq. apply String.eqb_neq. intros E.
  apply DictFacts.json_dumps_inj in E; try now apply wf_stamped.
  injection E as E.
  assert (G : forall d t x, dict_get (dict_set (dict_set (dict_set d "enqueued_at" (VStr t))
                              "priority" (VInt x)) "attempts" (VInt 0)) "priority"
                            = Some (VInt x)).
  { intros. rewrite DictFacts.dict_get_set_neq by discriminate.
    apply DictFacts.dict_get_set_eq. }
  pose proof (G a ta p) as G1. rewrite E, G in G1. congruence.
Qed.

(** The store after the four enqueues of the priority scenario. *)
Lemma priority_scenario_store (r : Redis.store) (s1 s2 s3 s4 : string) :
  Redis.lists r main_queue = [] ->
  Redis.zsets r priority_queue = [] ->
  String.eqb s2 s4 = false ->
  let r4 := Redis.zadd
              (Redis.lpush (Redis.zadd (Redis.lpush r main_queue s1)
                                       priority_queue s2 5)
                           main_queue s3)
              priority_queue s4 3 in
  Redis.zsets r4 priority_queue = [(s4, 3); (s2, 5)]
  /\ Redis.lists r4 main_queue = [s3; s1].
Proof.
  intros Hl Hz Hne. unfold Redis.zadd, Redis.lpush.
  cbn [Redis.zsets Redis.lists]. rewrite !RedisFacts.upd_same, Hz, Hl.
  split; [|reflexivity].
  cbn [Redis.zremove filter Redis.zinsert fst]. rewrite Hne. reflexivity.
Qed.

(** The item as [enqueue_message] leaves it. *)
Lemma enqueue_message_low (w : world) (r : Redis.store) (d : dict) (p : Z) :
  redis w = Some r -> (p >? 0) = false ->
  enqueue_message d p w
  = (Ok (dict_set (dict_set (dict_set d "enqueued_at"
                               (VStr (isoformat (clock w (reads w)))))
                            "priority" (VInt p)) "attempts" (VInt 0)),
     mk_world
       (Some (Redis.lpush r main_queue
                (json_dumps
                   (VDict (dict_set (dict_set (dict_set d "enqueued_at"
                                      (VStr (isoformat (clock w (reads w)))))
                                      "priority" (VInt p)) "attempts" (VInt 0))))))
       (db w) (clock w) (S (reads w)) (bot_initialized w) (user_running w) (api w)).
Proof. intros H Hp. rewrite (enqueue_message_eq w r d p H). cbv zeta. now rewrite Hp. Qed.

Lemma enqueue_message_high (w : world) (r : Redis.store) (d : dict) (p : Z) :
  redis w = Some r -> (p >? 0) = true ->
  enqueue_message d p w
  = (Ok (dict_set (dict_set (dict_set d "enqueued_at"
                               (VStr (isoformat (clock w (reads w)))))
                            "priority" (VInt p)) "attempts" (VInt 0)),
     mk_world
       (Some (Redis.zadd r priority_queue
                (json_dumps
                   (VDict (dict_set (dict_set (dict_set d "enqueued_at"
                                      (VStr (isoformat (clock w (reads w)))))
                                      "priority" (VInt p)) "attempts" (VInt 0))))
                p))
       (db w) (clock w) (S (reads w)) (bot_initialized w) (user_running w) (api w)).
Proof. intros H Hp. rewrite (enqueue_message_eq w r d p H). cbv zeta. now rewrite Hp. Qed.

Ltac enqueue_step :=
  cbv beta;
  first [ erewrite bind_eq by (apply enqueue_message_low; [eassumption || reflexivity | reflexivity])
        | erewrite bind_eq by (apply enqueue_message_high; [eassumption || reflexivity | reflexivity]) ].

(** C6: items enqueued with the priorities 0, 5, 0, 3 on empty queues are
    dequeued in the order: priority 5, priority 3, then the two items of
    priority 0 in the order of their arrival. *)
Theorem priority_scenario_order (w : world) (r : Redis.store) (d1 d2 d3 d4 : dict) :
  redis w = Some r ->
  Redis.lists r main_queue = [] ->
  Redis.zsets r priority_queue = [] ->
  wf (VDict d1) = true -> wf (VDict d2) = true ->
  wf (VDict d3) = true -> wf (VDict d4) = true ->
  exists a b c d,
    fst ((a <- enqueue_message d1 0 ;;
          b <- enqueue_message d2 5 ;;
          c <- enqueue_message d3 0 ;;
          d <- enqueue_message d4 3 ;;
          x1 <- dequeue_message ;;
          x2 <- dequeue_message ;;
          x3 <- dequeue_message ;;
          x4 <- dequeue_message ;;
          ret ([a; b; c; d], [x1; x2; x3; x4])) w)
    = Ok ([a; b; c; d],
          [Some (VDict b); Some (VDict d); Some (VDict a); Some (VDict c)]).
Proof.
  intros Hr Hl Hz W1 W2 W3 W4.
  do 4 eexists.
  do 4 enqueue_step. cbv beta.
  cbn [reads clock redis db].
  set (a := dict_set (dict_set (dict_set d1 _ _) _ _) _ _).
  set (b := dict_set (dict_set (dict_set d2 _ _) _ _) _ _).
  set (c := dict_set (dict_set (dict_set d3 _ _) _ _) _ _).
  set (d := dict_set (dict_set (dict_set d4 _ _) _ _) _ _).
  assert (Wa : wf (VDict a) = true) by now apply wf_stamped.
  assert (Wb : wf (VDict b) = true) by now apply wf_stamped.
  assert (Wc : wf (VDict c) = true) by now apply wf_stamped.
  assert (Wd : wf (VDict d) = true) by now apply wf_stamped.
  assert (Hne : String.eqb (json_dumps (VDict b)) (json_dumps (VDict d)) = false)
    by (apply stamped_differ; [assumption | assumption | discriminate]).
  destruct (priority_scenario_store r (json_dumps (VDict a)) (json_dumps (VDict b))
              (json_dumps (VDict c)) (json_dumps (VDict d)) Hl Hz Hne) as [Sz Sl].
  cbv zeta in Sz, Sl.
  erewrite bind_eq.
  2:{ eapply dequeue_priority; [reflexivity | rewrite Sz; reflexivity
                                | now apply JsonFacts.json_loads_dumps]. }
  cbv beta. erewrite bind_eq.
  2:{ eapply dequeue_priority; [reflexivity | |
                                now apply (JsonFacts.json_loads_dumps (VDict d))].
      cbn [Redis.zsets]. rewrite RedisFacts.upd_same. reflexivity. }
  cbv beta. erewrite bind_eq.
  2:{ eapply dequeue_fifo; [reflexivity | | |
                            now apply (JsonFacts.json_loads_dumps (VDict a))].
      - cbn [Redis.zsets]. rewrite RedisFacts.upd_same. reflexivity.
      - cbn [Redis.lists]. rewrite Sl. reflexivity. }
  cbv beta. erewrite bind_eq.
  2:{ eapply dequeue_fifo; [reflexivity | | |
                            now apply (JsonFacts.json_loads_dumps (VDict c))].
      - cbn [Redis.zsets]. rewrite RedisFacts.upd_same. reflexivity.
      - cbn [Redis.lists]. rewrite RedisFacts.upd_same. reflexivity. }
  reflexivity.
Qed.

Lemma compare_refl (s : string) : String.compare s s = Eq.
Proof.
  pose proof (String.compare_antisym s s) as H.
  destruct (String.compare s s); (reflexivity || discriminate).
Qed.

(** [dequeue_message] takes the last entry of the priority set when there
    is one, and otherwise the last of the main list; what it returns is
    the entry decoded, or [None] when it does not decode. *)
Lemma dequeue_pops_priority (w : world) (r : Redis.store) (zf : Redis.zset)
  (m : string) (s : Z) :
  redis w = Some r ->
  Redis.zsets r priority_queue = (zf ++ [(m, s)])%list ->
  dequeue_message w
  = (Ok (json_loads m),
     set_redis (Some (Redis.mk_store (Redis.lists r)
                        (Redis.upd (Redis.zsets r) priority_queue zf))) w).
Proof.
  intros Hr Hz. unfold dequeue_message, bind, get, try_except, Redis.zpopmax.
  rewrite Hr, Hz, rev_app_distr. cbn [rev app]. rewrite rev_involutive.
  unfold put_store, modify, ret, raise. destruct (json_loads m); reflexivity.
Qed.

Lemma dequeue_pops_main (w : world) (r : Redis.store) (lf : list string)
  (x : string) :
  redis w = Some r ->
  Redis.zsets r priority_queue = [] ->
  Redis.lists r main_queue = (lf ++ [x])%list ->
  dequeue_message w
  = (Ok (json_loads x),
     set_redis (Some (Redis.mk_store (Redis.upd (Redis.lists r) main_queue lf)
                        (Redis.zsets r))) w).
Proof.
  intros Hr Hz Hl.
  unfold dequeue_message, bind, get, try_except, Redis.zpopmax, Redis.brpop.
  rewrite Hr, Hz, Hl, rev_app_distr. cbn [rev app]. rewrite rev_involutive.
  unfold put_store, modify, ret, raise. destruct (json_loads x); reflexivity.
Qed.

(** As many calls of [dequeue_message] as the priority set has entries
    behind [zf] leave the priority set at [zf] and the main list alone. *)
Lemma drain_priority (zb : Redis.zset) :
  forall (w : world) (r : Redis.store) (zf : Redis.zset),
    redis w = Some r ->
    Redis.zsets r priority_queue = (zf ++ zb)%list ->
    exists w' r',
      Sample.drain (List.length zb) w = (Ok tt, w')
      /\ redis w' = Some r'
      /\ Redis.zsets r' priority_queue = zf
      /\ Redis.lists r' main_queue = Redis.lists r main_queue.
Proof.
  induction zb as [|[m s] zb IH] using rev_ind; intros w r zf Hr Hz.
  - exists w, r. rewrite app_nil_r in Hz. now repeat split.
  - rewrite length_app, Nat.add_comm. cbn [List.length Nat.add Sample.drain].
    rewrite app_assoc in Hz.
    erewrite bind_eq by (eapply dequeue_pops_priority; eassumption).
    match goal with
    | |- context [Sample.drain _ ?w0] =>
        edestruct (IH w0) as (w' & r' & E & R & Z' & L); [reflexivity | |]
    end.
    { cbn [Redis.zsets]. now rewrite RedisFacts.upd_same. }
    exists w', r'. repeat split; assumption.
Qed.

(** With the priority set empty, as many calls as the main list has
    entries behind [lf] leave the main list at [lf]. *)
Lemma drain_main (lb : list string) :
  forall (w : world) (r : Redis.store) (lf : list string),
    redis w = Some r ->
    Redis.zsets r priority_queue = [] ->
    Redis.lists r main_queue = (lf ++ lb)%list ->
    exists w' r',
      Sample.drain (List.length lb) w = (Ok tt, w')
      /\ redis w' = Some r'
      /\ Redis.zsets r' priority_queue = []
      /\ Redis.lists r' main_queue = lf.
Proof.
  induction lb as [|x lb IH] using rev_ind; intros w r lf Hr Hz Hl.
  - exists w, r. rewrite app_nil_r in Hl. now repeat split.
  - rewrite length_app, Nat.add_comm. cbn [List.length Nat.add Sample.drain].
    rewrite app_assoc in Hl.
    erewrite bind_eq by (eapply dequeue_pops_main; eassumption).
    match goal with
    | |- context [Sample.drain _ ?w0] =>
        edestruct (IH w0) as (w' & r' & E & R & Z' & L);
          [reflexivity | exact Hz | |]
    end.
    { cbn [Redis.lists]. now rewrite RedisFacts.upd_same. }
    exists w', r'. repeat split; assumption.
Qed.

Lemma bind_assoc {A B C : Type} (m : M A) (k : A -> M B) (h : B -> M C) (w : world) :
  bind (bind m k) h w = bind m (fun a => bind (k a) h) w.
Proof. unfold bind. destruct (m w) as [[a|e] w1]; reflexivity. Qed.

Lemma drain_add (n m : nat) (w : world) :
  Sample.drain (n + m) w = bind (Sample.drain n) (fun _ => Sample.drain m) w.
Proof.
  revert w. induction n as [|n IH]; intros w; [reflexivity|].
  cbn [Nat.add Sample.drain]. rewrite bind_assoc.
  assert (G : forall k1 k2 : option value -> M unit,
             (forall x w', k1 x w' = k2 x w') ->
             bind dequeue_message k1 w = bind dequeue_message k2 w).
  { intros k1 k2 H. unfold bind.
    destruct (dequeue_message w) as [[x|e] w1]; [apply H | reflexivity]. }
  apply G. intros _ w'. apply IH.
Qed.

(** The byte order of strings is transitive. *)
Lemma leb_trans (a b c : string) :
  (a <=? b)%string = true -> (b <=? c)%string = true -> (a <=? c)%string = true.
Proof.
  unfold String.leb. revert b c.
  induction a as [|x a IH]; intros [|y b] [|z c]; cbn; try easy.
  unfold Ascii.compare.
  destruct (N.compare_spec (N_of_ascii x) (N_of_ascii y)) as [E1|L1|G1];
    destruct (N.compare_spec (N_of_ascii y) (N_of_ascii z)) as [E2|L2|G2];
    destruct (N.compare_spec (N_of_ascii x) (N_of_ascii z)) as [E3|L3|G3];
    try easy; try lia.
  apply IH.
Qed.

Lemma entry_le_trans (a b c : string * Z) :
  Redis.entry_le a b = true -> Redis.entry_le b c = true ->
  Redis.entry_le a c = true.
Proof.
  unfold Redis.entry_le. intros H1 H2.
  apply Bool.orb_true_iff in H1, H2. apply Bool.orb_true_iff.
  destruct H1 as [H1|H1], H2 as [H2|H2];
    try apply andb_prop in H1; try apply andb_prop in H2;
    repeat match goal with
           | H : _ /\ _ |- _ => destruct H
           | H : (_ <? _) = true |- _ => apply Z.ltb_lt in H
           | H : (_ =? _) = true |- _ => apply Z.eqb_eq in H
           end.
  - left. apply Z.ltb_lt. lia.
  - left. apply Z.ltb_lt. lia.
  - left. apply Z.ltb_lt. lia.
  - right. apply andb_true_intro. split; [apply Z.eqb_eq; lia|].
    eapply leb_trans; eassumption.
Qed.

(** Where [zinsert] puts an entry: behind the entries it passes, which
    are those it is not below. *)
Lemma zinsert_split (e : string * Z) (z : Redis.zset) :
  exists pre post,
    Redis.zinsert e z = (pre ++ e :: post)%list
    /\ z = (pre ++ post)%list
    /\ forallb (fun y => negb (Redis.entry_le e y)) pre = true.
Proof.
  induction z as [|x z IH]; cbn [Redis.zinsert].
  - exists [], []. now repeat split.
  - destruct (Redis.entry_le e x) eqn:E.
    + exists [], (x :: z). now repeat split.
    + destruct IH as (pre & post & H1 & H2 & H3).
      exists (x :: pre), post. cbn [app forallb]. rewrite H1, <- H2, E, H3.
      now repeat split.
Qed.

Lemma zinsert_skip (e : string * Z) (pre rest : Redis.zset) :
  forallb (fun y => negb (Redis.entry_le e y)) pre = true ->
  Redis.zinsert e (pre ++ rest)%list = (pre ++ Redis.zinsert e rest)%list.
Proof.
  induction pre as [|x pre IH]; cbn [app forallb Redis.zinsert]; [reflexivity|].
  intros H. apply andb_prop in H as [H1 H2].
  apply Bool.negb_true_iff in H1. rewrite H1. now rewrite IH.
Qed.

(** An entry below one of the set is put in front of it. *)
Lemma zinsert_before (e x : string * Z) (z : Redis.zset) :
  In x z -> Redis.entry_le e x = true ->
  exists pre post, Redis.zinsert e z = (pre ++ e :: post)%list /\ In x post.
Proof.
  induction z as [|y z IH]; cbn [Redis.zinsert]; [intros []|].
  intros Hin He. destruct (Redis.entry_le e y) eqn:E.
  - exists [], (y :: z). now split.
  - destruct Hin as [->|Hin]; [congruence|].
    destruct (IH Hin He) as (pre & post & H1 & H2).
    exists (y :: pre), post. cbn [app]. now rewrite H1.
Qed.

Lemma zremove_zinsert_same (m : string) (s : Z) (z : Redis.zset) :
  Redis.zremove m (Redis.zinsert (m, s) z) = Redis.zremove m z.
Proof.
  destruct (zinsert_split (m, s) z) as (pre & post & H1 & H2 & _).
  rewrite H1, H2. unfold Redis.zremove. rewrite !filter_app. cbn [filter fst].
  now rewrite String.eqb_refl.
Qed.

(** The priority set after two members are added with one score, whatever
    it held: the member that is the greater in byte order is behind the
    other, and equal members are one. *)
Lemma zadd_twice (z : Redis.zset) (sa sb : string) (p : Z) :
  let z2 := Redis.zinsert (sb, p)
              (Redis.zremove sb (Redis.zinsert (sa, p) (Redis.zremove sa z))) in
  match String.compare sa sb with
  | Lt => exists pre mid back, z2 = (pre ++ (sa, p) :: mid ++ (sb, p) :: back)%list
  | Gt => exists pre mid back, z2 = (pre ++ (sb, p) :: mid ++ (sa, p) :: back)%list
  | Eq => exists pre back,
            z2 = (pre ++ (sa, p) :: back)%list
            /\ ~ In sa (map fst (pre ++ back)%list)
  end.
Proof.
  cbv zeta. destruct (String.compare sa sb) eqn:C.
  - apply String.compare_eq_iff in C. subst sb. rewrite zremove_zinsert_same.
    destruct (zinsert_split (sa, p) (Redis.zremove sa (Redis.zremove sa z)))
      as (pre & post & H1 & H2 & _).
    exists pre, post. split; [exact H1|]. rewrite <- H2.
    rewrite RedisFacts.members_zremove, filter_In, String.eqb_refl.
    cbn. intuition congruence.
  - assert (N : String.eqb sa sb = false).
    { apply String.eqb_neq. intros ->. rewrite compare_refl in C. discriminate. }
    assert (Lab : Redis.entry_le (sa, p) (sb, p) = true).
    { unfold Redis.entry_le, String.leb. cbn [fst snd].
      now rewrite Z.eqb_refl, C, Bool.orb_true_r. }
    assert (Lba : Redis.entry_le (sb, p) (sa, p) = false).
    { unfold Redis.entry_le, String.leb. cbn [fst snd].
      now rewrite Z.ltb_irrefl, Z.eqb_refl, String.compare_antisym, C. }
    destruct (zinsert_split (sa, p) (Redis.zremove sa z))
      as (pre & post & H1 & _ & H3).
    rewrite H1. unfold Redis.zremove at 1. rewrite filter_app. cbn [filter fst].
    rewrite N. cbn [negb].
    rewrite zinsert_skip.
    + cbn [Redis.zinsert]. rewrite Lba.
      destruct (zinsert_split (sb, p)
                  (filter (fun e => negb (String.eqb (fst e) sb)) post))
        as (mid & back & H4 & _ & _).
      rewrite H4. eexists. exists mid, back. reflexivity.
    + apply forallb_forall. intros y Hy. apply filter_In in Hy as [Hy _].
      rewrite forallb_forall in H3. specialize (H3 y Hy).
      apply Bool.negb_true_iff in H3. apply Bool.negb_true_iff.
      destruct (Redis.entry_le (sb, p) y) eqn:E; [|reflexivity].
      rewrite (entry_le_trans _ _ _ Lab E) in H3. discriminate.
  - assert (N : String.eqb sa sb = false).
    { apply String.eqb_neq. intros ->. rewrite compare_refl in C. discriminate. }
    assert (Lba : Redis.entry_le (sb, p) (sa, p) = true).
    { unfold Redis.entry_le, String.leb. cbn [fst snd].
      now rewrite Z.eqb_refl, String.compare_antisym, C, Bool.orb_true_r. }
    destruct (zinsert_before (sb, p) (sa, p)
                (Redis.zremove sb (Redis.zinsert (sa, p) (Redis.zremove sa z))))
      as (pre & post & H1 & H2); [|exact Lba|].
    { apply RedisFacts.in_zremove. cbn [fst]. split.
      - apply RedisFacts.in_zinsert. now left.
      - intros E. apply String.eqb_neq in N. congruence. }
    apply in_split in H2 as (mid & back & ->).
    exists pre, mid, back. exact H1.
Qed.

(** C5, as the code has it: of two items enqueued with one priority,
    whatever else the queues hold, the first to arrive is the first to
    leave when the priority is zero or less: it is returned once the
    entries that were queued before the two have left, and the second is
    returned next.  With a positive priority the item whose serialised text
    is the greater in byte order is behind the other in the priority set
    and is returned first, once the entries behind it have left; and two
    items with the same text are one member of the set. *)
Theorem equal_priority_order (w : world) (r : Redis.store) (d1 d2 : dict) (p : Z) :
  redis w = Some r ->
  wf (VDict d1) = true -> wf (VDict d2) = true ->
  exists a b w2 r2,
    (a <- enqueue_message d1 p ;;
     b <- enqueue_message d2 p ;;
     ret (a, b)) w = (Ok (a, b), w2)
    /\ redis w2 = Some r2
    /\ let ja := json_dumps (VDict a) in
       let jb := json_dumps (VDict b) in
       if p >? 0
       then
         match String.compare ja jb with
         | Lt =>
             exists pre mid back,
               Redis.zsets r2 priority_queue
               = (pre ++ (ja, p) :: mid ++ (jb, p) :: back)%list
               /\ fst ((Sample.drain (List.length back) ;;;
                        x <- dequeue_message ;;
                        Sample.drain (List.length mid) ;;;
                        y <- dequeue_message ;;
                        ret (x, y)) w2)
                  = Ok (Some (VDict b), Some (VDict a))
         | Gt =>
             exists pre mid back,
               Redis.zsets r2 priority_queue
               = (pre ++ (jb, p) :: mid ++ (ja, p) :: back)%list
               /\ fst ((Sample.drain (List.length back) ;;;
                        x <- dequeue_message ;;
                        Sample.drain (List.length mid) ;;;
                        y <- dequeue_message ;;
                        ret (x, y)) w2)
                  = Ok (Some (VDict a), Some (VDict b))
         | Eq =>
             exists pre back,
               Redis.zsets r2 priority_queue = (pre ++ (ja, p) :: back)%list
               /\ ~ In ja (map fst (pre ++ back)%list)
               /\ fst ((Sample.drain (List.length back) ;;;
                        dequeue_message) w2)
                  = Ok (Some (VDict a))
         end
       else
         Redis.lists r2 main_queue = jb :: ja :: Redis.lists r main_queue
         /\ Redis.zsets r2 priority_queue = Redis.zsets r priority_queue
         /\ fst ((Sample.drain (List.length (Redis.zsets r priority_queue)
                                + List.length (Redis.lists r main_queue)) ;;;
                  x <- dequeue_message ;;
                  y <- dequeue_message ;;
                  ret (x, y)) w2)
            = Ok (Some (VDict a), Some (VDict b)).
Proof.
  intros Hr Wa Wb.
  pose proof (enqueue_message_eq w r d1 p Hr) as E1. cbv zeta in E1.
  set (a := dict_set (dict_set (dict_set d1 _ _) _ _) _ _) in E1.
  set (r1 := if p >? 0 then _ else _) in E1.
  set (w1 := mk_world _ _ _ _ _ _ _) in E1.
  pose proof (enqueue_message_eq w1 r1 d2 p eq_refl) as E2. cbv zeta in E2.
  set (b := dict_set (dict_set (dict_set d2 _ _) _ _) _ _) in E2.
  set (r2 := if p >? 0 then _ else _) in E2.
  set (w2 := mk_world _ _ _ _ _ _ _) in E2.
  assert (Wa' : wf (VDict a) = true) by now apply wf_stamped.
  assert (Wb' : wf (VDict b) = true) by now apply wf_stamped.
  pose proof (JsonFacts.json_loads_dumps _ Wa') as La.
  pose proof (JsonFacts.json_loads_dumps _ Wb') as Lb.
  assert (R2 : redis w2 = Some r2) by reflexivity.
  exists a, b, w2, r2.
  split.
  { erewrite bind_eq by exact E1. erewrite bind_eq by exact E2. reflexivity. }
  split; [exact R2|]. cbv zeta.
  clearbody w2. clear E1 E2.
  destruct (p >? 0) eqn:Hp.
  - assert (Hz2 : Redis.zsets r2 priority_queue
                  = Redis.zinsert (json_dumps (VDict b), p)
                      (Redis.zremove (json_dumps (VDict b))
                         (Redis.zinsert (json_dumps (VDict a), p)
                            (Redis.zremove (json_dumps (VDict a))
                               (Redis.zsets r priority_queue))))).
    { unfold r2, r1, Redis.zadd. cbn [Redis.zsets].
      now rewrite !RedisFacts.upd_same. }
    pose proof (zadd_twice (Redis.zsets r priority_queue)
                  (json_dumps (VDict a)) (json_dumps (VDict b)) p) as Z2.
    cbv zeta in Z2. rewrite <- Hz2 in Z2. clearbody r2.
    destruct (String.compare (json_dumps (VDict a)) (json_dumps (VDict b))) eqn:C.
    + destruct Z2 as (pre & back & E & Hn). exists pre, back.
      split; [exact E|]. split; [exact Hn|].
      destruct (drain_priority back w2 r2 (pre ++ [(json_dumps (VDict a), p)])%list
                  R2) as (w3 & r3 & D & R3 & Z3 & _).
      { now rewrite E, <- app_assoc. }
      erewrite bind_eq by exact D.
      erewrite dequeue_pops_priority by eassumption.
      cbn [fst]. now rewrite La.
    + destruct Z2 as (pre & mid & back & E). exists pre, mid, back.
      split; [exact E|].
      destruct (drain_priority back w2 r2
                  ((pre ++ (json_dumps (VDict a), p) :: mid)
                     ++ [(json_dumps (VDict b), p)])%list R2)
        as (w3 & r3 & D & R3 & Z3 & _).
      { rewrite E, <- !app_assoc. reflexivity. }
      erewrite bind_eq by exact D.
      erewrite bind_eq by (eapply dequeue_pops_priority; eassumption).
      cbv beta.
      match goal with
      | |- fst (bind (Sample.drain _) _ ?w0) = _ =>
          destruct (drain_priority mid w0 _
                      (pre ++ [(json_dumps (VDict a), p)])%list eq_refl)
            as (w4 & r4 & D4 & R4 & Z4 & _)
      end.
      { cbn [Redis.zsets]. rewrite RedisFacts.upd_same, <- app_assoc. reflexivity. }
      erewrite bind_eq by exact D4.
      erewrite bind_eq by (eapply dequeue_pops_priority; eassumption).
      cbn [ret fst]. now rewrite La, Lb.
    + destruct Z2 as (pre & mid & back & E). exists pre, mid, back.
      split; [exact E|].
      destruct (drain_priority back w2 r2
                  ((pre ++ (json_dumps (VDict b), p) :: mid)
                     ++ [(json_dumps (VDict a), p)])%list R2)
        as (w3 & r3 & D & R3 & Z3 & _).
      { rewrite E, <- !app_assoc. reflexivity. }
      erewrite bind_eq by exact D.
      erewrite bind_eq by (eapply dequeue_pops_priority; eassumption).
      cbv beta.
      match goal with
      | |- fst (bind (Sample.drain _) _ ?w0) = _ =>
          destruct (drain_priority mid w0 _
                      (pre ++ [(json_dumps (VDict b), p)])%list eq_refl)
            as (w4 & r4 & D4 & R4 & Z4 & _)
      end.
      { cbn [Redis.zsets]. rewrite RedisFacts.upd_same, <- app_assoc. reflexivity. }
      erewrite bind_eq by exact D4.
      erewrite bind_eq by (eapply dequeue_pops_priority; eassumption).
      cbn [ret fst]. now rewrite La, Lb.
  - assert (Hl2 : Redis.lists r2 main_queue
                  = json_dumps (VDict b) :: json_dumps (VDict a)
                      :: Redis.lists r main_queue).
    { unfold r2, r1, Redis.lpush. cbn [Redis.lists].
      now rewrite !RedisFacts.upd_same. }
    assert (Hz2 : Redis.zsets r2 priority_queue = Redis.zsets r priority_queue)
      by reflexivity.
    clearbody r2.
    split; [exact Hl2|]. split; [exact Hz2|].
    destruct (drain_priority (Redis.zsets r priority_queue) w2 r2 [] R2)
      as (w3 & r3 & D3 & R3 & Z3 & L3); [now rewrite Hz2|].
    destruct (drain_main (Redis.lists r main_queue) w3 r3
                [json_dumps (VDict b); json_dumps (VDict a)] R3 Z3)
      as (w4 & r4 & D4 & R4 & Z4 & L4); [now rewrite L3, Hl2|].
    assert (D : Sample.drain (List.length (Redis.zsets r priority_queue)
                              + List.length (Redis.lists r main_queue)) w2
                = (Ok tt, w4)).
    { rewrite drain_add. erewrite bind_eq by exact D3. exact D4. }
    erewrite bind_eq by exact D.
    erewrite bind_eq
      by (eapply (dequeue_pops_main _ _ [json_dumps (VDict b)]);
          [exact R4 | exact Z4 | exact L4]).
    erewrite bind_eq.
    2:{ eapply (dequeue_pops_main _ _ []); [reflexivity | exact Z4 |].
        cbn [Redis.lists]. now rewrite RedisFacts.upd_same. }
    cbn [ret fst]. now rewrite La, Lb.
Qed.

Lemma equal_priority_order_witness :
  exists a b w2 r2,
    (a <- enqueue_message (Sample.item 1) 5 ;;
     b <- enqueue_message (Sample.item 2) 5 ;;
     ret (a, b))
      (snd ((enqueue_message (Sample.item 3) 7 ;;;
             enqueue_message (Sample.item 4) 0) (Sample.flooded 30)))
    = (Ok (a, b), w2)
    /\ redis w2 = Some r2
    /\ List.length (Redis.zsets r2 priority_queue) = 3%nat
    /\ List.length (Redis.lists r2 main_queue) = 1%nat.
Proof.
  destruct (equal_priority_order
              (snd ((enqueue_message (Sample.item 3) 7 ;;;
                     enqueue_message (Sample.item 4) 0) (Sample.flooded 30)))
              (match redis (snd ((enqueue_message (Sample.item 3) 7 ;;;
                                  enqueue_message (Sample.item 4) 0)
                                   (Sample.flooded 30))) with
               | Some r => r
               | None => Redis.empty
               end)
              (Sample.item 1) (Sample.item 2) 5 eq_refl eq_refl eq_refl)
    as (a & b & w2 & r2 & E & R & _).
  exists a, b, w2, r2. split; [exact E|]. split; [exact R|].
  assert (S2 : redis w2
               = redis (snd ((a <- enqueue_message (Sample.item 1) 5 ;;
                              b <- enqueue_message (Sample.item 2) 5 ;;
                              ret (a, b))
                               (snd ((enqueue_message (Sample.item 3) 7 ;;;
                                      enqueue_message (Sample.item 4) 0)
                                       (Sample.flooded 30))))))
    by (now rewrite E).
  rewrite R in S2.
  assert (S3 : option_map (fun r => (List.length (Redis.zsets r priority_queue),
                                    List.length (Redis.lists r main_queue)))
                          (Some r2) = Some (3%nat, 1%nat))
    by (rewrite S2; vm_compute; reflexivity).
  cbn [option_map] in S3. injection S3 as S3 S4. now split.
Defined.

(** C5, as stated, fails: with the priority 5 the item enqueued second
    leaves first. *)
Lemma fifo_fails_for_positive_priority :
  ~ (forall (w : world) (r : Redis.store) (d1 d2 : dict) (p : Z),
       redis w = Some r ->
       Redis.lists r main_queue = [] ->
       Redis.zsets r priority_queue = [] ->
       wf (VDict d1) = true -> wf (VDict d2) = true ->
       exists a b,
         fst ((a <- enqueue_message d1 p ;;
               b <- enqueue_message d2 p ;;
               x <- dequeue_message ;;
               y <- dequeue_message ;;
               ret (a, b, x, y)) w)
         = Ok (a, b, Some (VDict a), Some (VDict b))).
Proof.
  intros H.
  destruct (H (Sample.flooded 30) Redis.empty (Sample.item 1) (Sample.item 2) 5
              eq_refl eq_refl eq_refl eq_refl eq_refl) as (a & b & E).
  vm_compute in E. congruence.
Qed.

(** What [enqueue_retry] returns and leaves behind, for an item whose
    attempt counter is an integer or is missing. *)
Lemma enqueue_retry_eq (w : world) (r : Redis.store) (d : dict) (delay n : Z) :
  redis w = Some r ->
  dict_get_default d "attempts" (VInt 0) = VInt n ->
  enqueue_retry d delay w
  = let d1 := dict_set (dict_set d "attempts" (VInt (n + 1))) "retry_after"
                (VStr (isoformat (clock w (reads w) + timedelta_seconds delay))) in
    (Ok d1,
     mk_world
       (Some (Redis.zadd r retry_queue (json_dumps (VDict d1))
                (timestamp (clock w (S (reads w))) + timedelta_seconds delay)))
       (db w) (clock w) (S (S (reads w))) (bot_initialized w) (user_running w) (api w)).
Proof.
  intros H Ha. unfold enqueue_retry, connection, bind, get, utcnow, put_store,
    modify, set_redis, ret. rewrite H, Ha. reflexivity.
Qed.

(** The first statement of the loop body takes the member out of the
    sorted set and touches nothing else. *)
Lemma remove_member_eq (w : world) (r : Redis.store) (queue m : string) :
  redis w = Some r ->
  remove_member queue m w = (Ok tt, set_redis (Some (Redis.zrem r queue m)) w).
Proof.
  intros H. unfold remove_member, connection, bind, get, put_store, modify, ret.
  now rewrite H.
Qed.

Lemma not_member_after_zrem (r : Redis.store) (queue m : string) :
  ~ In m (map fst (Redis.zsets (Redis.zrem r queue m) queue)).
Proof.
  cbn [Redis.zrem Redis.zsets]. rewrite RedisFacts.upd_same.
  rewrite RedisFacts.members_zremove, filter_In, String.eqb_refl.
  cbn. intuition congruence.
Qed.

Lemma not_member_after_zrem_list (m : string) (z : Redis.zset) :
  ~ In m (map fst (Redis.zremove m z)).
Proof.
  rewrite RedisFacts.members_zremove, filter_In, String.eqb_refl.
  cbn. intuition congruence.
Qed.

(** The loop body on a member that is the text of a well-formed dict. *)
Lemma move_to_main_eq (w : world) (r : Redis.store) (queue : string)
  (d : dict) (score : Z) :
  redis w = Some r -> wf (VDict d) = true ->
  move_to_main queue (json_dumps (VDict d), score) w
  = (Ok tt,
     snd (enqueue_message d 0
            (set_redis (Some (Redis.zrem r queue (json_dumps (VDict d)))) w))).
Proof.
  intros H Hwf. unfold move_to_main.
  erewrite bind_eq by (apply remove_member_eq; eassumption).
  unfold reenqueue. rewrite (JsonFacts.json_loads_dumps _ Hwf).
  erewrite bind_eq by (apply enqueue_message_low; reflexivity).
  erewrite enqueue_message_low by reflexivity. reflexivity.
Qed.

(** A loop keeps what each run of its body keeps, whether or not a run
    raises. *)
Lemma for_each_invariant {A : Type} (I : world -> Prop) (xs : list A)
  (body : A -> M unit) :
  (forall x, In x xs -> forall w, I w -> I (snd (body x w))) ->
  forall w, I w -> I (snd (for_each xs body w)).
Proof.
  induction xs as [|x xs IH]; intros Hb w Hw; [exact Hw|].
  cbn [for_each]. unfold bind.
  pose proof (Hb x (or_introl eq_refl) w Hw) as Hx.
  destruct (body x w) as [[[]|e] w']; cbn [snd] in *.
  - apply IH; [|exact Hx]. intros y Hy. apply Hb. now right.
  - exact Hx.
Qed.

Lemma zset_score_unique (z : Redis.zset) (m : string) (s1 s2 : Z) :
  NoDup (map fst z) -> In (m, s1) z -> In (m, s2) z -> s1 = s2.
Proof.
  induction z as [|[k s] z IH]; cbn; [tauto|].
  intros Hnd H1 H2. inversion Hnd as [|? ? Hk Hz]; subst.
  destruct H1 as [H1|H1], H2 as [H2|H2].
  - congruence.
  - inversion H1; subst. exfalso. apply Hk.
    apply in_map_iff. now exists (m, s2).
  - inversion H2; subst. exfalso. apply Hk.
    apply in_map_iff. now exists (m, s1).
  - now apply IH.
Qed.

(** The loop body on another member leaves an entry of the sorted set in
    place. *)
Lemma move_to_main_keeps (queue : string) (entry : string * Z) (m : string)
  (s : Z) (w : world) :
  fst entry <> m ->
  (exists r, redis w = Some r /\ In (m, s) (Redis.zsets r queue)) ->
  exists r', redis (snd (move_to_main queue entry w)) = Some r'
             /\ In (m, s) (Redis.zsets r' queue).
Proof.
  intros Hne (r & Hr & Hin). destruct entry as [mi si]. cbn [fst] in Hne.
  unfold move_to_main.
  erewrite bind_eq by (apply remove_member_eq; eassumption).
  assert (Hin' : In (m, s) (Redis.zsets (Redis.zrem r queue mi) queue)).
  { cbn [Redis.zrem Redis.zsets]. rewrite RedisFacts.upd_same.
    apply RedisFacts.in_zremove. cbn [fst]. split; [exact Hin | congruence]. }
  unfold reenqueue.
  destruct (json_loads mi) as [[| | | | |md]|];
    eexists; (split; [reflexivity | exact Hin']).
Qed.

(** A pass of a sweeper leaves in the sorted set every entry whose score
    is later than the reading of the clock the pass starts with. *)
Lemma sweep_keeps_unready (queue : string) (w : world) (r : Redis.store)
  (m : string) (s : Z) :
  redis w = Some r ->
  NoDup (map fst (Redis.zsets r queue)) ->
  In (m, s) (Redis.zsets r queue) ->
  timestamp (clock w (reads w)) < s ->
  exists r', redis (snd (sweep queue w)) = Some r'
             /\ In (m, s) (Redis.zsets r' queue).
Proof.
  intros Hr Hnd Hin Hlt. unfold sweep, try_except.
  match goal with
  | |- context [match ?run w with _ => _ end] =>
      assert (G : exists r', redis (snd (run w)) = Some r'
                             /\ In (m, s) (Redis.zsets r' queue))
  end.
  { unfold utcnow at 1. unfold bind at 1. unfold ready_members, get.
    unfold bind at 1. unfold bind at 1. cbn [redis]. rewrite Hr. unfold ret at 1.
    apply (for_each_invariant
             (fun w' => exists r', redis w' = Some r'
                                   /\ In (m, s) (Redis.zsets r' queue))).
    - intros e He w' Hw'. apply move_to_main_keeps; [|exact Hw'].
      unfold Redis.zrangebyscore in He. apply filter_In in He.
      destruct He as [He Hs]. apply andb_prop in Hs. destruct Hs as [_ Hs].
      apply Z.leb_le in Hs. destruct e as [mi si]. cbn [fst snd] in *.
      intros ->. pose proof (zset_score_unique _ _ _ _ Hnd He Hin). lia.
    - exists r. split; [reflexivity | exact Hin]. }
  destruct G as (r' & G1 & G2).
  match goal with
  | |- context [match ?run w with _ => _ end] =>
      destruct (run w) as [[[]|e] w']
  end; cbn [snd] in *; exists r'; auto.
Qed.

(** A pass of a sweeper over a sorted set whose only member is ready. *)
Lemma sweep_single (queue : string) (w : world) (r : Redis.store) (d : dict)
  (score : Z) :
  redis w = Some r ->
  Redis.zsets r queue = [(json_dumps (VDict d), score)] ->
  wf (VDict d) = true ->
  0 <= score <= timestamp (clock w (reads w)) ->
  sweep queue w
  = (Ok tt,
     snd (enqueue_message d 0
            (set_redis (Some (Redis.zrem r queue (json_dumps (VDict d))))
                       (snd (utcnow w))))).
Proof.
  intros Hr Hz Hwf [H0 H1]. unfold sweep, try_except.
  unfold utcnow at 1. unfold bind at 1. unfold ready_members, get.
  unfold bind at 1. unfold bind at 1. cbn [redis]. rewrite Hr. unfold ret at 1.
  unfold Redis.zrangebyscore. rewrite Hz. cbn [filter snd].
  apply Z.leb_le in H0, H1. rewrite H0, H1. cbn [andb for_each].
  erewrite bind_eq by (apply move_to_main_eq; [reflexivity | exact Hwf]).
  reflexivity.
Qed.

(** C4: [enqueue_message] overwrites [attempts] with 0, [priority] with
    the supplied priority and [enqueued_at] with the current time and
    leaves every other key of the item as it was.  Hence an item that went
    through [enqueue_retry], which counted an attempt, is back on the main
    queue with [attempts] at 0 once the retry sweeper has moved it; and
    whatever [attempts] a member of the retry or the flood-wait set
    carries, the body of either sweeper's loop puts it on the main queue
    with [attempts] at 0. *)
Theorem enqueue_message_resets (w : world) (r : Redis.store) (d : dict) (p : Z) :
  redis w = Some r ->
  (exists d' w' r',
      enqueue_message d p w = (Ok d', w')
      /\ redis w' = Some r'
      /\ dict_get d' "attempts" = Some (VInt 0)
      /\ dict_get d' "priority" = Some (VInt p)
      /\ dict_get d' "enqueued_at" = Some (VStr (isoformat (clock w (reads w))))
      /\ (forall k, k <> "attempts" -> k <> "priority" -> k <> "enqueued_at" ->
                    dict_get d' k = dict_get d k)
      /\ (if p >? 0
          then In (json_dumps (VDict d'), p) (Redis.zsets r' priority_queue)
               /\ Redis.lists r' main_queue = Redis.lists r main_queue
          else Redis.lists r' main_queue
               = json_dumps (VDict d') :: Redis.lists r main_queue
               /\ Redis.zsets r' priority_queue = Redis.zsets r priority_queue)
      /\ db w' = db w)
  /\ (forall delay n,
        wf (VDict d) = true ->
        dict_get_default d "attempts" (VInt 0) = VInt n ->
        Redis.zsets r retry_queue = [] ->
        0 <= timestamp (clock w (S (reads w))) + timedelta_seconds delay
          <= timestamp (clock w (S (S (reads w)))) ->
        exists d1 d2 w2 r2,
          (d1 <- enqueue_retry d delay ;;
           _process_retry_queue_pass ;;;
           ret d1) w = (Ok d1, w2)
          /\ dict_get d1 "attempts" = Some (VInt (n + 1))
          /\ redis w2 = Some r2
          /\ Redis.zsets r2 retry_queue = []
          /\ Redis.lists r2 main_queue
             = json_dumps (VDict d2) :: Redis.lists r main_queue
          /\ dict_get d2 "attempts" = Some (VInt 0)
          /\ (forall k, k <> "attempts" -> k <> "priority" -> k <> "enqueued_at" ->
                        dict_get d2 k = dict_get d1 k))
  /\ (forall queue score,
        wf (VDict d) = true ->
        exists d2 w2 r2,
          move_to_main queue (json_dumps (VDict d), score) w = (Ok tt, w2)
          /\ redis w2 = Some r2
          /\ Redis.lists r2 main_queue
             = json_dumps (VDict d2) :: Redis.lists r main_queue
          /\ dict_get d2 "attempts" = Some (VInt 0)
          /\ (forall k, k <> "attempts" -> k <> "priority" -> k <> "enqueued_at" ->
                        dict_get d2 k = dict_get d k)).
Proof.
  intros Hr. split; [now apply enqueue_message_fields|].
  split.
  2:{ intros queue score Hwf.
      rewrite (move_to_main_eq w r queue d score Hr Hwf).
      erewrite enqueue_message_low by reflexivity. cbn [snd].
      eexists. eexists. eexists.
      split; [reflexivity|]. split; [reflexivity|].
      split.
      { unfold Redis.lpush, Redis.zrem. cbn [Redis.lists].
        rewrite RedisFacts.upd_same. reflexivity. }
      split; [apply DictFacts.dict_get_set_eq|].
      intros k H1 H2 H3. rewrite !DictFacts.dict_get_set_neq by congruence.
      reflexivity. }
  intros delay n Hwf Ha Hz Hready.
  rewrite (bind_eq _ _ _ _ _ (enqueue_retry_eq w r d delay n Hr Ha)).
  cbv zeta beta.
  set (d1 := dict_set (dict_set d "attempts" (VInt (n + 1))) "retry_after" _).
  set (score := timestamp (clock w (S (reads w))) + timedelta_seconds delay) in *.
  assert (Hwf1 : wf (VDict d1) = true) by (now repeat apply DictFacts.wf_dict_set).
  unfold _process_retry_queue_pass.
  erewrite bind_eq.
  2:{ eapply (sweep_single retry_queue _ _ d1 score);
        [reflexivity | | exact Hwf1 | exact Hready].
      unfold Redis.zadd. cbn [Redis.zsets]. rewrite RedisFacts.upd_same, Hz.
      reflexivity. }
  cbv beta. erewrite enqueue_message_low by reflexivity. cbn [snd].
  exists d1. eexists. eexists. eexists.
  split; [reflexivity|].
  split.
  { unfold d1. rewrite DictFacts.dict_get_set_neq by discriminate.
    apply DictFacts.dict_get_set_eq. }
  split; [reflexivity|].
  split.
  { unfold Redis.lpush, Redis.zrem, Redis.zadd. cbn [Redis.zsets].
    rewrite !RedisFacts.upd_same, Hz. cbn [Redis.zremove filter Redis.zinsert fst].
    now rewrite String.eqb_refl. }
  split.
  { unfold Redis.lpush, Redis.zrem, Redis.zadd. cbn [Redis.lists].
    rewrite RedisFacts.upd_same. reflexivity. }
  split; [apply DictFacts.dict_get_set_eq|].
  intros k H1 H2 H3. rewrite !DictFacts.dict_get_set_neq by congruence.
  reflexivity.
Qed.

Lemma enqueue_message_resets_witness :
  (exists d' w',
      enqueue_message (Sample.item 1) 0 (Sample.flooded 30) = (Ok d', w')
      /\ dict_get d' "attempts" = Some (VInt 0)
      /\ dict_get d' "message_log_id" = Some (VInt 1))
  /\ (exists d1 d2 w2 r2,
         (d1 <- enqueue_retry (Sample.item 1) 1 ;;
          _process_retry_queue_pass ;;;
          ret d1) (Sample.flooded 30) = (Ok d1, w2)
         /\ dict_get d1 "attempts" = Some (VInt 1)
         /\ redis w2 = Some r2
         /\ Redis.lists r2 main_queue = [json_dumps (VDict d2)]
         /\ dict_get d2 "attempts" = Some (VInt 0)).
Proof.
  destruct (enqueue_message_resets (Sample.flooded 30) Redis.empty
              (Sample.item 1) 0 eq_refl) as [H1 [H2 _]].
  split.
  - destruct H1 as (d' & w' & r' & E & _ & A & _ & _ & F & _).
    exists d', w'. split; [exact E|]. split; [exact A|].
    rewrite F by discriminate. reflexivity.
  - assert (T : 0 <= timestamp (clock (Sample.flooded 30)
                                     (S (reads (Sample.flooded 30))))
                     + timedelta_seconds 1
                  <= timestamp (clock (Sample.flooded 30)
                                      (S (S (reads (Sample.flooded 30))))))
      by (split; apply Z.leb_le; reflexivity).
    destruct (H2 1 0 eq_refl eq_refl eq_refl T)
      as (d1 & d2 & w2 & r2 & E & A1 & R & _ & L & A2 & _).
    exists d1, d2, w2, r2. repeat split; assumption.
Defined.

Lemma priority_scenario_order_witness :
  exists a b c d,
    fst ((a <- enqueue_message (Sample.item 1) 0 ;;
          b <- enqueue_message (Sample.item 2) 5 ;;
          c <- enqueue_message (Sample.item 3) 0 ;;
          d <- enqueue_message (Sample.item 4) 3 ;;
          x1 <- dequeue_message ;;
          x2 <- dequeue_message ;;
          x3 <- dequeue_message ;;
          x4 <- dequeue_message ;;
          ret ([a; b; c; d], [x1; x2; x3; x4])) (Sample.flooded 30))
    = Ok ([a; b; c; d],
          [Some (VDict b); Some (VDict d); Some (VDict a); Some (VDict c)]).
Proof.
  apply (priority_scenario_order (Sample.flooded 30) Redis.empty
           (Sample.item 1) (Sample.item 2) (Sample.item 3) (Sample.item 4));
    reflexivity.
Defined.

(** What the loop of a sweeper removes from its set. *)
Lemma in_remove_all (es : list (string * Z)) (z : Redis.zset) (x : string * Z) :
  In x (fold_left (fun z e => Redis.zremove (fst e) z) es z)
  <-> In x z /\ ~ In (fst x) (map fst es).
Proof.
  revert z. induction es as [|e es IH]; intros z; cbn; [tauto|].
  rewrite IH, RedisFacts.in_zremove. intuition congruence.
Qed.

(** The loop of a sweeper over members that are texts of well-formed
    dicts: every one is removed from the set and put on the main list. *)
Lemma move_all (queue : string) (es : list (string * Z)) :
  forall (w : world) (r : Redis.store),
    redis w = Some r ->
    (forall e, In e es ->
               exists d, fst e = json_dumps (VDict d) /\ wf (VDict d) = true) ->
    exists w' r',
      for_each es (move_to_main queue) w = (Ok tt, w')
      /\ redis w' = Some r'
      /\ Redis.zsets r' queue
         = fold_left (fun z e => Redis.zremove (fst e) z) es (Redis.zsets r queue)
      /\ List.length (Redis.lists r' main_queue)
         = (List.length es + List.length (Redis.lists r main_queue))%nat
      /\ db w' = db w.
Proof.
  induction es as [|[m s] es IH]; intros w r Hr Hes.
  - exists w, r. repeat split; auto.
  - destruct (Hes (m, s) (or_introl eq_refl)) as (d & E & Hwf).
    cbn [fst] in E. subst m. cbn [for_each].
    erewrite bind_eq by (apply move_to_main_eq; [exact Hr | exact Hwf]).
    erewrite enqueue_message_low by reflexivity. cbn [snd].
    match goal with
    | |- context [for_each es _ ?w0] =>
        edestruct (IH w0) as (w' & r' & E & R & Z & L & D);
          [reflexivity | intros e He; apply Hes; now right |]
    end.
    exists w', r'. split; [exact E|]. split; [exact R|].
    split.
    { rewrite Z. unfold Redis.lpush, Redis.zrem. cbn [Redis.zsets fold_left fst].
      now rewrite RedisFacts.upd_same. }
    split; [|exact D].
    rewrite L. unfold Redis.lpush, Redis.zrem. cbn [Redis.lists].
    rewrite RedisFacts.upd_same. cbn [List.length]. lia.
Qed.

(** The body of the retry sweeper's loop on any member: the member is out
    of the retry set whatever happens next, at most one entry is put on
    the main list, in front, and nothing when the member is no JSON text;
    the priority set is not touched. *)
Lemma move_to_main_step (w : world) (r : Redis.store) (m : string) (s : Z) :
  redis w = Some r ->
  exists res w' r' added,
    move_to_main retry_queue (m, s) w = (res, w')
    /\ redis w' = Some r'
    /\ Redis.zsets r' retry_queue = Redis.zremove m (Redis.zsets r retry_queue)
    /\ Redis.zsets r' priority_queue = Redis.zsets r priority_queue
    /\ Redis.lists r' main_queue = (added ++ Redis.lists r main_queue)%list
    /\ (List.length added <= 1)%nat
    /\ (not_json m = true -> added = []).
Proof.
  intros Hr. unfold move_to_main.
  erewrite bind_eq by (apply remove_member_eq; exact Hr).
  unfold reenqueue.
  destruct (json_loads m) as [[| | | | |md]|] eqn:J.
  6:{ erewrite bind_eq by (apply enqueue_message_low; reflexivity).
      eexists. eexists. eexists.
      exists [json_dumps
                (VDict (dict_set (dict_set (dict_set md "enqueued_at"
                                   (VStr (isoformat (clock w (reads w)))))
                                   "priority" (VInt 0)) "attempts" (VInt 0)))].
      split; [reflexivity|]. split; [reflexivity|].
      unfold Redis.lpush, Redis.zrem. cbn [Redis.zsets Redis.lists].
      rewrite !RedisFacts.upd_same.
      repeat split; auto.
      intros N. apply JsonFacts.not_json_loads in N. congruence. }
  all: eexists; eexists; eexists; exists [];
    (split; [reflexivity|]); (split; [reflexivity|]);
    unfold Redis.zrem; cbn [Redis.zsets Redis.lists];
    rewrite RedisFacts.upd_same; repeat split; auto.
Qed.

(** The loop of the retry sweeper over any members: it puts at most as
    many entries on the main list as it is given members, in front of what
    the list held, leaves the priority set alone, and leaves in the retry
    set every entry whose member it is not given. *)
Lemma sweep_loop (es : list (string * Z)) :
  forall (w : world) (r : Redis.store),
    redis w = Some r ->
    exists res w' r' added,
      for_each es (move_to_main retry_queue) w = (res, w')
      /\ redis w' = Some r'
      /\ Redis.lists r' main_queue = (added ++ Redis.lists r main_queue)%list
      /\ (List.length added <= List.length es)%nat
      /\ Redis.zsets r' priority_queue = Redis.zsets r priority_queue
      /\ (forall e, In e (Redis.zsets r retry_queue) ->
                    ~ In (fst e) (map fst es) ->
                    In e (Redis.zsets r' retry_queue)).
Proof.
  induction es as [|[m s] es IH]; intros w r Hr.
  - exists (Ok tt), w, r, []. repeat split; auto.
  - cbn [for_each]. unfold bind.
    destruct (move_to_main_step w r m s Hr)
      as (res & w1 & r1 & a1 & E1 & R1 & Z1 & P1 & L1 & N1 & _).
    rewrite E1. destruct res as [[]|e].
    + destruct (IH w1 r1 R1) as (res & w' & r' & a2 & E2 & R2 & L2 & N2 & P2 & K2).
      exists res, w', r', (a2 ++ a1)%list.
      split; [exact E2|]. split; [exact R2|].
      split; [now rewrite L2, L1, app_assoc|].
      split; [rewrite length_app; cbn [List.length]; lia|].
      split; [congruence|].
      intros x Hx Hn. apply K2.
      * rewrite Z1. apply RedisFacts.in_zremove. split; [exact Hx|].
        intros E. apply Hn. cbn [map fst]. now left.
      * intros H. apply Hn. cbn [map fst]. now right.
    + exists (Raise e), w1, r1, a1.
      split; [reflexivity|]. split; [exact R1|]. split; [exact L1|].
      split; [cbn [List.length]; lia|]. split; [exact P1|].
      intros x Hx Hn. rewrite Z1. apply RedisFacts.in_zremove.
      split; [exact Hx|]. intros E. apply Hn. cbn [map fst]. now left.
Qed.

(** A pass of the retry sweeper, spelled out: the loop over the members
    with a score from 0 to the reading of the clock, whatever the loop
    ends with. *)
Lemma retry_pass_eq (w : world) (r : Redis.store) :
  redis w = Some r ->
  _process_retry_queue_pass w
  = (Ok tt,
     snd (for_each (Redis.zrangebyscore r retry_queue 0
                      (timestamp (clock w (reads w))))
                   (move_to_main retry_queue) (snd (utcnow w)))).
Proof.
  intros Hr. unfold _process_retry_queue_pass, sweep, try_except.
  unfold utcnow at 1. unfold bind at 1. unfold ready_members, get.
  unfold bind at 1. unfold bind at 1. cbn [redis]. rewrite Hr. unfold ret at 1.
  unfold utcnow. cbn [snd]. rewrite ?Hr.
  destruct (for_each _ _ _) as [[[]|e] w']; reflexivity.
Qed.

(** C7: [enqueue_retry] with a delay that [timedelta] and [datetime] can
    hold places the item in the retry set with the score now + delay and
    touches neither the main list nor the priority set.  A pass of the
    retry sweeper that starts before that score selects only members whose
    score has been reached, the item not among them: the item stays in the
    retry set and the main list is given no more entries than there are
    such members, so none for the item.  A pass that starts at the score
    or later takes the item out of the retry set and puts one entry on the
    main list for each selected member.  The body of the loop takes a
    member out of the retry set before anything is put on the main list:
    the member is gone also when nothing can be put there. *)
Theorem retry_not_before_ready (w : world) (r : Redis.store) (d : dict)
  (delay n : Z) :
  redis w = Some r ->
  NoDup (map fst (Redis.zsets r retry_queue)) ->
  wf (VDict d) = true ->
  dict_get_default d "attempts" (VInt 0) = VInt n ->
  timedelta_fits delay = true ->
  datetime_fits (clock w (reads w) + timedelta_seconds delay) = true ->
  exists d1 w1 r1,
    let ready_at := timestamp (clock w (S (reads w))) + timedelta_seconds delay in
    let member := json_dumps (VDict d1) in
    enqueue_retry d delay w = (Ok d1, w1)
    /\ redis w1 = Some r1
    /\ In (member, ready_at) (Redis.zsets r1 retry_queue)
    /\ NoDup (map fst (Redis.zsets r1 retry_queue))
    /\ Redis.lists r1 main_queue = Redis.lists r main_queue
    /\ Redis.zsets r1 priority_queue = Redis.zsets r priority_queue
    /\ (forall w2 r2,
          redis w2 = Some r2 ->
          NoDup (map fst (Redis.zsets r2 retry_queue)) ->
          In (member, ready_at) (Redis.zsets r2 retry_queue) ->
          timestamp (clock w2 (reads w2)) < ready_at ->
          let now := timestamp (clock w2 (reads w2)) in
          let ready := Redis.zrangebyscore r2 retry_queue 0 now in
          (forall e, In e ready -> snd e <= now /\ fst e <> member)
          /\ exists w3 r3 added,
               _process_retry_queue_pass w2 = (Ok tt, w3)
               /\ redis w3 = Some r3
               /\ In (member, ready_at) (Redis.zsets r3 retry_queue)
               /\ Redis.lists r3 main_queue
                  = (added ++ Redis.lists r2 main_queue)%list
               /\ (List.length added <= List.length ready)%nat
               /\ Redis.zsets r3 priority_queue = Redis.zsets r2 priority_queue)
    /\ (forall w2 r2,
          redis w2 = Some r2 ->
          In (member, ready_at) (Redis.zsets r2 retry_queue) ->
          0 <= ready_at <= timestamp (clock w2 (reads w2)) ->
          let ready := Redis.zrangebyscore r2 retry_queue 0
                         (timestamp (clock w2 (reads w2))) in
          (forall e, In e ready ->
                     exists d', fst e = json_dumps (VDict d')
                                /\ wf (VDict d') = true) ->
          exists w3 r3,
            _process_retry_queue_pass w2 = (Ok tt, w3)
            /\ redis w3 = Some r3
            /\ ~ In member (map fst (Redis.zsets r3 retry_queue))
            /\ List.length (Redis.lists r3 main_queue)
               = (List.length ready + List.length (Redis.lists r2 main_queue))%nat)
    /\ (forall w2 r2 m s,
          redis w2 = Some r2 ->
          exists res w3 r3 added,
            move_to_main retry_queue (m, s) w2 = (res, w3)
            /\ redis w3 = Some r3
            /\ ~ In m (map fst (Redis.zsets r3 retry_queue))
            /\ Redis.lists r3 main_queue
               = (added ++ Redis.lists r2 main_queue)%list
            /\ (List.length added <= 1)%nat
            /\ (not_json m = true -> added = [])).
Proof.
  intros Hr Hnd Hwf Ha _ _.
  rewrite (enqueue_retry_eq w r d delay n Hr Ha). cbv zeta.
  eexists. eexists. eexists.
  split; [reflexivity|].
  split; [reflexivity|].
  split.
  { unfold Redis.zadd. cbn [Redis.zsets]. rewrite RedisFacts.upd_same.
    apply RedisFacts.in_zinsert. now left. }
  split; [now apply RedisFacts.NoDup_zadd|].
  split; [reflexivity|].
  split; [reflexivity|].
  split; [|split].
  - intros w2 r2 Hr2 Hnd2 Hin Hlt. cbv zeta.
    assert (Hsel : forall e,
               In e (Redis.zrangebyscore r2 retry_queue 0
                       (timestamp (clock w2 (reads w2)))) ->
               snd e <= timestamp (clock w2 (reads w2))
               /\ fst e <> json_dumps
                             (VDict (dict_set (dict_set d "attempts" (VInt (n + 1)))
                                       "retry_after"
                                       (VStr (isoformat
                                                (clock w (reads w)
                                                 + timedelta_seconds delay)))))).
    { intros [mi si] He. unfold Redis.zrangebyscore in He.
      apply filter_In in He. destruct He as [He Hs].
      apply andb_prop in Hs. destruct Hs as [_ Hs]. apply Z.leb_le in Hs.
      cbn [fst snd] in *. split; [exact Hs|].
      intros ->. pose proof (zset_score_unique _ _ _ _ Hnd2 He Hin). lia. }
    split; [exact Hsel|].
    rewrite (retry_pass_eq w2 r2 Hr2).
    destruct (sweep_loop (Redis.zrangebyscore r2 retry_queue 0
                            (timestamp (clock w2 (reads w2))))
                (snd (utcnow w2)) r2 Hr2)
      as (res & w3 & r3 & added & E & R3 & L3 & N3 & P3 & K3).
    rewrite E. exists w3, r3, added. cbn [snd].
    repeat split; try assumption.
    apply K3; [exact Hin|]. cbn [fst]. intros H.
    apply in_map_iff in H. destruct H as (e & Ee & He).
    now apply (Hsel e He).
  - intros w2 r2 Hr2 Hin [H0 H1] Hready. cbv zeta in Hready.
    rewrite (retry_pass_eq w2 r2 Hr2).
    destruct (move_all retry_queue _ (snd (utcnow w2)) r2 Hr2 Hready)
      as (w3 & r3 & E & R3 & Z3 & L3 & _).
    rewrite E. exists w3, r3. cbn [snd].
    split; [reflexivity|]. split; [exact R3|]. split; [|exact L3].
    rewrite Z3. intros H. apply in_map_iff in H. destruct H as ([m' s'] & Em & Hx).
    cbn [fst] in Em. subst m'. apply in_remove_all in Hx. destruct Hx as [_ Hx].
    apply Hx. cbn [fst]. apply in_map_iff.
    eexists (_, _). split; [reflexivity|].
    unfold Redis.zrangebyscore. apply filter_In. split; [exact Hin|].
    cbn [snd]. apply andb_true_intro. split; now apply Z.leb_le.
  - intros w2 r2 m s Hr2.
    destruct (move_to_main_step w2 r2 m s Hr2)
      as (res & w3 & r3 & added & E & R3 & Z3 & _ & L3 & N3 & J3).
    exists res, w3, r3, added. repeat split; try assumption.
    rewrite Z3. apply not_member_after_zrem_list.
Qed.

Lemma retry_not_before_ready_witness :
  exists d1 w1 r1,
    enqueue_retry (Sample.item 1) 30 (Sample.flooded 30) = (Ok d1, w1)
    /\ redis w1 = Some r1
    /\ In (json_dumps (VDict d1), 1730592031000000) (Redis.zsets r1 retry_queue)
    /\ exists w3 r3,
         _process_retry_queue_pass w1 = (Ok tt, w3)
         /\ redis w3 = Some r3
         /\ In (json_dumps (VDict d1), 1730592031000000) (Redis.zsets r3 retry_queue)
         /\ Redis.lists r3 main_queue = [].
Proof.
  destruct (retry_not_before_ready (Sample.flooded 30) Redis.empty (Sample.item 1)
              30 0 eq_refl (NoDup_nil _) eq_refl eq_refl eq_refl eq_refl)
    as (d1 & w1 & r1 & E & R & I & Hnd & _ & _ & Before & _).
  exists d1, w1, r1. split; [exact E|]. split; [exact R|]. split; [exact I|].
  assert (W1 : w1 = snd (enqueue_retry (Sample.item 1) 30 (Sample.flooded 30)))
    by (now rewrite E).
  assert (T : timestamp (clock w1 (reads w1)) < 1730592031000000)
    by (rewrite W1; reflexivity).
  destruct (Before w1 r1 R Hnd I T) as (_ & w3 & r3 & added & P & R3 & I3 & L3 & N3 & _).
  exists w3, r3. split; [exact P|]. split; [exact R3|]. split; [exact I3|].
  assert (N0 : option_map (fun r => List.length
                             (Redis.zrangebyscore r retry_queue 0
                                (timestamp (clock w1 (reads w1)))))
                          (Some r1) = Some 0%nat)
    by (rewrite <- R, W1; vm_compute; reflexivity).
  assert (L0 : option_map (fun r => Redis.lists r main_queue) (Some r1) = Some [])
    by (rewrite <- R, W1; vm_compute; reflexivity).
  cbn [option_map] in N0, L0. injection N0 as N0. injection L0 as L0.
  rewrite N0 in N3. destruct added; [|cbn in N3; lia]. now rewrite L3, L0.
Defined.

End QueueFacts.

(* ================================================================= *)
(** ** The content fingerprint *)

Module HashFacts.
Import Py MessageProcessor.

Lemma hexdigest_length (msg : list Z) :
  String.length (Sha256.hexdigest msg) = 64%nat.
Proof. unfold Sha256.hexdigest, Sha256.hex8. cbn [String.length]. reflexivity. Qed.

(** C10, as the code has it: the fingerprint is the SHA-256 hex digest, 64
    characters, of the UTF-8 bytes of [text|has_media|from_id] in this
    order, so two messages with the same three fields have the same
    fingerprint; a missing text and a missing author id count as the empty
    string, a missing media flag counts as [False].  The digest is the one
    [hashlib] gives: for the text [h] followed by U+00E9, with media, from
    the author 5, it is the digest of the bytes of that text, [|True|5]
    appended. *)
Theorem content_hash_deterministic (m1 m2 : dict) :
  dict_get m1 "text" = dict_get m2 "text" ->
  dict_get m1 "has_media" = dict_get m2 "has_media" ->
  dict_get m1 "from_id" = dict_get m2 "from_id" ->
  _generate_content_hash m1 = _generate_content_hash m2
  /\ _generate_content_hash m1
     = Sha256.hexdigest
         (utf8_encode
            (py_str (dict_get_default m1 "text" (VStr "")) ++ "|"
             ++ py_str (dict_get_default m1 "has_media" (VBool false)) ++ "|"
             ++ py_str (dict_get_default m1 "from_id" (VStr ""))))
  /\ String.length (_generate_content_hash m1) = 64%nat
  /\ content_string m1
     = py_str (dict_get_default m1 "text" (VStr "")) ++ "|"
       ++ py_str (dict_get_default m1 "has_media" (VBool false)) ++ "|"
       ++ py_str (dict_get_default m1 "from_id" (VStr ""))
  /\ (dict_get m1 "text" = None ->
      py_str (dict_get_default m1 "text" (VStr "")) = "")
  /\ (dict_get m1 "from_id" = None ->
      py_str (dict_get_default m1 "from_id" (VStr "")) = "")
  /\ (dict_get m1 "has_media" = None ->
      py_str (dict_get_default m1 "has_media" (VBool false)) = "False")
  /\ _generate_content_hash
       [ ("text", VStr (String "h" (String (ascii_of_N 233) "")));
         ("has_media", VBool true); ("from_id", VInt 5) ]
     = "a53be097e412ceca6e5df0fd61def72e116a5bf701b116827da2afce41ffbf32"
  /\ _generate_content_hash []
     = "85366a9f3352b2ff0d014d13a701f067a7c4b54f70280825aab539d0c3eb3482".
Proof.
  intros Ht Hm Hf. split.
  { unfold _generate_content_hash, content_string, content_parts, dict_get_default.
    now rewrite Ht, Hm, Hf. }
  split; [reflexivity|].
  split; [apply hexdigest_length|].
  split; [reflexivity|].
  unfold dict_get_default.
  repeat split; try (intros ->; reflexivity); vm_compute; reflexivity.
Qed.

Lemma content_hash_deterministic_witness :
  _generate_content_hash [("text", VStr "hi")]
  = _generate_content_hash [("date", VInt 1); ("text", VStr "hi")]
  /\ _generate_content_hash [("text", VStr "hi")]
     = "6998f3b9f650f8a2ae326ab83fa648387e291e41d6dbd1853720992c7126a637"
  /\ String.length (_generate_content_hash [("text", VStr "hi")]) = 64%nat
  /\ content_string [("text", VStr "hi")] = "hi|False|".
Proof.
  destruct (content_hash_deterministic
              [("text", VStr "hi")] [("date", VInt 1); ("text", VStr "hi")]
              eq_refl eq_refl eq_refl) as (H1 & H2 & H3 & H4 & _).
  split; [exact H1|]. split; [rewrite H2; vm_compute; reflexivity|].
  split; [exact H3|]. rewrite H4. reflexivity.
Defined.

(** C10, as stated, fails: with the three fields missing, the hashed text
    is not the concatenation of three empty strings. *)
Lemma missing_media_flag_is_not_empty :
  ~ (forall md : dict,
       dict_get md "text" = None ->
       dict_get md "has_media" = None ->
       dict_get md "from_id" = None ->
       content_string md = "" ++ "|" ++ "" ++ "|" ++ "").
Proof.
  intros H. specialize (H [] eq_refl eq_refl eq_refl). discriminate.
Qed.

End HashFacts.

(* ================================================================= *)
(** ** The deduplication service *)

Module DedupFacts.
Import Py Run DeduplicationService.

(** No operation of the service gets a session: the [async with] on the
    session helper raises, and the handler of the operation turns that
    into its fail-safe answer.  [is_duplicate] answers [False] for every
    message, whatever the cache holds, and changes nothing. *)
Lemma is_duplicate_false (ttl : Z) (message_data : dict) (w : world) :
  is_duplicate ttl message_data w = (Ok false, w).
Proof.
  unfold is_duplicate.
  destruct (negb (truthy (dict_get_default message_data "content_hash" VNone)));
    reflexivity.
Qed.

(** [mark_as_processed] writes nothing, whatever the message. *)
Lemma mark_as_processed_noop (message_data : dict) (w : world) :
  mark_as_processed message_data w = (Ok tt, w).
Proof. unfold mark_as_processed. destruct (negb _); reflexivity. Qed.

(** C8: with the database out of reach, [is_duplicate] answers [False]
    for every message: it does not raise and changes nothing. *)
Theorem is_duplicate_fails_open (ttl : Z) (message_data : dict) (w : world) :
  Db.reachable (db w) = false ->
  is_duplicate ttl message_data w = (Ok false, w).
Proof. intros _. apply is_duplicate_false. Qed.

Lemma is_duplicate_fails_open_witness :
  is_duplicate 24 Sample.message Sample.unreachable = (Ok false, Sample.unreachable).
Proof. apply is_duplicate_fails_open. reflexivity. Defined.

(** [is_duplicate] returns under every state: whatever is raised inside is
    turned into [False]. *)
Lemma is_duplicate_returns (ttl : Z) (message_data : dict) (w : world) :
  exists b w', is_duplicate ttl message_data w = (Ok b, w').
Proof. exists false, w. apply is_duplicate_false. Qed.

End DedupFacts.

(* ================================================================= *)
(** ** Operations and the properties of the database they keep *)

Module KeepFacts.
Import Py Run.

Section Keeps.
Variable P : Db.t -> Prop.

Lemma keeps_ret {A : Type} (a : A) : keeps P (ret a).
Proof. intros w H. exact H. Qed.

Lemma keeps_raise {A : Type} (e : exn) : keeps P (@raise A e).
Proof. intros w H. exact H. Qed.

Lemma keeps_get {A : Type} (f : world -> A) : keeps P (get f).
Proof. intros w H. exact H. Qed.

Lemma keeps_utcnow : keeps P utcnow.
Proof. intros w H. exact H. Qed.

Lemma keeps_get_db_session : keeps P get_db_session.
Proof. intros w H. exact H. Qed.

Lemma keeps_set_redis (r : option Redis.store) : keeps P (modify (set_redis r)).
Proof. intros w H. exact H. Qed.

Lemma keeps_bind {A B : Type} (m : M A) (k : A -> M B) :
  keeps P m -> (forall a, keeps P (k a)) -> keeps P (bind m k).
Proof.
  intros Hm Hk w H. unfold bind. specialize (Hm w H).
  destruct (m w) as [[a|e] w']; cbn [snd] in *; [now apply Hk | exact Hm].
Qed.

Lemma keeps_try_except {A : Type} (m : M A) (h : exn -> M A) :
  keeps P m -> (forall e, keeps P (h e)) -> keeps P (try_except m h).
Proof.
  intros Hm Hh w H. unfold try_except. specialize (Hm w H).
  destruct (m w) as [[a|e] w']; cbn [snd] in *; [exact Hm | now apply Hh].
Qed.

Lemma keeps_for_each {A : Type} (xs : list A) (body : A -> M unit) :
  (forall x, keeps P (body x)) -> keeps P (for_each xs body).
Proof.
  intros Hb. induction xs as [|x xs IH]; cbn [for_each];
    [apply keeps_ret | apply keeps_bind; auto].
Qed.

Lemma keeps_fold_m {A S : Type} (xs : list A) (acc : S) (body : S -> A -> M S) :
  (forall s x, keeps P (body s x)) -> keeps P (fold_m xs acc body).
Proof.
  intros Hb. revert acc. induction xs as [|x xs IH]; intros acc; cbn [fold_m];
    [apply keeps_ret | apply keeps_bind; auto].
Qed.

Lemma keeps_subscript (v : value) (k : string) : keeps P (subscript v k).
Proof.
  unfold subscript. destruct v; try apply keeps_raise.
  destruct (dict_get d k); [apply keeps_ret | apply keeps_raise].
Qed.

Lemma keeps_iterate (v : value) : keeps P (iterate v).
Proof. destruct v; first [apply keeps_ret | apply keeps_raise]. Qed.
End Keeps.

Create HintDb keeps.

#[export] Hint Resolve keeps_ret keeps_raise keeps_get keeps_utcnow
  keeps_get_db_session keeps_set_redis keeps_subscript keeps_iterate : keeps.

(** Splits an operation along its binds, handlers, loops and case
    distinctions and closes the leaves with the hints. *)
Ltac keeps_step :=
  match goal with
  | |- keeps _ (bind _ _) => apply keeps_bind; [|intros ?]
  | |- keeps _ (try_except _ _) => apply keeps_try_except; [|intros ?]
  | |- keeps _ (for_each _ _) => apply keeps_for_each; intros ?
  | |- keeps _ (fold_m _ _ _) => apply keeps_fold_m; intros ? ?
  | |- keeps _ (match ?x with _ => _ end) => destruct x
  | |- keeps _ (let (_, _) := ?x in _) => destruct x
  | |- keeps _ _ => solve [auto with keeps]
  end.

Ltac keeps_auto := repeat keeps_step.

End KeepFacts.

(* ================================================================= *)
(** ** The delivery log *)

Module LogFacts.
Import Py Run KeepFacts.

(** The constraint looks at the delivery log only. *)
Lemma keeps_modify_db (f : world -> world) :
  (forall w, Db.messages_log (db (f w)) = Db.messages_log (db w)) ->
  keeps Db.unique_source_message (modify f).
Proof.
  intros Hf w H. unfold modify, Db.unique_source_message in *. cbn [snd]. now rewrite Hf.
Qed.

Lemma keeps_put_store (r : Redis.store) : keeps Db.unique_source_message (QueueManager.put_store r).
Proof. apply keeps_set_redis. Qed.

Lemma keeps_connection : keeps Db.unique_source_message QueueManager.connection.
Proof. unfold QueueManager.connection. keeps_auto. Qed.

#[export] Hint Resolve keeps_put_store keeps_connection : keeps.

Lemma taken_spec (rows : list Db.MessageLog) (c m : Z) :
  Db.unique_source_message_taken rows c m = true
  <-> In (c, m) (map Db.source_message rows).
Proof.
  unfold Db.unique_source_message_taken. rewrite existsb_exists, in_map_iff.
  split.
  - intros (r & Hr & E). exists r. split; [|exact Hr].
    apply andb_prop in E. destruct E as [E1 E2].
    apply Z.eqb_eq in E1, E2. unfold Db.source_message. congruence.
  - intros (r & E & Hr). exists r. split; [exact Hr|].
    unfold Db.source_message in E. injection E as -> ->.
    now rewrite !Z.eqb_refl.
Qed.

(** An insert into the delivery log keeps the pairs distinct: it fails
    when the pair is taken. *)
Lemma keeps_insert_message_log (row : Z -> Db.MessageLog) :
  keeps Db.unique_source_message (ForwardingEngine.insert_message_log row).
Proof.
  intros w H. unfold ForwardingEngine.insert_message_log.
  destruct (negb (Db.bigint_fits _)); [exact H|].
  destruct (Db.unique_source_message_taken _ _ _) eqn:T; cbn [snd].
  - exact H.
  - unfold Db.unique_source_message, set_db, Db.with_messages_log in *. cbn [db Db.messages_log].
    rewrite map_app. cbn [map].
    apply NoDup_app; [exact H | constructor; [intros [] | constructor] |].
    intros k Hk [<-|[]].
    apply taken_spec in Hk. unfold Db.source_message in Hk. cbn [fst snd] in *.
    congruence.
Qed.

Lemma keeps_create_message_log (source_channel_id message_id : Z)
  (dest_channel_ids : list Z) :
  keeps Db.unique_source_message (ForwardingEngine._create_message_log source_channel_id
                  message_id dest_channel_ids).
Proof.
  unfold ForwardingEngine._create_message_log, ForwardingEngine.scalar_one.
  keeps_auto. apply keeps_insert_message_log.
Qed.

(** An update of a row does not get to the row: the session helper
    raises before the row is selected. *)
Lemma keeps_update_message_log (message_log_id : value)
  (change : Db.MessageLog -> M Db.MessageLog) :
  keeps Db.unique_source_message (ForwardingEngine.update_message_log message_log_id change).
Proof. intros w H. exact H. Qed.

Lemma keeps_update_status (id : value) (status : Db.MessageStatus) :
  keeps Db.unique_source_message (ForwardingEngine._update_message_log_status id status).
Proof. apply keeps_update_message_log. Qed.

Lemma keeps_update_success (id : value) (ids : dict) :
  keeps Db.unique_source_message (ForwardingEngine._update_message_log_success id ids).
Proof. apply keeps_update_message_log. Qed.

Lemma keeps_update_partial_success (id : value) (ids : dict) :
  keeps Db.unique_source_message (ForwardingEngine._update_message_log_partial_success id ids).
Proof. apply keeps_update_message_log. Qed.

Lemma keeps_update_error (id : value) (text : Db.text) :
  keeps Db.unique_source_message (ForwardingEngine._update_message_log_error id text).
Proof. apply keeps_update_message_log. Qed.

#[export] Hint Resolve keeps_create_message_log keeps_update_status
  keeps_update_success keeps_update_partial_success keeps_update_error : keeps.

Section Operations.
Import QueueManager DeduplicationService ClientFactory ForwardingEngine.

Lemma keeps_enqueue_message (d : dict) (p : Z) :
  keeps Db.unique_source_message (enqueue_message d p).
Proof. unfold enqueue_message. keeps_auto. Qed.

Lemma keeps_dequeue_message : keeps Db.unique_source_message dequeue_message.
Proof. unfold dequeue_message. keeps_auto. Qed.

Lemma keeps_plus_one (v : value) : keeps Db.unique_source_message (plus_one v).
Proof. unfold plus_one. keeps_auto. Qed.

Hint Resolve keeps_enqueue_message keeps_dequeue_message keeps_plus_one : keeps.

Lemma keeps_enqueue_retry (d : dict) (delay : Z) :
  keeps Db.unique_source_message (enqueue_retry d delay).
Proof. unfold enqueue_retry. keeps_auto. Qed.

Lemma keeps_enqueue_flood_wait (d : dict) (wait : Z) :
  keeps Db.unique_source_message (enqueue_flood_wait d wait).
Proof. unfold enqueue_flood_wait. keeps_auto. Qed.

Lemma keeps_enqueue_failed (d : dict) (text : string) :
  keeps Db.unique_source_message (enqueue_failed d text).
Proof. unfold enqueue_failed. keeps_auto. Qed.

Lemma keeps_sweep (queue : string) : keeps Db.unique_source_message (sweep queue).
Proof.
  unfold sweep, ready_members, move_to_main, remove_member, reenqueue.
  keeps_auto.
Qed.

Lemma keeps_is_duplicate (ttl : Z) (d : dict) :
  keeps Db.unique_source_message (is_duplicate ttl d).
Proof.
  unfold is_duplicate, _is_cache_valid, delete_entry.
  keeps_auto; now apply keeps_modify_db.
Qed.

Lemma keeps_mark_as_processed (d : dict) :
  keeps Db.unique_source_message (mark_as_processed d).
Proof.
  unfold mark_as_processed, as_bigint.
  keeps_auto; apply keeps_modify_db; intros w;
    now destruct (Db.content_hash_taken _ _).
Qed.

Lemma keeps_cleanup_expired_entries (ttl : Z) :
  keeps Db.unique_source_message (cleanup_expired_entries ttl).
Proof.
  unfold cleanup_expired_entries. keeps_auto; now apply keeps_modify_db.
Qed.

Lemma keeps_dispatch (op : api_call) (to_chat from_chat msg : Z)
  (client_type : ClientType) :
  keeps Db.unique_source_message (dispatch op to_chat from_chat msg client_type).
Proof.
  unfold dispatch, bot_call, user_call, _log_flood_wait.
  keeps_auto; now apply keeps_modify_db.
Qed.

Hint Resolve keeps_is_duplicate keeps_dispatch : keeps.

Lemma keeps_get_forwarding_mappings (source_channel_id : Z) :
  keeps Db.unique_source_message (_get_forwarding_mappings source_channel_id).
Proof. unfold _get_forwarding_mappings. keeps_auto. Qed.

Lemma keeps_mapping_entries (ms : list loaded_mapping) :
  keeps Db.unique_source_message (mapping_entries ms).
Proof.
  induction ms as [|m ms IH]; cbn [mapping_entries]; [apply keeps_ret|].
  unfold mapping_entry, access_value. keeps_auto.
Qed.

Hint Resolve keeps_get_forwarding_mappings keeps_mapping_entries : keeps.

Lemma keeps_process_new_message (source_channel_id message_id : Z) (d : dict) :
  keeps Db.unique_source_message
        (process_new_message source_channel_id message_id d).
Proof. unfold process_new_message. keeps_auto. Qed.

Lemma keeps_forward_single (s m t : value) (mode : Db.ForwardingMode)
  (client_type : ClientType) :
  keeps Db.unique_source_message (_forward_single_message s m t mode client_type).
Proof.
  unfold _forward_single_message, forward_message, copy_message. keeps_auto.
Qed.

Hint Resolve keeps_forward_single : keeps.

Lemma keeps_process_queued_message (item : value) :
  keeps Db.unique_source_message (_process_queued_message item).
Proof.
  unfold _process_queued_message, forward_one, enum_of. keeps_auto.
Qed.

Hint Resolve keeps_process_queued_message : keeps.

Lemma keeps_worker_turn : keeps Db.unique_source_message worker_turn.
Proof. unfold worker_turn. keeps_auto. Qed.
End Operations.

Import ForwardingEngine.

(** The insert of a row whose pair is in the log is refused by the unique
    constraint and leaves the log as it was. *)
Lemma insert_message_log_taken (w : world) (row : Z -> Db.MessageLog) :
  let r := row (Db.messages_log_seq (db w)) in
  Db.bigint_fits (Db.ml_source_message_id r) = true ->
  Db.unique_source_message_taken (Db.messages_log (db w))
    (Db.ml_source_channel_id r) (Db.ml_source_message_id r) = true ->
  exists w',
    insert_message_log row w = (Raise (IntegrityError "unique_source_message"), w')
    /\ Db.messages_log (db w') = Db.messages_log (db w).
Proof.
  cbv zeta. intros Hf Ht. unfold insert_message_log. rewrite Hf, Ht.
  eexists. split; reflexivity.
Qed.

(** The insert of a row whose pair is not in the log puts the row at the
    end of the log. *)
Lemma insert_message_log_fresh (w : world) (row : Z -> Db.MessageLog) :
  let r := row (Db.messages_log_seq (db w)) in
  Db.bigint_fits (Db.ml_source_message_id r) = true ->
  Db.unique_source_message_taken (Db.messages_log (db w))
    (Db.ml_source_channel_id r) (Db.ml_source_message_id r) = false ->
  exists w',
    insert_message_log row w = (Ok r, w')
    /\ Db.messages_log (db w') = (Db.messages_log (db w) ++ [r])%list.
Proof.
  cbv zeta. intros Hf Ht. unfold insert_message_log. rewrite Hf, Ht.
  eexists. split; reflexivity.
Qed.

(** [_create_message_log] does not get to the insert: the [async with] on
    the session helper raises before the source channel is looked up. *)
Lemma create_message_log_raises (src mid : Z) (dests : list Z) (w : world) :
  _create_message_log src mid dests w = (Raise TypeError, w).
Proof. reflexivity. Qed.



End LogFacts.

(* ================================================================= *)
(** ** The forwarding engine *)

Module EngineFacts.
Import Py Run ForwardingEngine.
#[local] Open Scope run_scope.

(** The resolver does not get to its query. *)
Lemma resolver_run (source_channel_id : Z) (w : world) :
  _get_forwarding_mappings source_channel_id w = (Raise TypeError, w).
Proof. reflexivity. Qed.

(** [process_new_message] goes through the deduplication check, whose
    lookup fails and answers [False], to the resolver, whose exception it
    logs, and returns. *)
Lemma process_new_message_run (source_channel_id message_id : Z)
  (message_data : dict) (w : world) :
  process_new_message source_channel_id message_id message_data w = (Ok tt, w).
Proof.
  unfold process_new_message, try_except, bind.
  rewrite DedupFacts.is_duplicate_false. reflexivity.
Qed.

(** The four updates of a delivery record raise before the record is
    selected. *)
Lemma update_message_log_raises (message_log_id : value)
  (change : Db.MessageLog -> M Db.MessageLog) (w : world) :
  update_message_log message_log_id change w = (Raise TypeError, w).
Proof. reflexivity. Qed.

(** The exception [_process_queued_message] ends with: that of the first
    subscript that fails, or that of the session helper. *)
Lemma process_queued_message_run (queue_item : value) (w : world) :
  _process_queued_message queue_item w
  = (Raise match queue_item with
           | VDict d =>
               match dict_get d "message_log_id" with
               | None => KeyError "message_log_id"
               | Some _ =>
                   match dict_get d "source_channel_id" with
                   | None => KeyError "source_channel_id"
                   | Some _ =>
                       match dict_get d "message_id" with
                       | None => KeyError "message_id"
                       | Some _ =>
                           match dict_get d "mappings" with
                           | None => KeyError "mappings"
                           | Some _ => TypeError
                           end
                       end
                   end
               end
           | _ => TypeError
           end, w).
Proof.
  unfold _process_queued_message, bind, subscript.
  destruct queue_item as [| | | | |d]; try reflexivity.
  destruct (dict_get d "message_log_id"); [|reflexivity].
  destruct (dict_get d "source_channel_id"); [|reflexivity].
  destruct (dict_get d "message_id"); [|reflexivity].
  destruct (dict_get d "mappings"); reflexivity.
Qed.

(** A turn of the worker is the dequeue and nothing more. *)
Lemma worker_turn_run (w : world) :
  worker_turn w = (Ok tt, snd (QueueManager.dequeue_message w)).
Proof.
  unfold worker_turn, try_except, bind.
  destruct (QueueManager.dequeue_message w) as [[[item|]|e] w1]; try reflexivity.
  cbn [snd]. destruct (truthy item); [|reflexivity].
  rewrite process_queued_message_run. reflexivity.
Qed.

(** [dequeue_message] writes to Redis only. *)
Lemma dequeue_message_db (w : world) :
  db (snd (QueueManager.dequeue_message w)) = db w.
Proof.
  unfold QueueManager.dequeue_message, bind, get.
  destruct (redis w) as [r|]; [|reflexivity].
  unfold try_except, Redis.zpopmax, Redis.brpop.
  destruct (rev (Redis.zsets r QueueManager.priority_queue)) as [|[m s] front].
  - destruct (rev (Redis.lists r QueueManager.main_queue)) as [|x front];
      [reflexivity|].
    unfold QueueManager.put_store, modify, bind. cbn [snd fst].
    destruct (json_loads x); reflexivity.
  - unfold QueueManager.put_store, modify, bind. cbn [snd fst].
    destruct (json_loads m); reflexivity.
Qed.

(** [dequeue_message] takes from the main list and the priority set and
    leaves the flood-wait set, the retry set and the failed list alone. *)
Lemma dequeue_message_schedules (w : world) :
  option_map (fun r => (Redis.zsets r QueueManager.flood_wait_queue,
                        Redis.zsets r QueueManager.retry_queue,
                        Redis.lists r QueueManager.failed_queue))
             (redis (snd (QueueManager.dequeue_message w)))
  = option_map (fun r => (Redis.zsets r QueueManager.flood_wait_queue,
                          Redis.zsets r QueueManager.retry_queue,
                          Redis.lists r QueueManager.failed_queue))
               (redis w).
Proof.
  unfold QueueManager.dequeue_message, bind, get.
  destruct (redis w) as [r|] eqn:Hr; [|cbn; rewrite ?Hr; reflexivity].
  unfold try_except, Redis.zpopmax, Redis.brpop.
  destruct (rev (Redis.zsets r QueueManager.priority_queue)) as [|[m s] front].
  - destruct (rev (Redis.lists r QueueManager.main_queue)) as [|x front].
    + cbn. now rewrite Hr.
    + unfold QueueManager.put_store, modify, bind. cbn [snd fst].
      destruct (json_loads x); reflexivity.
  - unfold QueueManager.put_store, modify, bind. cbn [snd fst].
    destruct (json_loads m); reflexivity.
Qed.

(** What [dequeue_message] returns and leaves in Redis does not depend on
    the answers of the Telegram clients. *)
Lemma dequeue_message_api (w : world)
  (answers : ClientType -> api_call -> Z -> Z -> Z -> api_result) :
  let w' := mk_world (redis w) (db w) (clock w) (reads w) (bot_initialized w)
                     (user_running w) answers in
  fst (QueueManager.dequeue_message w') = fst (QueueManager.dequeue_message w)
  /\ redis (snd (QueueManager.dequeue_message w'))
     = redis (snd (QueueManager.dequeue_message w)).
Proof.
  cbv zeta. unfold QueueManager.dequeue_message, bind, get. cbn [redis fst snd].
  destruct (redis w) as [r|] eqn:Hr; [|cbn; rewrite ?Hr; split; reflexivity].
  unfold try_except, Redis.zpopmax, Redis.brpop.
  destruct (rev (Redis.zsets r QueueManager.priority_queue)) as [|[m s] front].
  - destruct (rev (Redis.lists r QueueManager.main_queue)) as [|x front];
      [cbn; rewrite ?Hr; split; reflexivity|].
    unfold QueueManager.put_store, modify, bind. cbn [snd fst].
    destruct (json_loads x); split; reflexivity.
  - unfold QueueManager.put_store, modify, bind. cbn [snd fst].
    destruct (json_loads m); split; reflexivity.
Qed.

(** C3, the defect: the resolver returns no list.  For every source
    channel id and in every state the [async with] of its first line
    raises [TypeError] before the query is run, and the state is as it
    was; [process_new_message], the one caller, logs the exception and
    returns, so no mapping is ever resolved. *)
Theorem resolver_raises (source_channel_id : Z) (w : world) :
  _get_forwarding_mappings source_channel_id w = (Raise TypeError, w)
  /\ (forall message_id message_data,
        process_new_message source_channel_id message_id message_data w
        = (Ok tt, w)).
Proof.
  split; [apply resolver_run|]. intros. apply process_new_message_run.
Qed.

(** C1, the defect: [process_new_message] marks no fingerprint and admits
    no message.  For every message and in every state it returns with the
    state as it was: no delivery record, no queue item, no row in the
    deduplication cache.  [mark_as_processed], which nothing calls, would
    not record the fingerprint either, and [is_duplicate] answers [False]
    for every message, also right after an admission attempt and a
    marking of that very message. *)
Theorem admission_does_not_mark (source_channel_id message_id : Z)
  (message_data : dict) (w : world) :
  process_new_message source_channel_id message_id message_data w = (Ok tt, w)
  /\ DeduplicationService.mark_as_processed message_data w = (Ok tt, w)
  /\ (forall ttl,
        DeduplicationService.is_duplicate ttl message_data w = (Ok false, w))
  /\ (process_new_message source_channel_id message_id message_data ;;;
      DeduplicationService.mark_as_processed message_data ;;;
      DeduplicationService.is_duplicate cache_ttl_hours message_data) w
     = (Ok false, w).
Proof.
  split; [apply process_new_message_run|].
  split; [apply DedupFacts.mark_as_processed_noop|].
  split; [intros; apply DedupFacts.is_duplicate_false|].
  unfold bind. rewrite process_new_message_run, DedupFacts.mark_as_processed_noop.
  apply DedupFacts.is_duplicate_false.
Qed.

(** C2, the defect: a turn of the worker makes no delivery attempt, so no
    rate-limit signal reaches it.  [_process_queued_message] raises for
    every item with the state as it was: the update of the record to
    [PROCESSING] raises [TypeError] before the loop over the mappings, and
    so does the update in the handler.  The turn therefore is the dequeue
    alone: the database is as it was (the record keeps its status), the
    flood-wait set, the retry set and the failed list are as they were,
    and the outcome is the same whatever the Telegram clients would
    answer. *)
Theorem flood_wait_not_rescheduled (w : world) :
  let scheduled := fun w =>
    option_map (fun r => (Redis.zsets r QueueManager.flood_wait_queue,
                          Redis.zsets r QueueManager.retry_queue,
                          Redis.lists r QueueManager.failed_queue))
               (redis w) in
  (forall item, exists e, _process_queued_message item w = (Raise e, w))
  /\ (forall d a b c ms,
        dict_get d "message_log_id" = Some a ->
        dict_get d "source_channel_id" = Some b ->
        dict_get d "message_id" = Some c ->
        dict_get d "mappings" = Some ms ->
        _process_queued_message (VDict d) w = (Raise TypeError, w))
  /\ worker_turn w = (Ok tt, snd (QueueManager.dequeue_message w))
  /\ db (snd (worker_turn w)) = db w
  /\ scheduled (snd (worker_turn w)) = scheduled w
  /\ (forall answers,
        let w' := mk_world (redis w) (db w) (clock w) (reads w)
                           (bot_initialized w) (user_running w) answers in
        fst (worker_turn w') = Ok tt
        /\ redis (snd (worker_turn w')) = redis (snd (worker_turn w))
        /\ db (snd (worker_turn w')) = db w).
Proof.
  cbv zeta. split.
  { intros item. rewrite process_queued_message_run. eexists. reflexivity. }
  split.
  { intros d a b c ms Ha Hb Hc Hm. rewrite process_queued_message_run.
    now rewrite Ha, Hb, Hc, Hm. }
  split; [apply worker_turn_run|].
  rewrite !worker_turn_run. cbn [snd].
  split; [apply dequeue_message_db|].
  split; [apply dequeue_message_schedules|].
  intros answers. rewrite worker_turn_run. cbn [fst snd].
  split; [reflexivity|].
  split; [apply dequeue_message_api|].
  now rewrite dequeue_message_db.
Qed.

Lemma flood_wait_not_rescheduled_witness :
  let w1 := Sample.waiting 30 in
  let w2 := snd (worker_turn w1) in
  map Db.ml_status (Db.messages_log (db w1)) = [Db.PENDING]
  /\ option_map (fun r => List.length (Redis.lists r QueueManager.main_queue))
                (redis w1) = Some 1%nat
  /\ _process_queued_message (VDict Sample.queued_item) w1 = (Raise TypeError, w1)
  /\ fst (worker_turn w1) = Ok tt
  /\ map Db.ml_status (Db.messages_log (db w2)) = [Db.PENDING]
  /\ Db.flood_wait_log (db w2) = []
  /\ option_map (fun r => (Redis.zsets r QueueManager.flood_wait_queue,
                           Redis.zsets r QueueManager.retry_queue,
                           Redis.lists r QueueManager.failed_queue,
                           Redis.lists r QueueManager.main_queue,
                           Redis.zsets r QueueManager.priority_queue))
                (redis w2) = Some ([], [], [], [], []).
Proof.
  cbv zeta.
  destruct (flood_wait_not_rescheduled (Sample.waiting 30))
    as (_ & Hitem & Hturn & Hdb & _).
  split; [reflexivity|]. split; [reflexivity|].
  split; [apply (Hitem Sample.queued_item _ _ _ _ eq_refl eq_refl eq_refl eq_refl)|].
  split; [now rewrite Hturn|].
  rewrite Hdb. split; [reflexivity|]. split; [reflexivity|].
  rewrite Hturn. vm_compute. reflexivity.
Defined.

End EngineFacts.

(* ================================================================= *)
(** ** More on the queue manager *)

Module QueueMore.
Import Py Run QueueManager QueueFacts.
#[local] Open Scope run_scope.



(** X2: [dequeue_message] never raises: it returns under every state,
    and before [start] it returns [None] and changes nothing. *)
Theorem dequeue_message_returns (w : world) :
  exists v w',
    dequeue_message w = (Ok v, w')
    /\ (redis w = None -> v = None /\ w' = w).
Proof.
  unfold dequeue_message, bind, get. destruct (redis w) as [r|] eqn:Hr.
  - unfold try_except.
    match goal with
    | |- context [match ?run w with _ => _ end] => destruct (run w) as [[v|e] w']
    end; eexists; eexists; (split; [reflexivity | discriminate]).
  - eexists. eexists. split; [reflexivity | auto].
Qed.



(** X4: before [start] every enqueue operation raises
    [RuntimeError("Queue manager not started")] and changes nothing: no
    queue is written to and the clock is not read; [dequeue_message]
    returns [None] and changes nothing either. *)
Theorem enqueue_requires_start (w : world) (d : dict) (n : Z) (text : string) :
  redis w = None ->
  enqueue_message d n w = (Raise (RuntimeError "Queue manager not started"), w)
  /\ enqueue_retry d n w = (Raise (RuntimeError "Queue manager not started"), w)
  /\ enqueue_flood_wait d n w = (Raise (RuntimeError "Queue manager not started"), w)
  /\ enqueue_failed d text w = (Raise (RuntimeError "Queue manager not started"), w)
  /\ dequeue_message w = (Ok None, w).
Proof.
  intros H.
  unfold enqueue_message, enqueue_retry, enqueue_flood_wait, enqueue_failed,
    dequeue_message, connection, bind, get. rewrite H. repeat split.
Qed.

Lemma enqueue_requires_start_witness :
  enqueue_retry Sample.message 5 (set_redis None Sample.delivering)
  = (Raise (RuntimeError "Queue manager not started"),
     set_redis None Sample.delivering)
  /\ dequeue_message (set_redis None Sample.delivering)
     = (Ok None, set_redis None Sample.delivering).
Proof.
  pose proof (enqueue_requires_start (set_redis None Sample.delivering)
                Sample.message 5 "" eq_refl) as H.
  split; [apply H | apply H].
Defined.

(** X5: [enqueue_flood_wait] does not count an attempt: the item keeps
    its [attempts], gets [flood_wait_until] and [flood_wait_duration], and
    goes to the flood-wait set with the score now + wait; the main list and
    the retry set are as before, and a pass of the flood-wait sweeper that
    starts before that score leaves the item where it is.  The wait is one
    [timedelta] holds and the end of the wait one [datetime] holds; beyond
    that Python raises [OverflowError]. *)
Theorem enqueue_flood_wait_keeps_attempts (w : world) (r : Redis.store)
  (d : dict) (wait : Z) :
  redis w = Some r ->
  NoDup (map fst (Redis.zsets r flood_wait_queue)) ->
  timedelta_fits wait = true ->
  datetime_fits (clock w (reads w) + timedelta_seconds wait) = true ->
  exists d1 w1 r1,
    let wait_until := timestamp (clock w (S (reads w))) + timedelta_seconds wait in
    enqueue_flood_wait d wait w = (Ok d1, w1)
    /\ redis w1 = Some r1
    /\ dict_get d1 "attempts" = dict_get d "attempts"
    /\ dict_get d1 "flood_wait_duration" = Some (VInt wait)
    /\ dict_get d1 "flood_wait_until"
       = Some (VStr (isoformat (clock w (reads w) + timedelta_seconds wait)))
    /\ (forall k, k <> "flood_wait_until" -> k <> "flood_wait_duration" ->
                  dict_get d1 k = dict_get d k)
    /\ In (json_dumps (VDict d1), wait_until) (Redis.zsets r1 flood_wait_queue)
    /\ Redis.lists r1 main_queue = Redis.lists r main_queue
    /\ Redis.zsets r1 retry_queue = Redis.zsets r retry_queue
    /\ (timestamp (clock w1 (reads w1)) < wait_until ->
        exists r2,
          redis (snd (_process_flood_wait_queue_pass w1)) = Some r2
          /\ In (json_dumps (VDict d1), wait_until)
                (Redis.zsets r2 flood_wait_queue)).
Proof.
  intros Hr Hnd _ _.
  unfold enqueue_flood_wait, connection, bind, get, utcnow, put_store, modify,
    set_redis, ret. rewrite Hr. cbn [redis db clock reads bot_initialized
                                     user_running api].
  eexists. eexists. eexists. cbv zeta.
  split; [reflexivity|]. split; [reflexivity|].
  split; [now rewrite !DictFacts.dict_get_set_neq by discriminate|].
  split; [apply DictFacts.dict_get_set_eq|].
  split.
  { rewrite DictFacts.dict_get_set_neq by discriminate.
    apply DictFacts.dict_get_set_eq. }
  split.
  { intros k H1 H2. now rewrite !DictFacts.dict_get_set_neq by congruence. }
  assert (Hin : In (json_dumps
                      (VDict (dict_set (dict_set d "flood_wait_until"
                         (VStr (isoformat (clock w (reads w) + timedelta_seconds wait))))
                         "flood_wait_duration" (VInt wait))),
                    timestamp (clock w (S (reads w))) + timedelta_seconds wait)
                   (Redis.zsets
                      (Redis.zadd r flood_wait_queue
                         (json_dumps
                            (VDict (dict_set (dict_set d "flood_wait_until"
                               (VStr (isoformat (clock w (reads w)
                                                 + timedelta_seconds wait))))
                               "flood_wait_duration" (VInt wait))))
                         (timestamp (clock w (S (reads w)))
                          + timedelta_seconds wait))
                      flood_wait_queue)).
  { unfold Redis.zadd. cbn [Redis.zsets]. rewrite RedisFacts.upd_same.
    apply RedisFacts.in_zinsert. now left. }
  split; [exact Hin|].
  split; [reflexivity|]. split; [reflexivity|].
  intros Hlt.
  eapply (sweep_keeps_unready flood_wait_queue);
    [reflexivity | now apply RedisFacts.NoDup_zadd | exact Hin | exact Hlt].
Qed.

Lemma enqueue_flood_wait_keeps_attempts_witness :
  exists d1 w1 r1,
    enqueue_flood_wait [("attempts", VInt 2)] 30 Sample.delivering = (Ok d1, w1)
    /\ redis w1 = Some r1
    /\ dict_get d1 "attempts" = Some (VInt 2)
    /\ In (json_dumps (VDict d1), 1730592031000000)
          (Redis.zsets r1 flood_wait_queue).
Proof.
  destruct (enqueue_flood_wait_keeps_attempts Sample.delivering Redis.empty
              [("attempts", VInt 2)] 30 eq_refl (NoDup_nil _) eq_refl eq_refl)
    as (d1 & w1 & r1 & E & R & A & _ & _ & _ & I & _).
  exists d1, w1, r1. repeat split; assumption.
Defined.

(** X6: [enqueue_retry] on an item whose [attempts] is not a number
    raises [TypeError] before anything is written: the item is in no
    queue. *)
Theorem enqueue_retry_rejects_non_numeric (w : world) (r : Redis.store)
  (d : dict) (delay : Z) (v : value) :
  redis w = Some r ->
  dict_get d "attempts" = Some v ->
  match v with VInt _ | VBool _ => False | _ => True end ->
  enqueue_retry d delay w = (Raise TypeError, w).
Proof.
  intros Hr Hv Hn.
  unfold enqueue_retry, connection, bind, get, dict_get_default.
  rewrite Hr, Hv. destruct v; try contradiction; reflexivity.
Qed.

Lemma enqueue_retry_rejects_non_numeric_witness :
  enqueue_retry [("attempts", VStr "2")] 5 Sample.delivering
  = (Raise TypeError, Sample.delivering).
Proof.
  apply (enqueue_retry_rejects_non_numeric Sample.delivering Redis.empty
           [("attempts", VStr "2")] 5 (VStr "2") eq_refl eq_refl I).
Defined.

Ltac run_cases :=
  repeat match goal with
         | |- context [match ?x with _ => _ end] => destruct x
         | |- context [if ?x then _ else _] => destruct x
         end.

Lemma move_to_main_leaves_failed (queue : string) (e : string * Z) (w : world) :
  option_map (fun r => Redis.lists r failed_queue) (redis (snd (move_to_main queue e w)))
  = option_map (fun r => Redis.lists r failed_queue) (redis w).
Proof.
  destruct e as [m s]. unfold move_to_main, remove_member, bind, get.
  destruct (redis w) as [r|] eqn:Hr; [|cbn; rewrite ?Hr; reflexivity].
  unfold put_store, modify. cbn [snd fst]. unfold reenqueue.
  destruct (json_loads m) as [[| | | | |md]|]; reflexivity.
Qed.

(** X7: nothing but [enqueue_failed] and [clear_queue] touches the
    dead-letter list: enqueueing, scheduling a retry or a flood wait,
    dequeueing and the passes of both sweepers leave it as it is, so an
    item placed there is never processed again. *)
Theorem dead_letter_is_terminal (w : world) :
  let failed := fun w => option_map (fun r => Redis.lists r failed_queue) (redis w) in
  (forall d p, failed (snd (enqueue_message d p w)) = failed w)
  /\ (forall d delay, failed (snd (enqueue_retry d delay w)) = failed w)
  /\ (forall d wait, failed (snd (enqueue_flood_wait d wait w)) = failed w)
  /\ failed (snd (dequeue_message w)) = failed w
  /\ failed (snd (_process_retry_queue_pass w)) = failed w
  /\ failed (snd (_process_flood_wait_queue_pass w)) = failed w.
Proof.
  cbv zeta.
  assert (S : forall queue,
             option_map (fun r => Redis.lists r failed_queue)
                        (redis (snd (sweep queue w)))
             = option_map (fun r => Redis.lists r failed_queue) (redis w)).
  { intros queue. unfold sweep, try_except.
    match goal with
    | |- context [match ?run w with _ => _ end] =>
        assert (G : option_map (fun r => Redis.lists r failed_queue)
                               (redis (snd (run w)))
                    = option_map (fun r => Redis.lists r failed_queue) (redis w))
    end.
    { unfold utcnow at 1. unfold bind at 1. unfold ready_members, get.
      unfold bind at 1. unfold bind at 1. cbn [redis].
      destruct (redis w) as [r|] eqn:Hr; [|cbn; rewrite ?Hr; reflexivity].
      unfold ret at 1.
      apply (for_each_invariant
               (fun w' => option_map (fun r => Redis.lists r failed_queue) (redis w')
                          = Some (Redis.lists r failed_queue))).
      - intros e _ w' Hw'. now rewrite move_to_main_leaves_failed.
      - reflexivity. }
    match goal with
    | |- context [match ?run w with _ => _ end] =>
        destruct (run w) as [[[]|e] w']
    end; exact G. }
  repeat split.
  - intros d p. unfold enqueue_message, connection, bind, get.
    destruct (redis w) as [r|] eqn:Hr; [|cbn; rewrite ?Hr; reflexivity].
    cbn. destruct (p >? 0); reflexivity.
  - intros d delay. unfold enqueue_retry, connection, bind, get, plus_one.
    destruct (redis w) as [r|] eqn:Hr; [|cbn; rewrite ?Hr; reflexivity].
    destruct (dict_get_default d "attempts" (VInt 0)); cbn; now rewrite ?Hr.
  - intros d wait. unfold enqueue_flood_wait, connection, bind, get.
    destruct (redis w) as [r|] eqn:Hr; [|cbn; rewrite ?Hr; reflexivity].
    reflexivity.
  - unfold dequeue_message, bind, get.
    destruct (redis w) as [r|] eqn:Hr; [|cbn; rewrite ?Hr; reflexivity].
    unfold try_except, Redis.zpopmax, Redis.brpop.
    destruct (rev (Redis.zsets r priority_queue)) as [|[m s] front].
    + destruct (rev (Redis.lists r main_queue)) as [|x front].
      * cbn. now rewrite Hr.
      * unfold put_store, modify, bind. cbn [snd fst].
        destruct (json_loads x); reflexivity.
    + unfold put_store, modify, bind. cbn [snd fst].
      destruct (json_loads m); reflexivity.
  - apply S.
  - apply S.
Qed.

(** X8: [enqueue_failed] puts the item at the head of the dead-letter
    list with [final_attempts] equal to its [attempts] (0 when it has
    none), the error text and the time; the other queues are as before. *)
Theorem enqueue_failed_records (w : world) (r : Redis.store) (d : dict)
  (error_message : string) :
  redis w = Some r ->
  exists d1 w1 r1,
    enqueue_failed d error_message w = (Ok d1, w1)
    /\ redis w1 = Some r1
    /\ Redis.lists r1 failed_queue = json_dumps (VDict d1) :: Redis.lists r failed_queue
    /\ dict_get d1 "final_attempts" = Some (dict_get_default d "attempts" (VInt 0))
    /\ dict_get d1 "final_error" = Some (VStr error_message)
    /\ dict_get d1 "failed_at" = Some (VStr (isoformat (clock w (reads w))))
    /\ (forall k, k <> "final_attempts" -> k <> "final_error" -> k <> "failed_at" ->
                  dict_get d1 k = dict_get d k)
    /\ Redis.lists r1 main_queue = Redis.lists r main_queue
    /\ Redis.zsets r1 = Redis.zsets r.
Proof.
  intros Hr.
  unfold enqueue_failed, connection, bind, get, utcnow, put_store, modify,
    set_redis, ret. rewrite Hr.
  cbn [redis db clock reads bot_initialized user_running api].
  eexists. eexists. eexists.
  split; [reflexivity|]. split; [reflexivity|].
  split. { unfold Redis.lpush. cbn [Redis.lists]. now rewrite RedisFacts.upd_same. }
  split.
  { rewrite DictFacts.dict_get_set_eq. f_equal. unfold dict_get_default.
    now rewrite !DictFacts.dict_get_set_neq by discriminate. }
  split.
  { rewrite DictFacts.dict_get_set_neq by discriminate.
    apply DictFacts.dict_get_set_eq. }
  split.
  { rewrite !DictFacts.dict_get_set_neq by discriminate.
    apply DictFacts.dict_get_set_eq. }
  split.
  { intros k H1 H2 H3. now rewrite !DictFacts.dict_get_set_neq by congruence. }
  split; reflexivity.
Qed.

Lemma enqueue_failed_records_witness :
  exists d1 w1 r1,
    enqueue_failed [("attempts", VInt 3)] "timeout" Sample.delivering = (Ok d1, w1)
    /\ redis w1 = Some r1
    /\ Redis.lists r1 failed_queue = [json_dumps (VDict d1)]
    /\ dict_get d1 "final_attempts" = Some (VInt 3).
Proof.
  destruct (enqueue_failed_records Sample.delivering Redis.empty
              [("attempts", VInt 3)] "timeout" eq_refl)
    as (d1 & w1 & r1 & E & R & L & A & _).
  exists d1, w1, r1. repeat split; assumption.
Defined.

Lemma length_zremove (z : Redis.zset) (m : string) (s : Z) :
  NoDup (map fst z) -> In (m, s) z ->
  (List.length (Redis.zremove m z) + 1 = List.length z)%nat.
Proof.
  unfold Redis.zremove. induction z as [|[k t] z IH]; cbn; [tauto|].
  intros Hnd Hin. inversion Hnd as [|? ? Hk Hz]; subst.
  destruct (String.eqb_spec k m) as [->|Hne]; cbn.
  - assert (E : filter (fun e => negb (String.eqb (fst e) m)) z = z).
    { clear - Hk. induction z as [|[k' t'] z IH]; cbn; [reflexivity|].
      destruct (String.eqb_spec k' m) as [->|_]; cbn.
      - exfalso. apply Hk. now left.
      - rewrite IH; [reflexivity|]. intros H. apply Hk. now right. }
    rewrite E. lia.
  - destruct Hin as [Hin|Hin]; [congruence|]. rewrite <- (IH Hz Hin). lia.
Qed.

Lemma length_remove_all (es : list (string * Z)) (z : Redis.zset) :
  NoDup (map fst z) -> NoDup (map fst es) -> incl es z ->
  (List.length (fold_left (fun z e => Redis.zremove (fst e) z) es z)
   + List.length es = List.length z)%nat.
Proof.
  revert z. induction es as [|[m s] es IH]; intros z Hz He Hin; cbn; [lia|].
  inversion He as [|? ? Hm Hes]; subst.
  assert (Hms : In (m, s) z) by (apply Hin; now left).
  pose proof (length_zremove z m s Hz Hms) as L1.
  assert (L2 := IH (Redis.zremove m z) (RedisFacts.NoDup_zremove m z Hz) Hes).
  cbn [map fst] in *.
  rewrite <- L1. rewrite <- L2; [lia|].
  intros e' He'. apply RedisFacts.in_zremove. split.
  - apply Hin. now right.
  - intros E. apply Hm. rewrite <- E. now apply in_map.
Qed.

Lemma NoDup_members_filter (f : string * Z -> bool) (z : Redis.zset) :
  NoDup (map fst z) -> NoDup (map fst (filter f z)).
Proof.
  induction z as [|e z IH]; cbn; [auto|].
  intros H. inversion H as [|? ? Hk Hz]; subst.
  destruct (f e); cbn; [|now apply IH].
  constructor; [|now apply IH].
  intros Hin. apply Hk. apply in_map_iff in Hin.
  destruct Hin as (x & E & Hx). apply filter_In in Hx.
  apply in_map_iff. exists x. tauto.
Qed.

(** X9: a pass of a sweeper whose ready members are all texts of
    well-formed dicts moves every one of them: no ready member is left in
    the set, the members that are not yet ready stay, and the set loses as
    many members as the main list gains, so no item is lost and none is in
    two queues. *)
Theorem sweep_moves_every_ready_member (queue : string) (w : world)
  (r : Redis.store) :
  redis w = Some r ->
  NoDup (map fst (Redis.zsets r queue)) ->
  (forall e, In e (Redis.zrangebyscore r queue 0 (timestamp (clock w (reads w)))) ->
             exists d, fst e = json_dumps (VDict d) /\ wf (VDict d) = true) ->
  exists w' r',
    let now := timestamp (clock w (reads w)) in
    let ready := Redis.zrangebyscore r queue 0 now in
    sweep queue w = (Ok tt, w')
    /\ redis w' = Some r'
    /\ Redis.zrangebyscore r' queue 0 now = []
    /\ (forall e, In e (Redis.zsets r queue) -> ~ In e ready ->
                  In e (Redis.zsets r' queue))
    /\ List.length (Redis.lists r' main_queue)
       = (List.length ready + List.length (Redis.lists r main_queue))%nat
    /\ (Redis.zcard r' queue + List.length ready = Redis.zcard r queue)%nat.
Proof.
  intros Hr Hnd Hready.
  destruct (move_all queue _ (snd (utcnow w)) r Hr Hready)
    as (w' & r' & E & R & Z & L & _).
  exists w', r'. cbv zeta.
  split.
  { unfold sweep, try_except.
    unfold utcnow at 1. unfold bind at 1. unfold ready_members, get.
    unfold bind at 1. unfold bind at 1. cbn [redis]. rewrite Hr.
    unfold ret at 1. unfold utcnow in E. cbn [snd] in E. rewrite Hr in E.
    now rewrite E. }
  split; [exact R|].
  assert (Hmem : forall x, In x (Redis.zrangebyscore r queue 0
                                    (timestamp (clock w (reads w)))) ->
                           In x (Redis.zsets r queue))
    by (intros x Hx; unfold Redis.zrangebyscore in Hx; apply filter_In in Hx; tauto).
  split.
  { unfold Redis.zrangebyscore at 1. rewrite Z.
    destruct (filter _ _) as [|x l] eqn:F; [reflexivity|]. exfalso.
    assert (Hx : In x (x :: l)) by now left. rewrite <- F in Hx.
    apply filter_In in Hx. destruct Hx as [Hx Hp].
    apply in_remove_all in Hx. destruct Hx as [Hx Hn]. apply Hn.
    apply in_map. unfold Redis.zrangebyscore. apply filter_In. tauto. }
  split.
  { intros e He Hn. rewrite Z. apply in_remove_all. split; [exact He|].
    intros Hf. apply in_map_iff in Hf. destruct Hf as (x & Ex & Hx).
    apply Hn. destruct e as [m s], x as [m' s']. cbn [fst] in Ex. subst m'.
    rewrite (zset_score_unique _ _ _ _ Hnd He (Hmem _ Hx)). exact Hx. }
  split; [exact L|].
  unfold Redis.zcard. rewrite Z. apply length_remove_all.
  - exact Hnd.
  - unfold Redis.zrangebyscore. now apply NoDup_members_filter.
  - intros x Hx. now apply Hmem.
Qed.

Lemma sweep_moves_every_ready_member_witness :
  exists w2 r2,
    sweep retry_queue (snd (enqueue_retry (Sample.item 1) 1 Sample.delivering))
    = (Ok tt, w2)
    /\ redis w2 = Some r2
    /\ Redis.zcard r2 retry_queue = 0%nat
    /\ List.length (Redis.lists r2 main_queue) = 1%nat.
Proof.
  pose (d1 := dict_set (dict_set (Sample.item 1) "attempts" (VInt 1)) "retry_after"
                (VStr (isoformat (Sample.seconds 0 + timedelta_seconds 1)))).
  pose (r1 := Redis.zadd Redis.empty retry_queue (json_dumps (VDict d1))
                (Sample.seconds 1 + timedelta_seconds 1)).
  assert (Hready : forall e,
             In e (Redis.zrangebyscore r1 retry_queue 0
                     (timestamp (Sample.seconds 2))) ->
             exists d, fst e = json_dumps (VDict d) /\ wf (VDict d) = true).
  { intros e He. exists d1. split; [|reflexivity].
    unfold Redis.zrangebyscore in He. apply filter_In in He.
    destruct He as [[<-|[]] _]. reflexivity. }
  destruct (sweep_moves_every_ready_member retry_queue
              (snd (enqueue_retry (Sample.item 1) 1 Sample.delivering)) r1
              eq_refl (RedisFacts.NoDup_zadd Redis.empty retry_queue _ _ (NoDup_nil _))
              Hready)
    as (w2 & r2 & E & R & _ & _ & L & C).
  exists w2, r2. split; [exact E|]. split; [exact R|].
  cbv zeta in L, C.
  assert (N : List.length
                (Redis.zrangebyscore r1 retry_queue 0
                   (timestamp (clock (snd (enqueue_retry (Sample.item 1) 1
                                             Sample.delivering))
                                     (reads (snd (enqueue_retry (Sample.item 1) 1
                                                    Sample.delivering))))))
              = 1%nat) by reflexivity.
  rewrite N in L, C.
  assert (C1 : Redis.zcard r1 retry_queue = 1%nat) by reflexivity.
  rewrite C1 in C. split; [lia | exact L].
Defined.



(** X11: [get_queue_size] never raises and writes nothing; before [start]
    it returns the empty dict, afterwards the sizes of the five structures
    and, as [total], the number of items held in all of them. *)
Theorem get_queue_size_total (w : world) :
  exists sizes,
    get_queue_size w = (Ok sizes, w)
    /\ match redis w with
       | None => sizes = []
       | Some r =>
           dict_get sizes "main" = Some (VInt (Z.of_nat (Redis.llen r main_queue)))
           /\ dict_get sizes "priority"
              = Some (VInt (Z.of_nat (Redis.zcard r priority_queue)))
           /\ dict_get sizes "retry"
              = Some (VInt (Z.of_nat (Redis.zcard r retry_queue)))
           /\ dict_get sizes "flood_wait"
              = Some (VInt (Z.of_nat (Redis.zcard r flood_wait_queue)))
           /\ dict_get sizes "failed"
              = Some (VInt (Z.of_nat (Redis.llen r failed_queue)))
           /\ dict_get sizes "total"
              = Some (VInt (Z.of_nat (Redis.llen r main_queue
                                      + Redis.zcard r priority_queue
                                      + Redis.zcard r retry_queue
                                      + Redis.zcard r flood_wait_queue
                                      + Redis.llen r failed_queue)))
       end.
Proof.
  unfold get_queue_size, bind, get. destruct (redis w) as [r|].
  - eexists. split; [reflexivity|]. cbn [dict_get String.eqb Ascii.eqb Bool.eqb].
    repeat split. cbn [dict_get dict_set String.eqb Ascii.eqb Bool.eqb].
    do 2 f_equal. lia.
  - exists []. split; reflexivity.
Qed.

(** X12: [clear_queue('main')] empties the main list and the priority
    set, leaves the retry set, the flood-wait set and the dead-letter list
    as they are and returns how many of the two keys existed; the next
    [dequeue_message] finds nothing.  A name that is none of the four is
    answered with 0 and clears nothing. *)
Theorem clear_queue_main (w : world) (r : Redis.store) :
  redis w = Some r ->
  (exists n w' r',
      clear_queue "main" w = (Ok n, w')
      /\ redis w' = Some r'
      /\ n = (match Redis.lists r main_queue, Redis.zsets r main_queue with
              | [], [] => 0 | _, _ => 1 end)
             + (match Redis.lists r priority_queue, Redis.zsets r priority_queue with
                | [], [] => 0 | _, _ => 1 end)
      /\ Redis.lists r' main_queue = []
      /\ Redis.zsets r' priority_queue = []
      /\ Redis.zsets r' retry_queue = Redis.zsets r retry_queue
      /\ Redis.zsets r' flood_wait_queue = Redis.zsets r flood_wait_queue
      /\ Redis.lists r' failed_queue = Redis.lists r failed_queue
      /\ dequeue_message w' = (Ok None, w'))
  /\ (forall name,
        name <> "main" -> name <> "retry" -> name <> "flood_wait" ->
        name <> "failed" ->
        clear_queue name w = (Ok 0, w)).
Proof.
  intros Hr. split.
  - unfold clear_queue, bind, get. rewrite Hr.
    cbn [String.eqb Ascii.eqb Bool.eqb]. unfold try_except, Redis.del.
    unfold put_store, modify, bind, ret. cbn [fst snd].
    eexists. eexists. eexists.
    split; [reflexivity|]. split; [reflexivity|].
    split; [reflexivity|].
    repeat (split; [reflexivity|]).
    eapply dequeue_nothing; reflexivity.
  - intros name H1 H2 H3 H4. unfold clear_queue, bind, get. rewrite Hr.
    apply String.eqb_neq in H1, H2, H3, H4. now rewrite H1, H2, H3, H4.
Qed.

Lemma clear_queue_main_witness :
  exists n w',
    clear_queue "main"
      (snd ((enqueue_message (Sample.item 1) 0 ;;;
             enqueue_message (Sample.item 2) 4) Sample.delivering))
    = (Ok n, w')
    /\ dequeue_message w' = (Ok None, w').
Proof.
  destruct (clear_queue_main
              (snd ((enqueue_message (Sample.item 1) 0 ;;;
                     enqueue_message (Sample.item 2) 4) Sample.delivering))
              (match redis
                       (snd ((enqueue_message (Sample.item 1) 0 ;;;
                              enqueue_message (Sample.item 2) 4)
                               Sample.delivering)) with
               | Some r => r
               | None => Redis.empty
               end) eq_refl)
    as [(n & w' & r' & E & _ & _ & _ & _ & _ & _ & _ & D) _].
  exists n, w'. split; assumption.
Defined.

End QueueMore.

(** * The deduplication cache *)

Module DedupMore.
Import Py Run DeduplicationService.
#[local] Open Scope run_scope.

(** The three maintenance operations stop where they ask for a session;
    [cleanup_expired_entries] has read the clock by then. *)
Lemma cleanup_expired_entries_run (ttl : Z) (w : world) :
  cleanup_expired_entries ttl w = (Ok 0, snd (utcnow w)).
Proof. reflexivity. Qed.

Lemma get_cache_statistics_run (ttl : Z) (w : world) :
  get_cache_statistics ttl w
  = (Ok [ ("total_entries", VInt 0); ("valid_entries", VInt 0);
          ("expired_entries", VInt 0); ("cache_ttl_hours", VInt ttl) ], w).
Proof. reflexivity. Qed.

Lemma force_cleanup_all_run (w : world) : force_cleanup_all w = (Ok 0, w).
Proof. reflexivity. Qed.



(** X14: [is_duplicate] answers [False] for every message and in every
    state, and changes nothing: without a content hash at once, with one
    because the lookup raises where it asks for a session and the handler
    returns [False].  A message whose content hash has an entry in the
    cache younger than the time to live is answered no differently. *)
Theorem is_duplicate_never_rejects (ttl : Z) (message_data : dict) (w : world) :
  is_duplicate ttl message_data w = (Ok false, w)
  /\ (exists e,
        In e (Db.deduplication_cache (db Sample.cached))
        /\ dict_get Sample.message "content_hash" = Some (VStr (Db.dc_content_hash e))
        /\ clock Sample.cached (reads Sample.cached)
           < Db.dc_created_at e + timedelta_hours 24
        /\ is_duplicate 24 Sample.message Sample.cached = (Ok false, Sample.cached)).
Proof.
  split; [apply DedupFacts.is_duplicate_false|].
  exists (Db.mk_DeduplicationCache 1 "abc" 100 7 (Sample.seconds 0)).
  split; [now left|]. split; [reflexivity|]. split; [reflexivity|].
  apply DedupFacts.is_duplicate_false.
Qed.

(** X15: [_is_cache_valid] forms the expiry time, reads the clock and
    compares the two.  [datetime.utcnow()] is naive, so the comparison is
    made for a naive [created_at] only, and says whether the clock is
    before [created_at] plus the time to live; for an aware [created_at],
    as the [DateTime(timezone=True)] column of the cache gives it, the
    comparison raises [TypeError].  The time to live is one a [timedelta]
    holds and the expiry time one a [datetime] holds. *)
Theorem cache_validity_needs_naive_stamp (ttl : Z) (created_at : stamp)
  (w : world) :
  timedelta_fits (ttl * 3600) = true ->
  datetime_fits (instant created_at + timedelta_hours ttl) = true ->
  _is_cache_valid ttl created_at w
  = (if aware created_at then Raise TypeError
     else Ok (clock w (reads w) <? instant created_at + timedelta_hours ttl),
     snd (utcnow w)).
Proof.
  intros _ _. unfold _is_cache_valid, bind, stamp_lt, utcnow.
  cbn [aware instant fst snd]. destruct (aware created_at); reflexivity.
Qed.

Lemma cache_validity_needs_naive_stamp_witness :
  _is_cache_valid 24
    (Db.created_at (Db.mk_DeduplicationCache 1 "abc" 100 7 (Sample.seconds 0)))
    Sample.cached
  = (Raise TypeError, snd (utcnow Sample.cached))
  /\ _is_cache_valid 24 (mk_stamp (Sample.seconds 0) false) Sample.cached
     = (Ok true, snd (utcnow Sample.cached)).
Proof.
  split.
  - apply (cache_validity_needs_naive_stamp 24
             (Db.created_at (Db.mk_DeduplicationCache 1 "abc" 100 7 (Sample.seconds 0)))
             Sample.cached); reflexivity.
  - apply (cache_validity_needs_naive_stamp 24 (mk_stamp (Sample.seconds 0) false)
             Sample.cached); reflexivity.
Defined.

(** X16: [mark_as_processed] records nothing.  For every message and in
    every state it returns with the state as it was: an incomplete message
    is skipped, and for a complete one the insert is not reached, as the
    request for a session raises and the handler logs the exception.  The
    cache of the sample engine is empty after its message was marked. *)
Theorem mark_as_processed_writes_nothing (message_data : dict) (w : world) :
  mark_as_processed message_data w = (Ok tt, w)
  /\ Db.deduplication_cache
       (db (snd (mark_as_processed Sample.message Sample.delivering))) = [].
Proof.
  split; [apply DedupFacts.mark_as_processed_noop|].
  now rewrite DedupFacts.mark_as_processed_noop.
Qed.

(** X17: a message that was marked is not a duplicate: [is_duplicate]
    right after [mark_as_processed] of the same message answers [False],
    whatever the time to live, and the two calls leave the state as it
    was. *)
Theorem mark_then_is_duplicate (ttl : Z) (message_data : dict) (w : world) :
  (mark_as_processed message_data ;;; is_duplicate ttl message_data) w
  = (Ok false, w).
Proof.
  unfold bind. rewrite DedupFacts.mark_as_processed_noop.
  apply DedupFacts.is_duplicate_false.
Qed.

(** X18: [mark_as_processed] never raises and writes to nothing but the
    cache; a message whose fingerprint, source channel or message id is
    missing, empty or zero is not marked at all. *)
Theorem mark_as_processed_returns (message_data : dict) (w : world) :
  exists w',
    mark_as_processed message_data w = (Ok tt, w')
    /\ redis w' = redis w
    /\ Db.messages_log (db w') = Db.messages_log (db w)
    /\ (truthy (dict_get_default message_data "content_hash" VNone)
        && truthy (dict_get_default message_data "source_channel_id" VNone)
        && truthy (dict_get_default message_data "message_id" VNone) = false ->
        w' = w).
Proof.
  exists w. split; [apply DedupFacts.mark_as_processed_noop|]. now repeat split.
Qed.

(** X19: [cleanup_expired_entries] deletes nothing and returns 0, however
    old the entries of the cache are: it reads the clock for the cutoff
    time, the request for a session raises, and the handler returns 0.
    The database and the queues are as they were. *)
Theorem cleanup_deletes_nothing (ttl : Z) (w : world) :
  cleanup_expired_entries ttl w = (Ok 0, snd (utcnow w))
  /\ db (snd (cleanup_expired_entries ttl w)) = db w
  /\ redis (snd (cleanup_expired_entries ttl w)) = redis w
  /\ (exists e,
        Db.deduplication_cache (db (snd (cleanup_expired_entries 0 Sample.cached)))
        = [e]
        /\ Db.dc_created_at e + timedelta_hours 0
           <= clock Sample.cached (reads Sample.cached)).
Proof.
  split; [reflexivity|]. split; [reflexivity|]. split; [reflexivity|].
  exists (Db.mk_DeduplicationCache 1 "abc" 100 7 (Sample.seconds 0)).
  split; [reflexivity|]. vm_compute. discriminate.
Qed.

(** X20: [get_cache_statistics] never raises, writes nothing and reports
    no entries, whatever the cache holds: the request for a session raises
    and the handler returns the dict with the three counts at 0. *)
Theorem cache_statistics_all_zero (ttl : Z) (w : world) :
  get_cache_statistics ttl w
  = (Ok [ ("total_entries", VInt 0); ("valid_entries", VInt 0);
          ("expired_entries", VInt 0); ("cache_ttl_hours", VInt ttl) ], w)
  /\ List.length (Db.deduplication_cache (db Sample.cached)) = 1%nat
  /\ fst (get_cache_statistics 24 Sample.cached)
     = Ok [ ("total_entries", VInt 0); ("valid_entries", VInt 0);
            ("expired_entries", VInt 0); ("cache_ttl_hours", VInt 24) ].
Proof. repeat split. Qed.

(** X21: [force_cleanup_all] deletes nothing and returns 0: the request
    for a session raises and the handler returns 0, so the cache keeps its
    entries. *)
Theorem force_cleanup_deletes_nothing (w : world) :
  force_cleanup_all w = (Ok 0, w)
  /\ List.length
       (Db.deduplication_cache (db (snd (force_cleanup_all Sample.cached))))
     = 1%nat.
Proof. split; reflexivity. Qed.

End DedupMore.

(** * The message processor *)

Module ProcessorMore.
Import Py Run MessageProcessor.

(** X22: the fingerprint sees its three fields only through [str] and
    the [|] between them, so it does not tell apart a field from its text
    (the author id 5 from the text '5', no author from the text 'None'),
    nor a text that holds the separator from the fields it imitates. *)
Theorem fingerprint_not_injective (a b c : string) (text media author : value) :
  _generate_content_hash
    [("text", text); ("has_media", media); ("from_id", author)]
  = _generate_content_hash
      [("text", VStr (py_str text)); ("has_media", VStr (py_str media));
       ("from_id", VStr (py_str author))]
  /\ _generate_content_hash
       [("text", VStr (a ++ "|" ++ py_str media ++ "|" ++ b));
        ("has_media", media); ("from_id", VStr c)]
     = _generate_content_hash
         [("text", VStr a); ("has_media", media);
          ("from_id", VStr (b ++ "|" ++ py_str media ++ "|" ++ c))].
Proof.
  split; [reflexivity|].
  unfold _generate_content_hash, content_string, content_parts.
  cbn [dict_get_default dict_get String.eqb Ascii.eqb Bool.eqb join_bar py_str].
  do 2 f_equal. now rewrite !JsonFacts.append_assoc.
Qed.

(** X23: for a message as [get_messages] hands it over,
    [extract_message_data] returns the extracted dict; its [has_media] is
    the message's media flag, but the fingerprint and the message type are
    computed from the raw message, which has no [has_media]: the
    fingerprint is that of [text|False|from_id] whether or not the message
    has media, and the type is never [media]. *)
Theorem extracted_fingerprint_ignores_media (id : Z) (text : string)
  (date : value) (media : bool) (from_id : option Z) (source_channel_id : Z)
  (w : world) :
  exists d w',
    extract_message_data [message_dict id text date media from_id]
                         source_channel_id w = (Ok (Some d), w')
    /\ dict_get d "has_media" = Some (VBool media)
    /\ dict_get d "content_hash"
       = Some (VStr (Sha256.hexdigest
                       (utf8_encode
                          (text ++ "|False|"
                           ++ match from_id with
                              | Some user_id => py_str (VInt user_id)
                              | None => "None"
                              end))))
    /\ dict_get d "message_type"
       = Some (VStr (if String.eqb text "" then "other" else "text"))
    /\ dict_get d "message_id" = Some (VInt id)
    /\ db w' = db w /\ redis w' = redis w.
Proof.
  unfold extract_message_data, try_except, bind, subscript, utcnow, ret, message_dict.
  cbn [dict_get String.eqb Ascii.eqb Bool.eqb].
  eexists. eexists. split; [reflexivity|].
  cbn [dict_get String.eqb Ascii.eqb Bool.eqb db redis].
  repeat split.
  - unfold _generate_content_hash, content_string, content_parts.
    cbn [dict_get_default dict_get String.eqb Ascii.eqb Bool.eqb join_bar py_str].
    do 3 f_equal. destruct from_id; reflexivity.
  - unfold _determine_message_type.
    cbn [dict_get_default dict_get String.eqb Ascii.eqb Bool.eqb truthy].
    destruct (String.eqb text ""); reflexivity.
Qed.

End ProcessorMore.

(** * The forwarding engine *)

Module EngineMore.
Import Py Run ForwardingEngine.
#[local] Open Scope run_scope.

(** The flood-wait log is not written: the request for a session raises
    and the handler logs the exception. *)
Lemma log_flood_wait_run (operation_type : string) (wait_duration channel_id : Z)
  (w : world) :
  ClientFactory._log_flood_wait operation_type wait_duration channel_id w
  = (Ok tt, w).
Proof. reflexivity. Qed.

(** What the two clients and the factory return; the state is as it
    was. *)
Lemma bot_call_run (op : api_call) (to_chat from_chat msg : Z) (w : world) :
  ClientFactory.bot_call op to_chat from_chat msg w
  = (Ok (if bot_initialized w
         then match api w BOT op to_chat from_chat msg with
              | Sent m c d => Some (ClientFactory.mk_sent m c d)
              | _ => None
              end
         else None), w).
Proof.
  unfold ClientFactory.bot_call, bind, get.
  destruct (bot_initialized w); [|reflexivity].
  cbn [negb]. destruct (api w BOT op to_chat from_chat msg); reflexivity.
Qed.

Lemma user_call_run (op : api_call) (to_chat from_chat msg : Z) (w : world) :
  ClientFactory.user_call op to_chat from_chat msg w
  = (Ok (if user_running w
         then match api w USER op to_chat from_chat msg with
              | Sent m c d => Some (ClientFactory.mk_sent m c d)
              | _ => None
              end
         else None), w).
Proof.
  unfold ClientFactory.user_call, bind, get.
  destruct (user_running w); [|reflexivity].
  cbn [negb]. destruct (api w USER op to_chat from_chat msg); reflexivity.
Qed.

Lemma dispatch_run (op : api_call) (to_chat from_chat msg : Z)
  (client_type : ClientType) (w : world) :
  exists res,
    ClientFactory.dispatch op to_chat from_chat msg client_type w = (Ok res, w)
    /\ (client_type = USER ->
        forall seconds,
          api w USER op to_chat from_chat msg = FloodWaitError seconds ->
          res = None).
Proof.
  unfold ClientFactory.dispatch. destruct client_type.
  - rewrite bot_call_run. eexists. split; [reflexivity | discriminate].
  - rewrite user_call_run. eexists. split; [reflexivity|].
    intros _ seconds H. rewrite H. now destruct (user_running w).
  - unfold bind, get. rewrite bot_call_run.
    match goal with
    | |- context [match ?x with Some _ => _ | None => _ end] =>
        destruct x as [r|]
    end; [eexists; split; [reflexivity | discriminate]|].
    destruct (user_running w) eqn:U; [|eexists; split; [reflexivity | discriminate]].
    rewrite user_call_run. eexists. split; [reflexivity | discriminate].
Qed.

(** X24: [process_new_message] never raises, and a message gets into the
    queue only with a delivery record: either the log and the queues are
    as before, or the log has one more record, [PENDING] with no attempts,
    for this message id, and the queues are as before or have, at the head
    of the main list, one item that carries the id of that record. *)
Theorem admission_needs_record (source_channel_id message_id : Z)
  (message_data : dict) (w : world) :
  exists w',
    process_new_message source_channel_id message_id message_data w = (Ok tt, w')
    /\ (Db.messages_log (db w') = Db.messages_log (db w) /\ redis w' = redis w
        \/ exists r,
            Db.messages_log (db w') = (Db.messages_log (db w) ++ [r])%list
            /\ Db.ml_status r = Db.PENDING
            /\ Db.ml_source_message_id r = message_id
            /\ Db.ml_attempts r = 0
            /\ (redis w' = redis w
                \/ exists store item,
                    redis w = Some store
                    /\ redis w'
                       = Some (Redis.lpush store QueueManager.main_queue
                                           (json_dumps (VDict item)))
                    /\ dict_get item "message_log_id" = Some (VInt (Db.ml_id r)))).
Proof.
  exists w. split; [apply EngineFacts.process_new_message_run|]. left. now split.
Qed.

(** X25: a turn of the worker on empty queues changes nothing: when the
    queue manager is not started, or the priority set and the main list
    are empty, [dequeue_message] returns [None] and the turn ends. *)
Theorem worker_idles_on_empty_queues (w : world) :
  match redis w with
  | Some r => Redis.zsets r QueueManager.priority_queue = []
              /\ Redis.lists r QueueManager.main_queue = []
  | None => True
  end ->
  QueueManager.dequeue_message w = (Ok None, w)
  /\ worker_turn w = (Ok tt, w).
Proof.
  intros H.
  assert (D : QueueManager.dequeue_message w = (Ok None, w)).
  { destruct (redis w) as [r|] eqn:Hr.
    - destruct H as [Hz Hl]. now apply (QueueFacts.dequeue_nothing w r).
    - unfold QueueManager.dequeue_message, bind, get. now rewrite Hr. }
  split; [exact D|]. rewrite EngineFacts.worker_turn_run. now rewrite D.
Qed.

Lemma worker_idles_on_empty_queues_witness :
  worker_turn Sample.delivering = (Ok tt, Sample.delivering)
  /\ worker_turn (set_redis None Sample.delivering)
     = (Ok tt, set_redis None Sample.delivering).
Proof.
  split.
  - apply (worker_idles_on_empty_queues Sample.delivering). simpl. split; reflexivity.
  - apply (worker_idles_on_empty_queues (set_redis None Sample.delivering)).
    simpl. exact I.
Defined.

(** X26: [_forward_single_message] never raises and leaves the state as
    it was, the flood-wait log included; a flood wait of the user client
    comes back as [None], as any other failure of the delivery does, and
    the seconds to wait do not reach the caller. *)
Theorem forward_single_message_returns (source_channel_id message_id
  dest_channel_id : value) (mode : Db.ForwardingMode) (client_type : ClientType)
  (w : world) :
  exists res,
    _forward_single_message source_channel_id message_id dest_channel_id mode
      client_type w = (Ok res, w)
    /\ (forall to_chat from_chat msg seconds,
          dest_channel_id = VInt to_chat ->
          source_channel_id = VInt from_chat ->
          message_id = VInt msg ->
          client_type = USER ->
          api w USER (match mode with
                      | Db.FORWARD => api_forward
                      | Db.COPY => api_copy
                      end) to_chat from_chat msg = FloodWaitError seconds ->
          res = None).
Proof.
  unfold _forward_single_message, try_except,
    ClientFactory.forward_message, ClientFactory.copy_message.
  destruct dest_channel_id as [| |to_chat| | |];
    try (exists None; split; [reflexivity | discriminate]).
  destruct source_channel_id as [| |from_chat| | |];
    try (exists None; split; [reflexivity | discriminate]).
  destruct message_id as [| |msg| | |];
    try (exists None; split; [reflexivity | discriminate]).
  destruct mode.
  - destruct (dispatch_run api_forward to_chat from_chat msg client_type w)
      as (res & E & F).
    rewrite E. exists res. split; [reflexivity|].
    intros t f m s Ht Hf Hm Hc Ha. injection Ht as <-. injection Hf as <-.
    injection Hm as <-. exact (F Hc s Ha).
  - destruct (dispatch_run api_copy to_chat from_chat msg client_type w)
      as (res & E & F).
    rewrite E. exists res. split; [reflexivity|].
    intros t f m s Ht Hf Hm Hc Ha. injection Ht as <-. injection Hf as <-.
    injection Hm as <-. exact (F Hc s Ha).
Qed.

Lemma forward_single_message_returns_witness :
  _forward_single_message (VInt 100) (VInt 7) (VInt 200) Db.FORWARD USER
    (Sample.flooded 30) = (Ok None, Sample.flooded 30).
Proof.
  destruct (forward_single_message_returns (VInt 100) (VInt 7) (VInt 200)
              Db.FORWARD USER (Sample.flooded 30)) as (res & E & F).
  rewrite E. rewrite (F 200 100 7 30 eq_refl eq_refl eq_refl eq_refl eq_refl).
  reflexivity.
Defined.

(** X27: no update of a delivery record gets to the record: each of the
    four raises [TypeError] where it asks for a session, whatever the id,
    and leaves the log as it was, so that a record keeps the status it
    has. *)
Theorem delivery_record_never_updated (message_log_id : value) (w : world) :
  (forall status,
      _update_message_log_status message_log_id status w = (Raise TypeError, w))
  /\ (forall ids,
        _update_message_log_success message_log_id ids w = (Raise TypeError, w))
  /\ (forall ids,
        _update_message_log_partial_success message_log_id ids w
        = (Raise TypeError, w))
  /\ (forall text,
        _update_message_log_error message_log_id text w = (Raise TypeError, w)).
Proof. repeat split. Qed.

(** X28: [_process_queued_message] raises for every queue item and
    leaves the state as it was: [KeyError] for the first of
    [message_log_id], [source_channel_id], [message_id] and [mappings] that
    the item lacks, and [TypeError] for an item that is no dict or that
    has the four keys, for which the update to [PROCESSING] raises and the
    update in the handler raises again.  No destination is tried and the
    record is not settled. *)
Theorem queued_message_is_not_processed (queue_item : value) (w : world) :
  _process_queued_message queue_item w
  = (Raise match queue_item with
           | VDict d =>
               match dict_get d "message_log_id" with
               | None => KeyError "message_log_id"
               | Some _ =>
                   match dict_get d "source_channel_id" with
                   | None => KeyError "source_channel_id"
                   | Some _ =>
                       match dict_get d "message_id" with
                       | None => KeyError "message_id"
                       | Some _ =>
                           match dict_get d "mappings" with
                           | None => KeyError "mappings"
                           | Some _ => TypeError
                           end
                       end
                   end
               end
           | _ => TypeError
           end, w)
  /\ _process_queued_message (VDict Sample.queued_item) (Sample.waiting 30)
     = (Raise TypeError, Sample.waiting 30)
  /\ map Db.ml_status (Db.messages_log (db (Sample.waiting 30))) = [Db.PENDING].
Proof.
  split; [apply EngineFacts.process_queued_message_run|].
  split; [|reflexivity]. now rewrite EngineFacts.process_queued_message_run.
Qed.

(** X29: a delivery through the client factory never raises and writes
    nothing but the flood-wait log: the queues, the delivery log and the
    deduplication cache are as before; a row is logged only for a flood
    wait of the user client, and a delivery that succeeds or goes through
    the bot client alone leaves the whole database as it was. *)
Theorem delivery_writes_only_flood_wait_log (op : api_call)
  (to_chat from_chat msg : Z) (client_type : ClientType) (w : world) :
  exists res w',
    ClientFactory.dispatch op to_chat from_chat msg client_type w = (Ok res, w')
    /\ redis w' = redis w
    /\ Db.messages_log (db w') = Db.messages_log (db w)
    /\ Db.deduplication_cache (db w') = Db.deduplication_cache (db w)
    /\ (db w' = db w
        \/ exists seconds,
            api w USER op to_chat from_chat msg = FloodWaitError seconds
            /\ Db.flood_wait_log (db w')
               = (Db.flood_wait_log (db w)
                    ++ [Db.mk_FloodWaitLog (Db.flood_wait_log_seq (db w)) "user"
                          seconds (ClientFactory.operation_name op)
                          (Some to_chat)])%list)
    /\ (res <> None -> db w' = db w)
    /\ (client_type = BOT -> db w' = db w).
Proof.
  destruct (dispatch_run op to_chat from_chat msg client_type w) as (res & E & _).
  exists res, w. split; [exact E|]. repeat split; auto.
Qed.

(** X30: an item that lacks one of the four keys the worker reads is
    dropped: it has left the queue, the [KeyError] is swallowed by the
    worker loop, and nothing is written, so its record is not even marked
    failed. *)
Theorem worker_drops_malformed_item (w : world) (item : dict) :
  fst (QueueManager.dequeue_message w) = Ok (Some (VDict item)) ->
  item <> [] ->
  dict_get item "message_log_id" = None
  \/ dict_get item "source_channel_id" = None
  \/ dict_get item "message_id" = None
  \/ dict_get item "mappings" = None ->
  worker_turn w = (Ok tt, snd (QueueManager.dequeue_message w)).
Proof. intros _ _ _. apply EngineFacts.worker_turn_run. Qed.

Lemma worker_drops_malformed_item_witness :
  worker_turn (snd (QueueManager.enqueue_message (Sample.item 1) 0 Sample.delivering))
  = (Ok tt,
     snd (QueueManager.dequeue_message
            (snd (QueueManager.enqueue_message (Sample.item 1) 0
                    Sample.delivering)))).
Proof.
  apply (worker_drops_malformed_item
           (snd (QueueManager.enqueue_message (Sample.item 1) 0 Sample.delivering))
           (dict_set (dict_set (dict_set (Sample.item 1) "enqueued_at"
                                  (VStr (isoformat (Sample.seconds 0))))
                               "priority" (VInt 0))
                     "attempts" (VInt 0))).
  - vm_compute. reflexivity.
  - vm_compute. discriminate.
  - right. left. reflexivity.
Defined.

End EngineMore.
